(** * Credit-application lifecycle and risk-assessment engine

    A shallow embedding of the server core of the credit manager:
    - [server/routes/auth.js]: registration defaults, [getDefaultPermissions],
      and the application routes (update, submit, documents, assign, notes);
    - [server/middleware/auth.js]: [protect], [authorize], [checkPermission];
    - [server/services/aiCreditScoring.js]: feature extraction, both scoring
      engines (TensorFlow and demo), risk banding, fraud heuristics;
    - the AI route [/analyze], [generateNextSteps] and the conversion of the
      batch route;
    - [sensitiveRateLimit], the pages of [GET /applications] and the alerts
      of the dashboard.

    Conventions.  JavaScript numbers are exact rationals ([Q]) extended with
    [NaN]; an absent property is [None]; [Date] values are integer
    milliseconds; [Math.exp], [Math.random] and the TensorFlow prediction are
    inputs of the functions that use them. *)

From Stdlib Require Import QArith Qround ZArith Lia Permutation.
From stdpp Require Import base gmap strings list pretty.

Open Scope string_scope.

(** ** JavaScript values used by the services *)

Module Js.

(** A JavaScript number: a finite value or [NaN].  Finite values are exact
    rationals, a decimal literal of the source standing for the rational it
    writes; the binary64 rounding of a quotient is not modelled, so that a
    comparison of a quotient with a threshold can differ from the code's for
    an input within rounding distance of the threshold. *)
Inductive num : Type :=
| Fin (q : Q)
| NaN.

Definition isFin (n : num) : bool :=
  match n with Fin _ => true | NaN => false end.

Definition add (a b : num) : num :=
  match a, b with Fin x, Fin y => Fin (x + y) | _, _ => NaN end.

Definition mul (a b : num) : num :=
  match a, b with Fin x, Fin y => Fin (x * y) | _, _ => NaN end.

(** Division by a non-zero literal, the only division the services do on
    inputs. *)
Definition div (a : num) (d : Q) : num :=
  match a with Fin x => Fin (x / d) | NaN => NaN end.

(** Comparisons are [false] as soon as one side is [NaN]. *)
Definition ge (a : num) (b : Q) : bool :=
  match a with Fin x => Qle_bool b x | NaN => false end.

Definition lt (a : num) (b : Q) : bool :=
  match a with Fin x => negb (Qle_bool b x) | NaN => false end.

Definition gt (a : num) (b : Q) : bool :=
  match a with Fin x => negb (Qle_bool x b) | NaN => false end.

(** [Math.min] and [Math.max] against a literal propagate [NaN]. *)
Definition min (b : Q) (a : num) : num :=
  match a with Fin x => Fin (if Qle_bool b x then b else x) | NaN => NaN end.

Definition max (b : Q) (a : num) : num :=
  match a with Fin x => Fin (if Qle_bool x b then b else x) | NaN => NaN end.

(** [Math.round]: the nearest integer, halves rounded up. *)
Definition round (a : num) : num :=
  match a with Fin x => Fin (inject_Z (Qfloor (x + (1 # 2)))) | NaN => NaN end.

(** A numeric property of a request object: absent ([undefined]) or a
    number. *)
Definition prop := option Q.

(** [x || d] on a numeric property: [undefined] and [0] are falsy. *)
Definition orDefault (x : prop) (d : Q) : Q :=
  match x with
  | Some q => if Qeq_bool q 0 then d else q
  | None => d
  end.

(** [x > c] and [x < c] on a numeric property: [undefined] converts to
    [NaN], so the comparison is [false]. *)
Definition propGt (x : prop) (c : Q) : bool :=
  match x with Some q => negb (Qle_bool q c) | None => false end.

Definition propLt (x : prop) (c : Q) : bool :=
  match x with Some q => negb (Qle_bool c q) | None => false end.

(** Property names every object literal inherits from [Object.prototype]. *)
Definition objectPrototypeKeys : list string :=
  [ "constructor"; "__defineGetter__"; "__defineSetter__"; "hasOwnProperty";
    "__lookupGetter__"; "__lookupSetter__"; "isPrototypeOf";
    "propertyIsEnumerable"; "toString"; "valueOf"; "__proto__";
    "toLocaleString" ].

Definition inherited (key : string) : bool :=
  bool_decide (key ∈ objectPrototypeKeys).

(** The result of [obj[key]] on an object literal: an own property, a
    member inherited from [Object.prototype] (a function or object, hence
    truthy and not a number), or [undefined]. *)
Inductive lookup (A : Type) : Type :=
| Own (a : A)
| Inherited (key : string)
| Undefined.
Arguments Own {A} a.
Arguments Inherited {A} key.
Arguments Undefined {A}.

Fixpoint assoc {A} (own : list (string * A)) (key : string) : option A :=
  match own with
  | [] => None
  | (k, v) :: rest => if String.eqb k key then Some v else assoc rest key
  end.

Definition get {A} (own : list (string * A)) (key : string) : lookup A :=
  match assoc own key with
  | Some a => Own a
  | None => if inherited key then Inherited key else Undefined
  end.

End Js.

(** ** HTTP responses shared by the routes *)

Module Http.

(** The status code and the [message] of the JSON body; the [data] member
    of a success response is left out. *)
Record Response : Type := mkResponse {
  code : nat;
  message : string
}.

(** A response below 400 reports success, anything else a rejection. *)
Definition ok (r : Response) : bool := Nat.ltb (code r) 400.

End Http.

(** ** The scoring service ([server/services/aiCreditScoring.js])

    The file holds two engines with the same class name: the TensorFlow
    engine and the demo engine.  [preprocessFeatures], [getLoanPurposeScore],
    [calculateRiskLevel], [analyzeFactors], [generateRecommendations] and
    [evaluateFraudRisk] are textually the same in both and are embedded
    once. *)

Module Scoring.

Import Js.

(** The object handed to the engine ([dataToAnalyze], or the
    [applicantData] of the request). *)
Record ApplicantData : Type := mkApplicantData {
  creditScore : prop;
  annualIncome : prop;
  debtToIncomeRatio : prop;
  employmentLength : prop;
  loanAmount : prop;
  loanTerm : prop;
  paymentHistoryScore : prop;
  creditUtilization : prop;
  numberOfAccounts : prop;
  recentInquiries : prop;
  collateralValue : prop;
  loanPurpose : option string;
  timeAtAddress : prop;
  age : prop
}.

(** The object with no property at all. *)
Definition emptyData : ApplicantData :=
  mkApplicantData None None None None None None None None None None None
                  None None None.

Definition purposeScores : list (string * Q) :=
  [ ("home_purchase", 9); ("home_improvement", 8); ("debt_consolidation", 6);
    ("auto_loan", 7); ("business", 5); ("education", 8); ("medical", 7);
    ("vacation", 3); ("other", 5) ]%Q.

(** The property key JavaScript derives from the argument: an absent
    purpose indexes with the string "undefined". *)
Definition purposeKey (purpose : option string) : string :=
  match purpose with Some s => s | None => "undefined" end.

(** [purposeScores[purpose] || 5] *)
Definition getLoanPurposeScore (purpose : option string) : lookup Q :=
  match get purposeScores (purposeKey purpose) with
  | Own q => if Qeq_bool q 0 then Own 5%Q else Own q
  | Inherited k => Inherited k
  | Undefined => Own 5%Q
  end.

(** Numeric conversion of the looked-up value before the division. *)
Definition toNum (v : lookup Q) : num :=
  match v with Own q => Fin q | _ => NaN end.

Definition push {A} (l : list A) (x : A) : list A := l ++ [x].

Definition preprocessFeatures (d : ApplicantData) : list num :=
  let features := [] in
  let features := push features (Fin (orDefault (creditScore d) 600 / 800)) in
  let features := push features (Fin (orDefault (annualIncome d) 50000 / 200000)) in
  let features := push features (Fin (orDefault (debtToIncomeRatio d) (3 # 10))) in
  let features := push features (Fin (orDefault (employmentLength d) 2 / 20)) in
  let features := push features (Fin (orDefault (loanAmount d) 50000 / 500000)) in
  let features := push features (Fin (orDefault (loanTerm d) 15 / 30)) in
  let features := push features (Fin (orDefault (paymentHistoryScore d) 80 / 100)) in
  let features := push features (Fin (orDefault (creditUtilization d) (3 # 10))) in
  let features := push features (Fin (orDefault (numberOfAccounts d) 5 / 20)) in
  let features := push features (Fin (orDefault (recentInquiries d) 2 / 10)) in
  let features := push features (Fin (orDefault (collateralValue d) 0 / 1000000)) in
  let features := push features (div (toNum (getLoanPurposeScore (loanPurpose d))) 10) in
  features.

Inductive RiskLevel : Type := LOW | MEDIUM | HIGH | VERY_HIGH.

Definition calculateRiskLevel (creditScore : num) : RiskLevel :=
  if ge creditScore 750 then LOW
  else if ge creditScore 650 then MEDIUM
  else if ge creditScore 550 then HIGH
  else VERY_HIGH.

Inductive Impact : Type := POSITIVE | NEGATIVE.

Record Factor : Type := mkFactor {
  factor : string;
  impact : Impact;
  factorDescription : string
}.

(** [features[i]]: reading past the end gives [undefined], which compares
    as [NaN]. *)
Definition feature (features : list num) (i : nat) : num :=
  match features !! i with Some x => x | None => NaN end.

Definition analyzeFactors (features : list num) : list Factor :=
  let factors := [] in
  let factors := if lt (feature features 0) (6 # 10)
    then push factors (mkFactor "Credit Score" NEGATIVE "Credit score below optimal range")
    else factors in
  let factors := if gt (feature features 1) (8 # 10)
    then push factors (mkFactor "Income" POSITIVE "High annual income")
    else factors in
  let factors := if gt (feature features 2) (4 # 10)
    then push factors (mkFactor "Debt-to-Income" NEGATIVE "High debt-to-income ratio")
    else factors in
  let factors := if gt (feature features 6) (9 # 10)
    then push factors (mkFactor "Payment History" POSITIVE "Excellent payment history")
    else factors in
  let factors := if gt (feature features 7) (7 # 10)
    then push factors (mkFactor "Credit Utilization" NEGATIVE "High credit utilization")
    else factors in
  factors.

Inductive Priority : Type := PLow | PMedium | PHigh.

Record Recommendation : Type := mkRecommendation {
  recType : string;
  priority : Priority;
  recDescription : string;
  action : string
}.

Definition generateRecommendations (d : ApplicantData) (creditScore : num)
  : list Recommendation :=
  let recommendations := [] in
  let recommendations := if lt creditScore 650
    then push recommendations
      (mkRecommendation "IMPROVEMENT" PHigh
         "Consider requiring a co-signer or additional collateral" "REQUEST_COSIGNER")
    else recommendations in
  let recommendations := if propGt (debtToIncomeRatio d) (4 # 10)
    then push recommendations
      (mkRecommendation "RISK_MITIGATION" PMedium
         "High debt-to-income ratio - consider smaller loan amount" "REDUCE_LOAN_AMOUNT")
    else recommendations in
  let recommendations := if ge creditScore 750
    then push recommendations
      (mkRecommendation "APPROVAL" PLow
         "Excellent credit profile - approve with standard terms" "APPROVE_STANDARD")
    else recommendations in
  recommendations.

Record Prediction : Type := mkPrediction {
  predCreditScore : num;
  predRiskLevel : RiskLevel;
  probability : num;
  recommendations : list Recommendation;
  factors : list Factor;
  timestamp : Z;
  modelVersion : string
}.

(** What [predictCreditScore] throws: an [Error] with its message, or a
    [TypeError] of the runtime. *)
Inductive Thrown : Type :=
| Error (message : string)
| TypeError.

Definition notLoaded : Thrown :=
  Error "AI model not loaded. Please initialize first.".

(** The argument of [predictCreditScore], as data (what a parsed JSON body
    or a stored application can hold): [undefined] or [null], or an object.
    Of an object, [d] gives the members that are numbers or absent and
    [opaque] names the members that hold a value which cannot be converted
    to a primitive (an object whose [valueOf] and [toString] are both
    members that are not callable, as [{valueOf: 1, toString: 1}]).  A
    member that holds a string, a boolean, an array or another object
    converts without raising and has no counterpart in [d]. *)
Inductive Argument : Type :=
| Nullish
| Object (d : ApplicantData) (opaque : list string).

(** The members [predictCreditScore] computes with: the eleven numeric
    inputs of [preprocessFeatures], of which [debtToIncomeRatio] and
    [creditUtilization] are first multiplied in the weighted sum, and the
    key of the loan-purpose lookup. *)
Definition computedMembers : list string :=
  [ "creditScore"; "annualIncome"; "debtToIncomeRatio"; "employmentLength";
    "loanAmount"; "loanTerm"; "paymentHistoryScore"; "creditUtilization";
    "numberOfAccounts"; "recentInquiries"; "collateralValue"; "loanPurpose" ].

(** Reading the members of the argument and converting them: the first
    read raises a [TypeError] on [undefined] and [null], the arithmetic (or
    the property lookup, for the loan purpose) raises one on a member that
    cannot be converted. *)
Definition converted (applicantData : Argument) : Thrown + ApplicantData :=
  match applicantData with
  | Nullish => inl TypeError
  | Object d opaque =>
      if existsb (fun member => existsb (String.eqb member) opaque)
                 computedMembers
      then inl TypeError
      else inr d
  end.

(** *** The TensorFlow engine (first class of the file) *)

Module Engine.

Record t : Type := mk { isModelLoaded : bool }.

Definition constructor : t := mk false.
Definition initializeModel (e : t) : t := mk true.

(** [predictCreditScore]; [score0] is [score[0]], the network's sigmoid
    output for the feature vector, [now] the clock. *)
Definition predictCreditScore (e : t) (d : ApplicantData) (score0 : Q) (now : Z)
  : Thrown + Prediction :=
  if negb (isModelLoaded e) then inl notLoaded
  else
    let features := preprocessFeatures d in
    let creditScore := round (Fin (score0 * 850 + 300)) in
    let riskLevel := calculateRiskLevel creditScore in
    let recommendations := generateRecommendations d creditScore in
    inr (mkPrediction creditScore riskLevel (Fin score0) recommendations
           (analyzeFactors features) now "1.0.0").

End Engine.

(** *** The demo engine (second class of the file) *)

Module DemoEngine.

Record t : Type := mk { isModelLoaded : bool }.

Definition constructor : t := mk false.
Definition initializeModel (e : t) : t := mk true.

Definition weights : list Q :=
  [ 30 # 100; 20 # 100; - (20 # 100); 10 # 100; - (5 # 100); 5 # 100;
    15 # 100; - (15 # 100); 5 # 100; - (10 # 100); 10 # 100; 15 # 100 ]%Q.

(** [weights[i]]; past the end the product is [NaN]. *)
Definition weight (i : nat) : num :=
  match weights !! i with Some w => Fin w | None => NaN end.

(** The accumulation loop, [i] being the loop index. *)
Fixpoint weightedSum (i : nat) (features : list num) (score : num) : num :=
  match features with
  | [] => score
  | f :: rest => weightedSum (S i) rest (add score (mul f (weight i)))
  end.

Section WithRuntime.

(** [Math.exp] and the value drawn by [Math.random]. *)
Variable exp : Q -> Q.
Variable random : Q.

Definition sigmoid (score : num) : num :=
  match score with
  | Fin s => Fin (1 / (1 + exp (- s * 2)))
  | NaN => NaN
  end.

Definition calculateCreditScoreDemo (features : list num) : num :=
  let score := weightedSum 0 features (Fin 0) in
  let score := sigmoid score in
  let score := add score (Fin ((random - (1 # 2)) * (1 # 10))) in
  max 0 (min 1 score).

(** [predictCreditScore]: the guard, then the [try] block, whose [catch]
    logs the error and throws it again. *)
Definition predictCreditScore (e : t) (applicantData : Argument) (now : Z)
  : Thrown + Prediction :=
  if negb (isModelLoaded e) then inl notLoaded
  else
    match converted applicantData with
    | inl error => inl error
    | inr d =>
        let features := preprocessFeatures d in
        let score := calculateCreditScoreDemo features in
        let creditScore := round (add (mul score (Fin 550)) (Fin 300)) in
        let riskLevel := calculateRiskLevel creditScore in
        let recommendations := generateRecommendations d creditScore in
        inr (mkPrediction creditScore riskLevel score recommendations
               (analyzeFactors features) now "1.0.0-demo")
    end.

End WithRuntime.

End DemoEngine.

(** *** Fraud heuristics *)

Inductive FraudLevel : Type := FraudLow | FraudMedium | FraudHigh.
Inductive FraudRecommendation : Type := MANUAL_REVIEW | AUTOMATED_PROCESSING.

Record FraudAssessment : Type := mkFraud {
  fraudScore : Z;
  fraudRiskLevel : FraudLevel;
  riskFactors : list string;
  recommendation : FraudRecommendation
}.

(** The two locals of [evaluateFraudRisk], threaded through the four
    [if] statements. *)
Definition flag (cond : bool) (reason : string) (points : Z)
           (st : list string * Z) : list string * Z :=
  if cond then (push (fst st) reason, (snd st + points)%Z) else st.

Definition evaluateFraudRisk (d : ApplicantData) : FraudAssessment :=
  let st := ([], 0%Z) in
  let st := flag (propGt (annualIncome d) 200000 && propLt (employmentLength d) 1)
                 "High income with short employment history" 30 st in
  let st := flag (propLt (timeAtAddress d) 6)
                 "Recently moved to current address" 10 st in
  let st := flag (propLt (age d) 21 && propGt (creditScore d) 750)
                 "High credit score at young age" 20 st in
  let st := flag (propGt (recentInquiries d) 5)
                 "Multiple recent credit inquiries" 15 st in
  let fraudScore := snd st in
  mkFraud fraudScore
          (if (50 <? fraudScore)%Z then FraudHigh
           else if (25 <? fraudScore)%Z then FraudMedium else FraudLow)
          (fst st)
          (if (50 <? fraudScore)%Z then MANUAL_REVIEW else AUTOMATED_PROCESSING).

End Scoring.

(** ** Actors, grants and the auth middleware
       ([server/routes/auth.js], [server/middleware/auth.js]) *)

Module Auth.

Import Js Http.

Record Grant : Type := mkGrant {
  resource : string;
  actions : list string
}.

(** An actor as the middleware sees it once loaded ([req.user]). *)
Record User : Type := mkUser {
  userId : string;
  username : string;
  role : string;
  permissions : list Grant;
  isActive : bool;
  isLocked : bool
}.

Definition grants (perms : list Grant) (res act : string) : bool :=
  existsb (fun g => String.eqb (resource g) res
                    && existsb (String.eqb act) (actions g)) perms.

(** Modelled from the spec: the [hasPermission] method of the User model
    ([server/models/User.js], not part of the sources at hand).  Section
    4.1: a grant matches if its resource is equal and the action is
    contained in the grant's action set; no match is a [false] result. *)
Definition hasPermission (u : User) (res act : string) : bool :=
  grants (permissions u) res act.

Definition adminSet : list Grant :=
  [ mkGrant "applications" ["create"; "read"; "update"; "delete"; "approve"];
    mkGrant "users" ["create"; "read"; "update"; "delete"];
    mkGrant "reports" ["create"; "read"; "update"; "delete"];
    mkGrant "settings" ["read"; "update"] ].

Definition underwriterSet : list Grant :=
  [ mkGrant "applications" ["read"; "update"; "approve"];
    mkGrant "reports" ["read"] ].

Definition analystSet : list Grant :=
  [ mkGrant "applications" ["create"; "read"; "update"];
    mkGrant "reports" ["read"] ].

Definition viewerSet : list Grant :=
  [ mkGrant "applications" ["read"];
    mkGrant "reports" ["read"] ].

Definition permissionSets : list (string * list Grant) :=
  [ ("admin", adminSet); ("underwriter", underwriterSet);
    ("analyst", analystSet); ("viewer", viewerSet) ].

(** [permissionSets[role] || permissionSets.viewer]: an array is truthy,
    and so is every member inherited from [Object.prototype]. *)
Definition getDefaultPermissions (role : string) : lookup (list Grant) :=
  match get permissionSets role with
  | Own set => Own set
  | Inherited k => Inherited k
  | Undefined => Own viewerSet
  end.

(** A string property of a request body: falsy when absent or empty. *)
Definition truthy (s : option string) : bool :=
  match s with Some "" => false | Some _ => true | None => false end.

(** [s || d] on a string property. *)
Definition strOr (s : option string) (d : string) : string :=
  match s with Some "" => d | Some x => x | None => d end.

Record RegisterBody : Type := mkRegisterBody {
  rUsername : option string;
  rEmail : option string;
  rPassword : option string;
  rFirstName : option string;
  rLastName : option string;
  rRole : option string;
  rDepartment : option string
}.

(** The document handed to [User.create]. *)
Record NewUser : Type := mkNewUser {
  nUsername : string;
  nEmail : string;
  nPassword : string;
  nFirstName : string;
  nLastName : string;
  nRole : string;
  nDepartment : string;
  nPermissions : lookup (list Grant)
}.

(** The handler of [POST /register] (the limiter that stands before it is
    in [AuthRoutes.registerRoute]); [existingUser] tells whether
    [User.findOne] found a user with the same email or username.  The result
    is the response and, when the route gets that far, the document it hands
    to [User.create];
    the 201 response is the one sent when [User.create] returns (the model
    and its validation are not part of the sources at hand). *)
Definition register (existingUser : bool) (body : RegisterBody)
  : Response * option NewUser :=
  if existingUser then
    (mkResponse 400 "User with this email or username already exists", None)
  else if negb (truthy (rUsername body)) || negb (truthy (rEmail body))
          || negb (truthy (rPassword body)) || negb (truthy (rFirstName body))
          || negb (truthy (rLastName body)) || negb (truthy (rDepartment body))
  then (mkResponse 400 "All required fields must be provided", None)
  else
    let defaultPermissions := getDefaultPermissions (strOr (rRole body) "analyst") in
    let user := mkNewUser (strOr (rUsername body) "") (strOr (rEmail body) "")
                          (strOr (rPassword body) "") (strOr (rFirstName body) "")
                          (strOr (rLastName body) "")
                          (strOr (rRole body) "analyst")
                          (strOr (rDepartment body) "")
                          defaultPermissions in
    (mkResponse 201 "User registered successfully", Some user).

(** *** Middleware *)

(** What the [Authorization] header of a request comes to in [protect]: no
    bearer token; a token that [jwt.verify] rejects (or any other error
    raised in the [try] block); a verified token whose user [User.findById]
    does not find; a verified token with its user. *)
Inductive Bearer : Type :=
| NoToken
| NotValid
| UserNotFound
| Resolves (u : User).

(** A request carries its bearer token and [req.user], which [protect]
    fills in. *)
Record Request (B : Type) : Type := mkRequest {
  bearer : Bearer;
  user : option User;
  paramsId : string;
  body : B;
  ip : string;
  now : Z
}.
Arguments mkRequest {B}.
Arguments bearer {B}.
Arguments user {B}.
Arguments paramsId {B}.
Arguments body {B}.
Arguments ip {B}.
Arguments now {B}.

(** The actor the bearer token resolves to, if any. *)
Definition tokenUser {B} (req : Request B) : option User :=
  match bearer req with
  | Resolves u => Some u
  | _ => None
  end.

Definition setUser {B} (req : Request B) (u : User) : Request B :=
  mkRequest (bearer req) (Some u) (paramsId req) (body req) (ip req) (now req).

(** A middleware either answers the request or calls [next()]. *)
Definition Middleware (B : Type) : Type := Request B -> Response + Request B.

Definition protect {B} : Middleware B := fun req =>
  match bearer req with
  | NoToken => inl (mkResponse 401 "No token, authorization denied")
  | NotValid => inl (mkResponse 401 "Token is not valid")
  | UserNotFound => inl (mkResponse 401 "Token valid but user not found")
  | Resolves u =>
      if negb (isActive u) then inl (mkResponse 401 "User account is inactive")
      else if isLocked u then inl (mkResponse 401 "User account is temporarily locked")
      else inr (setUser req u)
  end.

Definition authorize {B} (roles : list string) : Middleware B := fun req =>
  match user req with
  | None => inl (mkResponse 401 "User not authenticated")
  | Some u =>
      if negb (existsb (String.eqb (role u)) roles)
      then inl (mkResponse 403
                  ("User role '" ++ role u
                   ++ "' is not authorized to access this resource"))
      else inr req
  end.

Definition checkPermission {B} (res act : string) : Middleware B := fun req =>
  match user req with
  | None => inl (mkResponse 401 "User not authenticated")
  | Some u =>
      if negb (hasPermission u res act)
      then inl (mkResponse 403
                  ("Permission denied. Required: " ++ act ++ " on " ++ res))
      else inr req
  end.

(** Express runs the middleware of a route in order and stops at the first
    one that answers. *)
Fixpoint through {B} (chain : list (Middleware B)) (req : Request B)
  : Response + Request B :=
  match chain with
  | [] => inr req
  | m :: rest =>
      match m req with
      | inl resp => inl resp
      | inr req' => through rest req'
      end
  end.

End Auth.

(** ** The application routes and the analysis route *)

Module Lifecycle.

Import Js Http Auth.

Inductive Status : Type :=
| draft | submitted | under_review | pending_documents
| approved | denied | withdrawn.

Definition status_eqb (a b : Status) : bool :=
  match a, b with
  | draft, draft | submitted, submitted | under_review, under_review
  | pending_documents, pending_documents | approved, approved
  | denied, denied | withdrawn, withdrawn => true
  | _, _ => false
  end.

(** The parts of the applicant, loan and financial payloads that the
    analysis route reads. *)
Record Applicant : Type := mkApplicant {
  dateOfBirth : option Z;
  employmentAnnualIncome : prop;
  employmentEmploymentLength : prop;
  addressTimeAtAddress : prop
}.

Record Loan : Type := mkLoan {
  amount : prop;
  purpose : option string;
  term : prop;
  collateralValue : prop
}.

Record Financial : Type := mkFinancial {
  finCreditScore : prop;
  finDebtToIncomeRatio : prop;
  finPaymentHistoryScore : prop;
  finCreditUtilization : prop;
  finNumberOfAccounts : prop;
  finRecentInquiries : prop
}.

Record ReviewNote : Type := mkReviewNote {
  note : string;
  category : string;
  createdBy : string;
  createdAt : Z
}.

Record ManualReview : Type := mkManualReview {
  assignedTo : option string;
  assignedAt : option Z;
  reviewNotes : list ReviewNote
}.

Record Document : Type := mkDocument {
  docType : option string;
  filename : string;
  size : nat;
  uploadDate : Z
}.

Record FullAssessment : Type := mkFullAssessment {
  prediction : Scoring.Prediction;
  fraudAssessment : Scoring.FraudAssessment;
  assessedApplicationId : option string;
  processedBy : string;
  processedAt : Z
}.

(** The [details] object of each audit entry the routes write. *)
Inductive Details : Type :=
| DUpdated (updatedFields : list string) (newStatus : Status)
| DSubmitted (submittedAt : Z)
| DDocuments (documentCount : nat) (documentTypes : list (option string))
| DAssigned (assignedTo : option string) (assignedAt : Z)
| DNote (noteCategory : option string) (noteLength : nat)
| DAnalysis (creditScore : num) (riskLevel : Scoring.RiskLevel)
            (fraudRisk : Scoring.FraudLevel).

Record AuditEntry : Type := mkAuditEntry {
  action : string;
  performedBy : string;
  auditTimestamp : Z;
  details : Details;
  requestIp : string
}.

Record Application : Type := mkApplication {
  applicationId : string;
  status : Status;
  applicant : Applicant;
  loan : Loan;
  financial : Financial;
  aiAssessment : option FullAssessment;
  manualReview : ManualReview;
  documents : list Document;
  auditTrail : list AuditEntry;
  submittedAt : option Z;
  completedAt : option Z
}.

(** Assignments to one property of the loaded document. *)
Definition setStatus (a : Application) (s : Status) : Application :=
  mkApplication (applicationId a) s (applicant a) (loan a) (financial a)
    (aiAssessment a) (manualReview a) (documents a) (auditTrail a)
    (submittedAt a) (completedAt a).

Definition setSubmittedAt (a : Application) (t : option Z) : Application :=
  mkApplication (applicationId a) (status a) (applicant a) (loan a) (financial a)
    (aiAssessment a) (manualReview a) (documents a) (auditTrail a)
    t (completedAt a).

Definition setManualReview (a : Application) (m : ManualReview) : Application :=
  mkApplication (applicationId a) (status a) (applicant a) (loan a) (financial a)
    (aiAssessment a) m (documents a) (auditTrail a)
    (submittedAt a) (completedAt a).

Definition setDocuments (a : Application) (d : list Document) : Application :=
  mkApplication (applicationId a) (status a) (applicant a) (loan a) (financial a)
    (aiAssessment a) (manualReview a) d (auditTrail a)
    (submittedAt a) (completedAt a).

Definition setAiAssessment (a : Application) (x : option FullAssessment) : Application :=
  mkApplication (applicationId a) (status a) (applicant a) (loan a) (financial a)
    x (manualReview a) (documents a) (auditTrail a)
    (submittedAt a) (completedAt a).

Definition setAuditTrail (a : Application) (t : list AuditEntry) : Application :=
  mkApplication (applicationId a) (status a) (applicant a) (loan a) (financial a)
    (aiAssessment a) (manualReview a) (documents a) t
    (submittedAt a) (completedAt a).

(** Modelled from the spec: the [addAuditEntry] method of the
    CreditApplication model ([server/models/CreditApplication.js], not part
    of the sources at hand).  Section 4.6: a pure append of one
    [{action, performedBy, timestamp, details, requestContext}] entry. *)
Definition addAuditEntry {B} (a : Application) (act : string) (u : User)
           (d : Details) (req : Request B) : Application :=
  setAuditTrail a (auditTrail a ++ [mkAuditEntry act (userId u) (now req) d (ip req)]).

(** The persisted collection, indexed by the identifier a request names. *)
Abbreviation Store := (gmap string Application).

(** *** [PUT /applications/:id] *)

(** One key of the request body with its value; [UOther] is a key the
    document has no path for. *)
Inductive UpdateField : Type :=
| UApplicationId (v : string)
| UStatus (v : Status)
| UApplicant (v : Applicant)
| ULoan (v : Loan)
| UFinancial (v : Financial)
| UAiAssessment (v : option FullAssessment)
| UManualReview (v : ManualReview)
| UDocuments (v : list Document)
| UAuditTrail (v : list AuditEntry)
| USubmittedAt (v : option Z)
| UCompletedAt (v : option Z)
| UOther (key : string).

Definition fieldKey (f : UpdateField) : string :=
  match f with
  | UApplicationId _ => "applicationId"
  | UStatus _ => "status"
  | UApplicant _ => "applicant"
  | ULoan _ => "loan"
  | UFinancial _ => "financial"
  | UAiAssessment _ => "aiAssessment"
  | UManualReview _ => "manualReview"
  | UDocuments _ => "documents"
  | UAuditTrail _ => "auditTrail"
  | USubmittedAt _ => "submittedAt"
  | UCompletedAt _ => "completedAt"
  | UOther k => k
  end.

Definition assignField (a : Application) (f : UpdateField) : Application :=
  match f with
  | UApplicationId v =>
      mkApplication v (status a) (applicant a) (loan a) (financial a)
        (aiAssessment a) (manualReview a) (documents a) (auditTrail a)
        (submittedAt a) (completedAt a)
  | UStatus v => setStatus a v
  | UApplicant v =>
      mkApplication (applicationId a) (status a) v (loan a) (financial a)
        (aiAssessment a) (manualReview a) (documents a) (auditTrail a)
        (submittedAt a) (completedAt a)
  | ULoan v =>
      mkApplication (applicationId a) (status a) (applicant a) v (financial a)
        (aiAssessment a) (manualReview a) (documents a) (auditTrail a)
        (submittedAt a) (completedAt a)
  | UFinancial v =>
      mkApplication (applicationId a) (status a) (applicant a) (loan a) v
        (aiAssessment a) (manualReview a) (documents a) (auditTrail a)
        (submittedAt a) (completedAt a)
  | UAiAssessment v => setAiAssessment a v
  | UManualReview v => setManualReview a v
  | UDocuments v => setDocuments a v
  | UAuditTrail v => setAuditTrail a v
  | USubmittedAt v => setSubmittedAt a v
  | UCompletedAt v =>
      mkApplication (applicationId a) (status a) (applicant a) (loan a) (financial a)
        (aiAssessment a) (manualReview a) (documents a) (auditTrail a)
        (submittedAt a) v
  | UOther _ => a
  end.

(** [Object.assign(application, req.body)]: every key of the body is
    assigned in order. *)
Definition objectAssign (a : Application) (fields : list UpdateField) : Application :=
  fold_left assignField fields a.

Definition updateHandler (u : User) (req : Request (list UpdateField)) (σ : Store)
  : Response * Store :=
  match σ !! paramsId req with
  | None => (mkResponse 404 "Application not found", σ)
  | Some application =>
      if status_eqb (status application) approved
         || status_eqb (status application) denied
      then (mkResponse 400 "Cannot update application that has been finalized", σ)
      else
        let updatedFields := map fieldKey (body req) in
        let application := objectAssign application (body req) in
        let application :=
          addAuditEntry application "application_updated" u
            (DUpdated updatedFields (status application)) req in
        (mkResponse 200 "Application updated successfully",
         <[paramsId req := application]> σ)
  end.

(** *** [POST /applications/:id/submit] *)

Definition submitHandler (u : User) (req : Request unit) (σ : Store)
  : Response * Store :=
  match σ !! paramsId req with
  | None => (mkResponse 404 "Application not found", σ)
  | Some application =>
      if negb (status_eqb (status application) draft)
      then (mkResponse 400 "Only draft applications can be submitted", σ)
      else
        let application := setStatus application submitted in
        let application := setSubmittedAt application (Some (now req)) in
        let application :=
          addAuditEntry application "application_submitted" u
            (DSubmitted (now req)) req in
        (mkResponse 200 "Application submitted successfully",
         <[paramsId req := application]> σ)
  end.

(** *** [POST /applications/:id/documents] *)

Record File : Type := mkFile {
  fileFilename : string;
  fileSize : nat
}.

(** [documentTypes] is the field already split at the commas. *)
Record DocumentsBody : Type := mkDocumentsBody {
  files : list File;
  documentTypes : option (list string)
}.

Definition uploaded (b : DocumentsBody) (t : Z) : list Document :=
  imap (fun index file =>
          mkDocument (match documentTypes b with
                      | Some types => types !! index
                      | None => Some "other"
                      end)
                     (fileFilename file) (fileSize file) t)
       (files b).

Definition documentsHandler (u : User) (req : Request DocumentsBody) (σ : Store)
  : Response * Store :=
  match σ !! paramsId req with
  | None => (mkResponse 404 "Application not found", σ)
  | Some application =>
      match files (body req) with
      | [] => (mkResponse 400 "No files uploaded", σ)
      | _ =>
          let uploadedDocuments := uploaded (body req) (now req) in
          let application :=
            setDocuments application (documents application ++ uploadedDocuments) in
          let application :=
            addAuditEntry application "documents_uploaded" u
              (DDocuments (length uploadedDocuments) (map docType uploadedDocuments))
              req in
          (mkResponse 200
             (pretty (length uploadedDocuments)
              ++ " document(s) uploaded successfully"),
           <[paramsId req := application]> σ)
      end
  end.

(** *** [POST /applications/:id/assign] *)

Definition assignHandler (u : User) (req : Request (option string)) (σ : Store)
  : Response * Store :=
  let assigneeId := body req in
  match σ !! paramsId req with
  | None => (mkResponse 404 "Application not found", σ)
  | Some application =>
      let review := manualReview application in
      let application :=
        setManualReview application
          (mkManualReview assigneeId (assignedAt review) (reviewNotes review)) in
      let review := manualReview application in
      let application :=
        setManualReview application
          (mkManualReview (assignedTo review) (Some (now req)) (reviewNotes review)) in
      let application := setStatus application under_review in
      let application :=
        addAuditEntry application "application_assigned" u
          (DAssigned assigneeId (now req)) req in
      (mkResponse 200 "Application assigned successfully",
       <[paramsId req := application]> σ)
  end.

(** *** [POST /applications/:id/notes] *)

Record NoteBody : Type := mkNoteBody {
  bodyNote : option string;
  bodyCategory : option string
}.

Definition notesHandler (u : User) (req : Request NoteBody) (σ : Store)
  : Response * Store :=
  if negb (truthy (bodyNote (body req)))
  then (mkResponse 400 "Note content is required", σ)
  else
    let noteText := strOr (bodyNote (body req)) "" in
    match σ !! paramsId req with
    | None => (mkResponse 404 "Application not found", σ)
    | Some application =>
        let reviewNote :=
          mkReviewNote noteText (strOr (bodyCategory (body req)) "general")
                       (userId u) (now req) in
        let review := manualReview application in
        let application :=
          setManualReview application
            (mkManualReview (assignedTo review) (assignedAt review)
                            (reviewNotes review ++ [reviewNote])) in
        let application :=
          addAuditEntry application "review_note_added" u
            (DNote (bodyCategory (body req)) (String.length noteText)) req in
        (mkResponse 201 "Review note added successfully",
         <[paramsId req := application]> σ)
    end.

(** *** [POST /analyze] (AI routes) *)

Record AnalyzeBody : Type := mkAnalyzeBody {
  bodyApplicationId : option string;
  applicantData : option Scoring.ApplicantData
}.

(** [365.25 * 24 * 60 * 60 * 1000] *)
Definition yearMs : Q := (36525 # 100) * 24 * 60 * 60 * 1000.

(** The conversion of a stored application to the object the engine
    expects; [x || d] always yields a number. *)
Definition dataToAnalyze (application : Application) (now : Z) : Scoring.ApplicantData :=
  Scoring.mkApplicantData
    (finCreditScore (financial application))
    (employmentAnnualIncome (applicant application))
    (finDebtToIncomeRatio (financial application))
    (Some (orDefault (employmentEmploymentLength (applicant application)) 0))
    (amount (loan application))
    (term (loan application))
    (Some (orDefault (finPaymentHistoryScore (financial application)) 80))
    (Some (orDefault (finCreditUtilization (financial application)) (3 # 10)))
    (Some (orDefault (finNumberOfAccounts (financial application)) 5))
    (Some (orDefault (finRecentInquiries (financial application)) 1))
    (Some (orDefault (collateralValue (loan application)) 0))
    (purpose (loan application))
    (Some (orDefault (addressTimeAtAddress (applicant application)) 12))
    (match dateOfBirth (applicant application) with
     | Some born => Some (inject_Z (Qfloor (inject_Z (now - born) / yearMs)))
     | None => Some 35%Q
     end).

Section WithEngine.

(** The engine the AI routes hold ([aiEngine]): its [isModelLoaded] flag and
    its [predictCreditScore] method, whichever of the two classes it is. *)
Variable isModelLoaded : bool.
Variable predictCreditScore :
  Scoring.ApplicantData -> Z -> Scoring.Thrown + Scoring.Prediction.

Definition runAnalysis (u : User) (req : Request AnalyzeBody) (σ : Store)
           (application : option Application) (data : Scoring.ApplicantData)
  : Response * Store :=
  if negb isModelLoaded
  then (mkResponse 503 "AI model is not available. Please try again later.", σ)
  else
    match predictCreditScore data (now req) with
    | inl _ => (mkResponse 500 "AI analysis failed", σ)
    | inr aiAssessment =>
        let fraud := Scoring.evaluateFraudRisk data in
        let fullAssessment :=
          mkFullAssessment aiAssessment fraud (bodyApplicationId (body req))
                           (userId u) (now req) in
        match application with
        | Some application =>
            let application := setAiAssessment application (Some fullAssessment) in
            let application :=
              addAuditEntry application "ai_analysis_completed" u
                (DAnalysis (Scoring.predCreditScore aiAssessment)
                           (Scoring.predRiskLevel aiAssessment)
                           (Scoring.fraudRiskLevel fraud)) req in
            (mkResponse 200 "AI analysis completed successfully",
             <[strOr (bodyApplicationId (body req)) "" := application]> σ)
        | None => (mkResponse 200 "AI analysis completed successfully", σ)
        end
    end.

Definition analyzeHandler (u : User) (req : Request AnalyzeBody) (σ : Store)
  : Response * Store :=
  let applicationId := bodyApplicationId (body req) in
  match truthy applicationId, applicantData (body req) with
  | false, None =>
      (mkResponse 400 "Either applicationId or applicantData is required", σ)
  | true, _ =>
      match σ !! strOr applicationId "" with
      | None => (mkResponse 404 "Application not found", σ)
      | Some application =>
          runAnalysis u req σ (Some application) (dataToAnalyze application (now req))
      end
  | false, Some data => runAnalysis u req σ None data
  end.

(** *** The routes: middleware chain, then handler

    A handler reads [req.user._id]; were it reached without [req.user] the
    read would throw and the error handler would answer 500. *)

Definition route {B} (chain : list (Middleware B))
           (handler : User -> Request B -> Store -> Response * Store)
           (req : Request B) (σ : Store) : Response * Store :=
  match through chain req with
  | inl resp => (resp, σ)
  | inr req' =>
      match user req' with
      | Some u => handler u req' σ
      | None => (mkResponse 500 "Server Error", σ)
      end
  end.

Definition updateRoute :=
  route [protect; checkPermission "applications" "update"] updateHandler.
Definition submitRoute :=
  route [protect; checkPermission "applications" "update"] submitHandler.
(** The upload route also has [upload.array('documents', 10)] between the
    permission check and the handler: multer refuses an upload by the type,
    the size and the number of its files and hands the refusal to the error
    handler, before the handler runs and without any write.  That middleware
    is not modelled: [files] are the files it delivers to the handler, and
    nothing is derived from a 200 of this route about what the package lets
    through. *)
Definition documentsRoute :=
  route [protect; checkPermission "applications" "update"] documentsHandler.
Definition assignRoute :=
  route [protect; authorize ["admin"; "underwriter"]] assignHandler.
Definition notesRoute :=
  route [protect; checkPermission "applications" "update"] notesHandler.
Definition analyzeRoute :=
  route [protect; checkPermission "applications" "read"] analyzeHandler.

(** A request to one of the routes that write to an application. *)
Inductive Operation : Type :=
| Update (req : Request (list UpdateField))
| Submit (req : Request unit)
| Documents (req : Request DocumentsBody)
| Assign (req : Request (option string))
| Notes (req : Request NoteBody)
| Analyze (req : Request AnalyzeBody).

Definition perform (op : Operation) (σ : Store) : Response * Store :=
  match op with
  | Update req => updateRoute req σ
  | Submit req => submitRoute req σ
  | Documents req => documentsRoute req σ
  | Assign req => assignRoute req σ
  | Notes req => notesRoute req σ
  | Analyze req => analyzeRoute req σ
  end.

(** The application an operation addresses. *)
Definition target (op : Operation) : string :=
  match op with
  | Update req => paramsId req
  | Submit req => paramsId req
  | Documents req => paramsId req
  | Assign req => paramsId req
  | Notes req => paramsId req
  | Analyze req => strOr (bodyApplicationId (body req)) ""
  end.

(** The handler an operation reaches once its middleware has let the actor
    [u] through. *)
Definition handle (op : Operation) (u : User) (σ : Store) : Response * Store :=
  match op with
  | Update req => updateHandler u (setUser req u) σ
  | Submit req => submitHandler u (setUser req u) σ
  | Documents req => documentsHandler u (setUser req u) σ
  | Assign req => assignHandler u (setUser req u) σ
  | Notes req => notesHandler u (setUser req u) σ
  | Analyze req => analyzeHandler u (setUser req u) σ
  end.

End WithEngine.

End Lifecycle.

(** ** The specification's own formulations

    Definitions that follow the words of the specification, to compare the
    embedded code with. *)

Module Spec.

Import Js Scoring.

(** Section 4.2: one row per numeric feature, with the raw input it reads,
    the default it takes and the divisor (none for the two ratios that are
    passed through). *)
Record Row : Type := mkRow {
  raw : ApplicantData -> prop;
  default : Q;
  divisor : option Q
}.

Definition featureTable : list Row :=
  [ mkRow creditScore 600 (Some 800%Q);
    mkRow annualIncome 50000 (Some 200000%Q);
    mkRow debtToIncomeRatio (3 # 10) None;
    mkRow employmentLength 2 (Some 20%Q);
    mkRow loanAmount 50000 (Some 500000%Q);
    mkRow loanTerm 15 (Some 30%Q);
    mkRow paymentHistoryScore 80 (Some 100%Q);
    mkRow creditUtilization (3 # 10) None;
    mkRow numberOfAccounts 5 (Some 20%Q);
    mkRow recentInquiries 2 (Some 10%Q);
    mkRow collateralValue 0 (Some 1000000%Q) ].

(** The value a row works on: the raw input, or the default when the input
    is missing or zero. *)
Definition effective (d : ApplicantData) (r : Row) : Q :=
  orDefault (raw r d) (default r).

Definition normalise (d : ApplicantData) (r : Row) : num :=
  match divisor r with
  | Some k => Fin (effective d r / k)
  | None => Fin (effective d r)
  end.

(** The upper end of the range a row normalises into [0,1]. *)
Definition top (r : Row) : Q :=
  match divisor r with Some k => k | None => 1 end.

(** Section 4.2, feature 12: the fixed loan-purpose table, 5 for any other
    category. *)
Definition categoryScore (purpose : option string) : Q :=
  match purpose with
  | None => 5
  | Some s =>
      if String.eqb s "home_purchase" then 9
      else if String.eqb s "home_improvement" then 8
      else if String.eqb s "education" then 8
      else if String.eqb s "auto_loan" then 7
      else if String.eqb s "medical" then 7
      else if String.eqb s "debt_consolidation" then 6
      else if String.eqb s "business" then 5
      else if String.eqb s "other" then 5
      else if String.eqb s "vacation" then 3
      else 5
  end.

Definition extract (d : ApplicantData) : list num :=
  map (normalise d) featureTable ++ [Fin (categoryScore (loanPurpose d) / 10)].

(** A raw input that, when present, lies between 0 and the upper end [hi]. *)
Definition withinRange (x : prop) (hi : Q) : Prop :=
  match x with Some q => (0 <= q)%Q /\ (q <= hi)%Q | None => True end.

(** A scalar of the unit interval. *)
Definition InUnit (n : num) : Prop :=
  match n with Fin q => (0 <= q)%Q /\ (q <= 1)%Q | NaN => False end.

(** The numeric inputs of the extractor, and the object [d] with one of them
    replaced. *)
Inductive NumericField : Type :=
| FCreditScore | FAnnualIncome | FDebtToIncomeRatio | FEmploymentLength
| FLoanAmount | FLoanTerm | FPaymentHistoryScore | FCreditUtilization
| FNumberOfAccounts | FRecentInquiries | FCollateralValue.

Definition withField (f : NumericField) (v : prop) (d : ApplicantData)
  : ApplicantData :=
  let 'mkApplicantData cs ai dti el la lt ph cu na ri cv lp ta ag := d in
  match f with
  | FCreditScore => mkApplicantData v ai dti el la lt ph cu na ri cv lp ta ag
  | FAnnualIncome => mkApplicantData cs v dti el la lt ph cu na ri cv lp ta ag
  | FDebtToIncomeRatio => mkApplicantData cs ai v el la lt ph cu na ri cv lp ta ag
  | FEmploymentLength => mkApplicantData cs ai dti v la lt ph cu na ri cv lp ta ag
  | FLoanAmount => mkApplicantData cs ai dti el v lt ph cu na ri cv lp ta ag
  | FLoanTerm => mkApplicantData cs ai dti el la v ph cu na ri cv lp ta ag
  | FPaymentHistoryScore => mkApplicantData cs ai dti el la lt v cu na ri cv lp ta ag
  | FCreditUtilization => mkApplicantData cs ai dti el la lt ph v na ri cv lp ta ag
  | FNumberOfAccounts => mkApplicantData cs ai dti el la lt ph cu v ri cv lp ta ag
  | FRecentInquiries => mkApplicantData cs ai dti el la lt ph cu na v cv lp ta ag
  | FCollateralValue => mkApplicantData cs ai dti el la lt ph cu na ri v lp ta ag
  end.

(** Section 4.5: the additive rule set, each rule a condition and the points
    it contributes. *)
Record Rule : Type := mkRule {
  holds : ApplicantData -> bool;
  points : Z
}.

Definition fraudRules : list Rule :=
  [ mkRule (fun d => propGt (annualIncome d) 200000 && propLt (employmentLength d) 1) 30;
    mkRule (fun d => propLt (timeAtAddress d) 6) 10;
    mkRule (fun d => propLt (age d) 21 && propGt (creditScore d) 750) 20;
    mkRule (fun d => propGt (recentInquiries d) 5) 15 ].

(** The sum of the contributions of the rules whose condition holds. *)
Definition contributions (d : ApplicantData) (rules : list Rule) : Z :=
  fold_right Z.add 0%Z (map points (filter (fun r => holds r d = true) rules)).

(** Section 4.3: the banding table on an integer credit score. *)
Definition band (score : Z) : RiskLevel :=
  if (750 <=? score)%Z then LOW
  else if (650 <=? score)%Z then MEDIUM
  else if (550 <=? score)%Z then HIGH
  else VERY_HIGH.

(** Section 4.1 as the grant table has it: what each role may do. *)
Definition crud : list string := ["create"; "read"; "update"; "delete"].

Definition allowed (role res act : string) : Prop :=
  if String.eqb role "admin" then
    (res = "applications" /\ In act (crud ++ ["approve"]))
    \/ (res = "users" /\ In act crud)
    \/ (res = "reports" /\ In act crud)
    \/ (res = "settings" /\ In act ["read"; "update"])
  else if String.eqb role "underwriter" then
    (res = "applications" /\ In act ["read"; "update"; "approve"])
    \/ (res = "reports" /\ act = "read")
  else if String.eqb role "analyst" then
    (res = "applications" /\ In act ["create"; "read"; "update"])
    \/ (res = "reports" /\ act = "read")
  else
    (res = "applications" /\ act = "read")
    \/ (res = "reports" /\ act = "read").

(** Section 4.1 as worded: full CRUD plus approve on each of the four
    resources. *)
Definition fullAccess (set : list Auth.Grant) : Prop :=
  forall res act,
    In res ["applications"; "users"; "reports"; "settings"] ->
    In act (crud ++ ["approve"]) ->
    Auth.grants set res act = true.

Definition roles : list string := ["admin"; "underwriter"; "analyst"; "viewer"].

(** Section 4.4: the terminal states. *)
Definition terminal (s : Lifecycle.Status) : Prop :=
  s = Lifecycle.approved \/ s = Lifecycle.denied \/ s = Lifecycle.withdrawn.

(** The actor behind an operation: the user its bearer token resolves to. *)
Definition actor (op : Lifecycle.Operation) : option Auth.User :=
  match op with
  | Lifecycle.Update req => Auth.tokenUser req
  | Lifecycle.Submit req => Auth.tokenUser req
  | Lifecycle.Documents req => Auth.tokenUser req
  | Lifecycle.Assign req => Auth.tokenUser req
  | Lifecycle.Notes req => Auth.tokenUser req
  | Lifecycle.Analyze req => Auth.tokenUser req
  end.

(** An actor the authentication layer lets through. *)
Definition authenticated (u : Auth.User) : Prop :=
  Auth.isActive u = true /\ Auth.isLocked u = false.

(** Section 4.4: the permission or role each operation requires. *)
Definition permitted (op : Lifecycle.Operation) (u : Auth.User) : bool :=
  match op with
  | Lifecycle.Assign _ =>
      existsb (String.eqb (Auth.role u)) ["admin"; "underwriter"]
  | Lifecycle.Analyze _ => Auth.hasPermission u "applications" "read"
  | _ => Auth.hasPermission u "applications" "update"
  end.

(** Section 4.4: the source states from which an operation is refused. *)
Definition illegal (op : Lifecycle.Operation) (s : Lifecycle.Status) : bool :=
  match op with
  | Lifecycle.Update _ =>
      Lifecycle.status_eqb s Lifecycle.approved
      || Lifecycle.status_eqb s Lifecycle.denied
  | Lifecycle.Submit _ => negb (Lifecycle.status_eqb s Lifecycle.draft)
  | _ => false
  end.

(** What a middleware that guards on the actor does: it lets the request
    through unchanged when [check] holds of [req.user] and answers 403
    otherwise. *)
Definition guard_of {B} (check : Auth.User -> bool) (m : Auth.Middleware B) : Prop :=
  forall req u, Auth.user req = Some u ->
    if check u then m req = inr req
    else exists resp, m req = inl resp /\ Http.code resp = 403%nat.

(** What an operation does to the status of the application it is accepted
    on. *)
Definition changes (op : Lifecycle.Operation) (a a' : Lifecycle.Application) : Prop :=
  match op with
  | Lifecycle.Update req =>
      Lifecycle.status a <> Lifecycle.approved
      /\ Lifecycle.status a <> Lifecycle.denied
      /\ (Lifecycle.status a' = Lifecycle.status a
          \/ In (Lifecycle.UStatus (Lifecycle.status a')) (Auth.body req))
  | Lifecycle.Submit req =>
      Lifecycle.status a = Lifecycle.draft
      /\ Lifecycle.status a' = Lifecycle.submitted
  | Lifecycle.Assign req => Lifecycle.status a' = Lifecycle.under_review
  | _ => Lifecycle.status a' = Lifecycle.status a
  end.

(** The possible outcomes of an operation on the store [σ]: rejected with
    the store as it was, accepted with the addressed application replaced,
    or accepted without touching the store. *)
Inductive outcome (σ : gmap string Lifecycle.Application) (id : string)
          (P : Lifecycle.Application -> Lifecycle.Application -> Prop)
  : Http.Response * gmap string Lifecycle.Application -> Prop :=
| Rejected (resp : Http.Response) :
    Http.ok resp = false -> outcome σ id P (resp, σ)
| Accepted (resp : Http.Response) (a a' : Lifecycle.Application) :
    Http.ok resp = true -> σ !! id = Some a -> P a a' ->
    outcome σ id P (resp, <[id := a']> σ)
| Untouched (resp : Http.Response) :
    Http.ok resp = true -> outcome σ id P (resp, σ).

End Spec.

(** ** Concrete actors, applications and requests *)

Module Scenario.

Import Js Http Auth Lifecycle.

Definition analyst : User :=
  mkUser "u-analyst" "analyst" "analyst" analystSet true false.

Definition admin : User :=
  mkUser "u-admin" "admin" "admin" adminSet true false.

Definition viewer : User :=
  mkUser "u-viewer" "viewer" "viewer" viewerSet true false.

Definition application (s : Status) : Application :=
  mkApplication "APP-1" s
    (mkApplicant None (Some 250000%Q) (Some (1 # 2)) None)
    (mkLoan (Some 20000%Q) (Some "auto_loan") (Some 5%Q) None)
    (mkFinancial (Some 700%Q) None None None None (Some 6%Q))
    None (mkManualReview None None []) [] [] None None.

Definition store (s : Status) : gmap string Application :=
  {[ "APP-1" := application s ]}.

Definition request {B} (u : User) (b : B) : Request B :=
  mkRequest (Resolves u) None "APP-1" b "10.0.0.1" 1700000000000.

(** A loaded demo engine with [Math.exp] and [Math.random] fixed. *)
Definition predict : Scoring.ApplicantData -> Z -> Scoring.Thrown + Scoring.Prediction :=
  fun d now =>
    Scoring.DemoEngine.predictCreditScore (fun _ => 1%Q) (1 # 2)
      (Scoring.DemoEngine.mk true) (Scoring.Object d []) now.

(** Scenario D of the specification. *)
Definition scenarioD : Scoring.ApplicantData :=
  Scoring.mkApplicantData None (Some 250000%Q) None (Some (1 # 2)) None None
    None None None (Some 6%Q) None None None None.

(** A complete registration body with the given [role]. *)
Definition registration (role : option string) : RegisterBody :=
  mkRegisterBody (Some "mallory") (Some "mallory@example.com") (Some "secret")
                 (Some "Mallory") (Some "Doe") role (Some "risk").

End Scenario.

From stdpp Require Import sorting.

(** ** The rate limiter for sensitive operations
       ([sensitiveRateLimit], [server/middleware/auth.js]) *)

Module RateLimit.

Import Http Auth.

(** [req.ip + (req.user ? req.user._id : '')] *)
Definition keyOf {B} (req : Request B) : string :=
  ip req ++ match user req with Some u => userId u | None => "" end.

(** [times.filter(time => time > windowStart)] *)
Definition prune (windowStart : Z) (times : list Z) : list Z :=
  filter (fun time => (windowStart < time)%Z) times.

(** The 429 answer: the response and its [retryAfter] member, which is not a
    number ([None]) when there is no recorded attempt to compute it from. *)
Record Limited : Type := mkLimited {
  response : Response;
  retryAfter : option Z
}.

(** The middleware returned by [sensitiveRateLimit(maxAttempts, windowMs)],
    with the [attempts] map of its closure passed explicitly: per key, the
    times of the recorded attempts, oldest first. *)
Definition sensitiveRateLimit {B} (maxAttempts windowMs : Z)
           (req : Request B) (attempts : gmap string (list Z))
  : (Limited + Request B) * gmap string (list Z) :=
  let key := keyOf req in
  let now := now req in
  let windowStart := (now - windowMs)%Z in
  let attempts :=
    match attempts !! key with
    | Some times => <[key := prune windowStart times]> attempts
    | None => attempts
    end in
  let currentAttempts := default [] (attempts !! key) in
  if (maxAttempts <=? Z.of_nat (length currentAttempts))%Z
  then
    (inl (mkLimited
            (mkResponse 429 "Too many attempts. Please try again later.")
            (match currentAttempts with
             | first :: _ =>
                 Some (Qceiling (inject_Z (first + windowMs - now) / 1000))
             | [] => None
             end)),
     attempts)
  else (inr req, <[key := (currentAttempts ++ [now])%list]> attempts).

(** The map after the pruning step of a request. *)
Definition pruned {B} (windowMs : Z) (req : Request B)
           (attempts : gmap string (list Z)) : gmap string (list Z) :=
  match attempts !! keyOf req with
  | Some times => <[keyOf req := prune (now req - windowMs) times]> attempts
  | None => attempts
  end.

(** A sequence of requests through one limiter: the requests it let
    through, in order, and the map it is left with. *)
Definition serve {B} (maxAttempts windowMs : Z) (reqs : list (Request B))
           (attempts : gmap string (list Z))
  : list (Request B) * gmap string (list Z) :=
  fold_left
    (fun st req =>
       match sensitiveRateLimit maxAttempts windowMs req (snd st) with
       | (inl _, attempts') => (fst st, attempts')
       | (inr req', attempts') => ((fst st ++ [req'])%list, attempts')
       end)
    reqs ([], attempts).

(** The times at which requests of key [key] were let through. *)
Definition passedAt {B} (key : string) (passed : list (Request B)) : list Z :=
  map now (filter (fun r => keyOf r = key) passed).

End RateLimit.

(** ** The registration route ([router.post('/register', authLimiter, ...)]) *)

Module AuthRoutes.

Import Http Auth.

(** The answer of [authLimiter] to a request it refuses: the [message] of
    its configuration, with the status 429 that express-rate-limit sends
    when the configuration names no other. *)
Definition tooManyAttempts : Response :=
  mkResponse 429 "Too many authentication attempts, please try again later.".

(** [POST /register]: [authLimiter], then the handler.  [limited] tells
    whether the limiter, which express-rate-limit has count at most 10
    requests per address in 15 minutes, refuses the request. *)
Definition registerRoute (limited existingUser : bool) (body : RegisterBody)
  : Response * option NewUser :=
  if limited then (tooManyAttempts, None) else register existingUser body.

End AuthRoutes.

(** ** The application listing ([GET /applications], pagination) *)

Module Listing.

(** [parseInt(x) || d]: [None] is the [NaN] of a missing or non-numeric
    parameter; [NaN] and [0] are falsy. *)
Definition orElse (x : option Z) (d : Z) : Z :=
  match x with
  | Some 0%Z => d
  | Some z => z
  | None => d
  end.

Record Query : Type := mkQuery {
  qPage : option Z;
  qLimit : option Z
}.

Record Pagination : Type := mkPagination {
  currentPage : Z;
  totalPages : Z;
  totalApplications : Z;
  hasNext : bool;
  hasPrev : bool
}.

(** [.skip(skip).limit(limit)] on the matching documents in sort order, for
    a non-negative [skip] and a positive [limit]; what the driver does with
    other values is not modelled ([None]). *)
Definition window {A} (skip limit : Z) (docs : list A) : option (list A) :=
  if ((0 <=? skip) && (0 <? limit))%Z
  then Some (take (Z.to_nat limit) (drop (Z.to_nat skip) docs))
  else None.

(** The handler on [matching], the documents that satisfy the filter, in
    sort order: the page of documents and the [pagination] member. *)
Definition listApplications {A} (q : Query) (matching : list A)
  : option (list A) * Pagination :=
  let page := orElse (qPage q) 1 in
  let limit := orElse (qLimit q) 20 in
  let skip := ((page - 1) * limit)%Z in
  let applications := window skip limit matching in
  let totalApplications := Z.of_nat (length matching) in
  let totalPages := Qceiling (inject_Z totalApplications / inject_Z limit) in
  (applications,
   mkPagination page totalPages totalApplications
                (page <? totalPages)%Z (1 <? page)%Z).

(** The documents shown on page [p] with [limit] per page. *)
Definition pageItems {A} (limit p : Z) (matching : list A) : list A :=
  default [] (fst (listApplications (mkQuery (Some p) (Some limit)) matching)).

End Listing.

(** ** The AI routes: next steps and the batch conversion *)

Module AiRoutes.

Import Js Lifecycle.

Record Step : Type := mkStep {
  stepAction : string;
  stepPriority : string;
  stepDescription : string
}.

(** [generateNextSteps(assessment)]; the assessment carries the prediction's
    [riskLevel] and the [fraudAssessment]. *)
Definition generateNextSteps (assessment : FullAssessment) : list Step :=
  let steps := [] in
  let steps :=
    match Scoring.predRiskLevel (prediction assessment) with
    | Scoring.LOW =>
        Scoring.push steps
          (mkStep "auto_approve" "high"
             "Application can be automatically approved with standard terms")
    | Scoring.MEDIUM =>
        Scoring.push steps
          (mkStep "manual_review" "medium"
             "Assign to underwriter for manual review")
    | Scoring.HIGH =>
        Scoring.push steps
          (mkStep "enhanced_review" "high"
             "Requires enhanced due diligence and senior underwriter approval")
    | Scoring.VERY_HIGH =>
        Scoring.push steps
          (mkStep "decline" "high"
             "Application should be declined due to high risk")
    end in
  let steps :=
    match Scoring.fraudRiskLevel (fraudAssessment assessment) with
    | Scoring.FraudHigh =>
        Scoring.push steps
          (mkStep "fraud_investigation" "urgent"
             "Potential fraud detected - requires immediate investigation")
    | _ => steps
    end in
  steps.

(** The [dataToAnalyze] literal of the batch loop: the one of [/analyze]
    without [timeAtAddress] and [age]. *)
Definition batchDataToAnalyze (application : Application) : Scoring.ApplicantData :=
  Scoring.mkApplicantData
    (finCreditScore (financial application))
    (employmentAnnualIncome (applicant application))
    (finDebtToIncomeRatio (financial application))
    (Some (orDefault (employmentEmploymentLength (applicant application)) 0))
    (amount (loan application))
    (term (loan application))
    (Some (orDefault (finPaymentHistoryScore (financial application)) 80))
    (Some (orDefault (finCreditUtilization (financial application)) (3 # 10)))
    (Some (orDefault (finNumberOfAccounts (financial application)) 5))
    (Some (orDefault (finRecentInquiries (financial application)) 1))
    (Some (orDefault (collateralValue (loan application)) 0))
    (purpose (loan application))
    None
    None.

End AiRoutes.

(** ** The engines as objects: [constructor], [initializeModel],
       [trainInitialModel], [dispose]

    Both classes keep a [model] member beside [isModelLoaded]; [dispose]
    tests the former. *)

Module EngineState.

(** A TensorFlow model object. *)
Inductive Model : Type := Sequential.

Record t : Type := mk {
  model : option Model;
  isModelLoaded : bool
}.

(** [this.model = null; this.isModelLoaded = false] *)
Definition constructor : t := mk None false.

(** The methods a caller may invoke; for the TensorFlow engine
    [initializeModel] may throw while the network is built (before [model]
    is assigned) or while it is trained (after). *)
Inductive Outcome : Type := Succeeds | FailsBuilding | FailsTraining.

Inductive Call : Type :=
| InitializeModel (o : Outcome)
| TrainInitialModel
| Dispose.

(** The first class of the file. *)
Module TensorFlow.

Definition initializeModel (o : Outcome) (e : t) : t :=
  match o with
  | FailsBuilding => e
  | FailsTraining => mk (Some Sequential) (isModelLoaded e)
  | Succeeds => mk (Some Sequential) true
  end.

Definition dispose (e : t) : t :=
  match model e with
  | Some _ => mk (model e) false
  | None => e
  end.

Definition call (e : t) (c : Call) : t :=
  match c with
  | InitializeModel o => initializeModel o e
  | TrainInitialModel => e
  | Dispose => dispose e
  end.

End TensorFlow.

(** The second class of the file: [initializeModel] only sets the flag and
    cannot throw, and nothing assigns [model]. *)
Module Demo.

Definition initializeModel (e : t) : t := mk (model e) true.

Definition dispose (e : t) : t :=
  match model e with
  | Some _ => mk (model e) false
  | None => e
  end.

Definition call (e : t) (c : Call) : t :=
  match c with
  | InitializeModel _ => initializeModel e
  | TrainInitialModel => e
  | Dispose => dispose e
  end.

(** The engine as [predictCreditScore] sees it. *)
Definition engine (e : t) : Scoring.DemoEngine.t :=
  Scoring.DemoEngine.mk (isModelLoaded e).

End Demo.

End EngineState.

(** ** The alerts of the dashboard ([GET /alerts], [server/routes/dashboard.js]) *)

Module Dashboard.

Import Lifecycle.

Record Alert : Type := mkAlert {
  alertType : string;
  title : string;
  alertMessage : string;
  alertPriority : string;
  alertTimestamp : Z
}.

(** [CreditApplication.countDocuments(query)]: the number of stored
    applications that satisfy the query. *)
Definition countDocuments (query : Application -> bool)
           (σ : gmap string Application) : nat :=
  base.size (filter (fun entry => query (snd entry) = true) σ).

(** [3 * 24 * 60 * 60 * 1000] *)
Definition threeDays : Z := 3 * 24 * 60 * 60 * 1000.

(** The four queries of the route. *)
Definition overdue (now : Z) (a : Application) : bool :=
  status_eqb (status a) under_review
  && match assignedAt (manualReview a) with
     | Some t => (t <? now - threeDays)%Z
     | None => false
     end.

Definition veryHighRisk (a : Application) : bool :=
  status_eqb (status a) submitted
  && match aiAssessment a with
     | Some x =>
         match Scoring.predRiskLevel (prediction x) with
         | Scoring.VERY_HIGH => true
         | _ => false
         end
     | None => false
     end.

Definition fraudFlagged (a : Application) : bool :=
  (status_eqb (status a) submitted || status_eqb (status a) under_review)
  && match aiAssessment a with
     | Some x =>
         match Scoring.fraudRiskLevel (fraudAssessment x) with
         | Scoring.FraudHigh => true
         | _ => false
         end
     | None => false
     end.

Definition unassigned (a : Application) : bool :=
  status_eqb (status a) submitted
  && match assignedTo (manualReview a) with
     | Some _ => false
     | None => true
     end.

Record AlertsData : Type := mkAlertsData {
  alerts : list Alert;
  totalAlerts : nat;
  hasUrgent : bool
}.

Definition alertsHandler (now : Z) (σ : gmap string Application) : AlertsData :=
  let alerts := [] in
  let overdueCount := countDocuments (overdue now) σ in
  let alerts :=
    if (0 <? overdueCount)%nat
    then Scoring.push alerts
           (mkAlert "warning" "Overdue Applications"
              (pretty overdueCount
               ++ " application(s) have been under review for more than 3 days")
              "high" now)
    else alerts in
  let highRiskCount := countDocuments veryHighRisk σ in
  let alerts :=
    if (0 <? highRiskCount)%nat
    then Scoring.push alerts
           (mkAlert "error" "High Risk Applications"
              (pretty highRiskCount
               ++ " very high-risk application(s) require immediate attention")
              "urgent" now)
    else alerts in
  let fraudCount := countDocuments fraudFlagged σ in
  let alerts :=
    if (0 <? fraudCount)%nat
    then Scoring.push alerts
           (mkAlert "error" "Potential Fraud Detected"
              (pretty fraudCount ++ " application(s) flagged for potential fraud")
              "urgent" now)
    else alerts in
  let unassignedCount := countDocuments unassigned σ in
  let alerts :=
    if (5 <? unassignedCount)%nat
    then Scoring.push alerts
           (mkAlert "info" "Unassigned Applications"
              (pretty unassignedCount ++ " applications waiting for assignment")
              "medium" now)
    else alerts in
  mkAlertsData alerts (length alerts)
               (existsb (fun alert => String.eqb (alertPriority alert) "urgent") alerts).

End Dashboard.

(** ** Vocabulary for the properties below *)

Module Effects.

Import Js Http Auth Lifecycle.

(** A prediction that one of the two engines returned for [d]. *)
Definition produced (d : Scoring.ApplicantData) (p : Scoring.Prediction) : Prop :=
  (exists e score0 now,
      Scoring.Engine.predictCreditScore e d score0 now = inr p)
  \/ (exists exp random e now,
        Scoring.DemoEngine.predictCreditScore exp random e
          (Scoring.Object d []) now = inr p).

(** The [action] members of recommendations and steps, the names of
    factors. *)
Definition recommended (p : Scoring.Prediction) : list string :=
  map Scoring.action (Scoring.recommendations p).

Definition flagged (p : Scoring.Prediction) : list string :=
  map Scoring.factor (Scoring.factors p).

(** The audit action each route writes. *)
Definition actionName (op : Operation) : string :=
  match op with
  | Update _ => "application_updated"
  | Submit _ => "application_submitted"
  | Documents _ => "documents_uploaded"
  | Assign _ => "application_assigned"
  | Notes _ => "review_note_added"
  | Analyze _ => "ai_analysis_completed"
  end.

(** The clock and the address of the request behind an operation. *)
Definition clock (op : Operation) : Z :=
  match op with
  | Update req => now req
  | Submit req => now req
  | Documents req => now req
  | Assign req => now req
  | Notes req => now req
  | Analyze req => now req
  end.

Definition origin (op : Operation) : string :=
  match op with
  | Update req => ip req
  | Submit req => ip req
  | Documents req => ip req
  | Assign req => ip req
  | Notes req => ip req
  | Analyze req => ip req
  end.

(** An operation that names a stored application: every route but
    [/analyze] does through its [:id] parameter, [/analyze] when its body
    carries a non-empty [applicationId]. *)
Definition addresses (op : Operation) : Prop :=
  match op with
  | Analyze req => truthy (bodyApplicationId (body req)) = true
  | _ => True
  end.

(** The value of the last [auditTrail] (resp. [completedAt],
    [submittedAt]) key of an update body, if it has one. *)
Fixpoint lastAuditTrail (fields : list UpdateField) : option (list AuditEntry) :=
  match fields with
  | [] => None
  | f :: rest =>
      match lastAuditTrail rest with
      | Some v => Some v
      | None => match f with UAuditTrail v => Some v | _ => None end
      end
  end.

Definition carries (key : string) (fields : list UpdateField) : Prop :=
  In key (map fieldKey fields).

(** A numeric property that is falsy: missing or zero. *)
Definition falsy (x : prop) : bool :=
  match x with Some q => Qeq_bool q 0 | None => true end.


(** The actions of the next steps. *)
Definition proposed (x : FullAssessment) : list string :=
  map AiRoutes.stepAction (AiRoutes.generateNextSteps x).

(** The six fields [POST /register] requires are all present and
    non-empty. *)
Definition complete (b : RegisterBody) : bool :=
  truthy (rUsername b) && truthy (rEmail b) && truthy (rPassword b)
  && truthy (rFirstName b) && truthy (rLastName b) && truthy (rDepartment b).

(** The store after a sequence of requests, served one after the other. *)
Definition run (isModelLoaded : bool)
           (predictCreditScore : Scoring.ApplicantData -> Z -> Scoring.Thrown + Scoring.Prediction)
           (ops : list Operation) (σ : Store) : Store :=
  fold_left (fun σ op => snd (perform isModelLoaded predictCreditScore op σ)) ops σ.

(** An operation of the review work: any but the free-form update. *)
Definition review (op : Operation) : Prop :=
  match op with Update _ => False | _ => True end.

(** [a'] still holds what [a] held: the same identifier, applicant, loan,
    financial data and completion time, and the audit trail, the documents
    and the review notes of [a] with possibly more after them. *)
Definition extends (a a' : Application) : Prop :=
  applicationId a' = applicationId a
  /\ applicant a' = applicant a
  /\ loan a' = loan a
  /\ financial a' = financial a
  /\ completedAt a' = completedAt a
  /\ auditTrail a `prefix_of` auditTrail a'
  /\ documents a `prefix_of` documents a'
  /\ reviewNotes (manualReview a) `prefix_of` reviewNotes (manualReview a').


End Effects.

(** ** More concrete requests *)

Module Example.

Import Js Http Auth Lifecycle.

(** A request of the analyst at time [t]. *)
Definition at_ (t : Z) : Request unit :=
  mkRequest (Resolves Scenario.analyst) (Some Scenario.analyst) "profile" tt
            "10.0.0.1" t.

(** Forty-five documents. *)
Definition documents45 : list nat := seq 1 45.

(** A strong applicant. *)
Definition strong : Scoring.ApplicantData :=
  Scoring.mkApplicantData (Some 790%Q) (Some 180000%Q) (Some (1 # 10))
    (Some 12%Q) (Some 20000%Q) (Some 5%Q) (Some 95%Q) (Some (1 # 10))
    (Some 6%Q) (Some 1%Q) (Some 40000%Q) (Some "home_purchase")
    (Some 48%Q) (Some 41%Q).

(** An admin by role who holds no grant at all. *)
Definition bareAdmin : User :=
  mkUser "u-bare" "bare" "admin" [] true false.

(** A submitted application of a well-paid applicant whose employment
    length is not on file. *)
Definition newHire : Application :=
  mkApplication "APP-2" submitted
    (mkApplicant None (Some 250000%Q) None None)
    (mkLoan (Some 20000%Q) (Some "auto_loan") (Some 5%Q) None)
    (mkFinancial (Some 700%Q) None None None None None)
    None (mkManualReview None None []) [] [] None None.

(** A locked account. *)
Definition lockedAnalyst : User :=
  mkUser "u-locked" "locked" "analyst" analystSet true true.

End Example.

(** * Verification

    ** The feature extractor *)

Section ExtractorFacts.

Import Js Scoring Spec.

Lemma orDefault_zero (d : Q) : orDefault (Some 0%Q) d = orDefault None d.
Proof. reflexivity. Qed.

Lemma preprocessFeatures_length (d : ApplicantData) :
  length (preprocessFeatures d) = 12%nat.
Proof. reflexivity. Qed.

(** The code's table lookup agrees with the specification's table on every
    key that is not inherited from [Object.prototype]. *)
Lemma getLoanPurposeScore_table (purpose : option string) :
  inherited (purposeKey purpose) = false ->
  getLoanPurposeScore purpose = Own (categoryScore purpose).
Proof.
  intros Hown. destruct purpose as [s|]; [|reflexivity].
  unfold getLoanPurposeScore, get, categoryScore, purposeScores, purposeKey in *. cbn [assoc].
  rewrite !(String.eqb_sym _ s).
  repeat (match goal with
          | |- context [String.eqb s ?k] =>
              destruct (String.eqb_spec s k) as [->|?]; [reflexivity|]
          end).
  rewrite Hown. reflexivity.
Qed.

Lemma effective_in_range (x : prop) (dflt hi : Q) :
  (0 <= dflt)%Q -> (dflt <= hi)%Q ->
  match x with Some q => (0 <= q)%Q /\ (q <= hi)%Q | None => True end ->
  (0 <= orDefault x dflt)%Q /\ (orDefault x dflt <= hi)%Q.
Proof.
  intros H0 H1 Hx. destruct x as [q|]; simpl; [|auto].
  destruct (Qeq_bool q 0); auto.
Qed.

Lemma div_in_unit (v k : Q) :
  (0 < k)%Q -> (0 <= v)%Q -> (v <= k)%Q -> (0 <= v / k)%Q /\ (v / k <= 1)%Q.
Proof.
  intros Hk H0 H1. split.
  - apply Qle_shift_div_l; [exact Hk|]. rewrite Qmult_0_l. exact H0.
  - apply Qle_shift_div_r; [exact Hk|]. rewrite Qmult_1_l. exact H1.
Qed.

Lemma Forall_map_intro {A B} (P : B -> Prop) (f : A -> B) (l : list A) :
  Forall (fun x => P (f x)) l -> Forall P (map f l).
Proof. induction 1; simpl; constructor; auto. Qed.

Lemma featureTable_rows :
  Forall (fun r => (0 <= default r)%Q /\ (default r <= top r)%Q /\ (0 < top r)%Q)
         featureTable.
Proof.
  unfold featureTable.
  repeat constructor; unfold Qle, Qlt; simpl; lia.
Qed.

Lemma normalise_in_unit (d : ApplicantData) (r : Row) :
  (0 <= default r)%Q -> (default r <= top r)%Q -> (0 < top r)%Q ->
  withinRange (raw r d) (top r) -> InUnit (normalise d r).
Proof.
  intros H0 H1 Hk Hx.
  destruct (effective_in_range (raw r d) (default r) (top r) H0 H1 Hx) as [Ha Hb].
  unfold normalise, top, effective in *.
  destruct (divisor r) as [k|]; simpl.
  - apply div_in_unit; assumption.
  - split; assumption.
Qed.

Lemma categoryScore_in_unit (purpose : option string) :
  InUnit (Fin (categoryScore purpose / 10)).
Proof.
  destruct purpose as [s|]; unfold categoryScore;
    repeat (match goal with
            | |- context [String.eqb s ?k] => destruct (String.eqb s k)
            end);
    simpl; unfold Qle; simpl; split; lia.
Qed.

Lemma table_in_unit (d : ApplicantData) :
  Forall (fun r => withinRange (raw r d) (top r)) featureTable ->
  Forall InUnit (map (normalise d) featureTable).
Proof.
  intros Hr. apply Forall_map_intro.
  pose proof featureTable_rows as Ht.
  induction Ht as [|r rows [H0 [H1 Hk]] _ IH]; [constructor|].
  inversion Hr; subst. constructor.
  - apply normalise_in_unit; assumption.
  - apply IH. assumption.
Qed.

(** Claim C4, as amended.  For every input whose loan purpose is not one of
    the names an object inherits from [Object.prototype] (all fields may be
    absent), [preprocessFeatures] returns exactly 12 scalars, in order the
    eleven rows of the table (raw input, or its default when the input is
    missing or zero, over the stated divisor; the two ratios passed through)
    followed by the loan-purpose score over 10, unknown categories scoring 5.
    The scalars lie in [0,1] when every raw input that is present lies
    between 0 and the upper end of its row; the extractor is a total
    function, it never fails. *)
Theorem preprocessFeatures_meets_table (d : ApplicantData)
        (Hkey : inherited (purposeKey (loanPurpose d)) = false) :
  length (preprocessFeatures d) = 12%nat
  /\ preprocessFeatures d = extract d
  /\ (Forall (fun r => withinRange (raw r d) (top r)) featureTable ->
      Forall InUnit (preprocessFeatures d)).
Proof.
  assert (Heq : preprocessFeatures d = extract d).
  { unfold preprocessFeatures, extract, push. simpl.
    rewrite (getLoanPurposeScore_table _ Hkey). reflexivity. }
  split; [reflexivity|]. split; [exact Heq|].
  intros Hr. rewrite Heq. unfold extract.
  apply Forall_app. split.
  - apply table_in_unit, Hr.
  - constructor; [apply categoryScore_in_unit | constructor].
Qed.

(** The object with every field absent. *)
Lemma preprocessFeatures_meets_table_witness :
  inherited (purposeKey (loanPurpose emptyData)) = false
  /\ length (preprocessFeatures emptyData) = 12%nat
  /\ preprocessFeatures emptyData = extract emptyData
  /\ Forall InUnit (preprocessFeatures emptyData).
Proof.
  split; [reflexivity|].
  destruct (preprocessFeatures_meets_table emptyData eq_refl) as [Hl [He Hu]].
  split; [exact Hl|]. split; [exact He|].
  apply Hu. repeat constructor.
Defined.

(** A credit score of 850 normalises to 850/800, above 1. *)
Lemma features_can_leave_unit_interval :
  ~ Forall InUnit
      (preprocessFeatures (withField FCreditScore (Some 850%Q) emptyData)).
Proof.
  intros H. simpl in H. apply Forall_inv in H. destruct H as [_ Hle].
  unfold Qle in Hle; simpl in Hle. lia.
Qed.


End ExtractorFacts.

(** ** The fraud heuristics *)

Section FraudFacts.

Import Js Scoring Spec.

Lemma contributions_cons (d : ApplicantData) (r : Rule) (rules : list Rule) :
  contributions d (r :: rules)
  = ((if holds r d then points r else 0) + contributions d rules)%Z.
Proof.
  unfold contributions. rewrite filter_cons.
  destruct (decide (holds r d = true)) as [E|E].
  - rewrite E. reflexivity.
  - apply not_true_is_false in E. rewrite E. reflexivity.
Qed.

Lemma contributions_permutation (d : ApplicantData) (rules rules' : list Rule) :
  Permutation rules rules' -> contributions d rules = contributions d rules'.
Proof.
  induction 1 as [|r l l' _ IH|r r' l|l l' l'' _ IH1 _ IH2].
  - reflexivity.
  - rewrite !contributions_cons, IH. reflexivity.
  - rewrite !contributions_cons. lia.
  - congruence.
Qed.

Lemma flag_score (c : bool) (reason : string) (p : Z) (st : list string * Z) :
  snd (flag c reason p st) = ((if c then p else 0) + snd st)%Z.
Proof. destruct c; simpl; lia. Qed.

Lemma flag_factors (c : bool) (reason : string) (p : Z) (st : list string * Z) :
  length (fst (flag c reason p st))
  = ((if c then 1 else 0) + length (fst st))%nat.
Proof. destruct c; simpl; [|reflexivity]. unfold push. rewrite length_app. simpl. lia. Qed.

Lemma evaluateFraudRisk_score (d : ApplicantData) :
  fraudScore (evaluateFraudRisk d) = contributions d fraudRules.
Proof.
  unfold evaluateFraudRisk, fraudRules. cbn [fraudScore].
  rewrite !flag_score, !contributions_cons. cbn [holds points snd].
  unfold contributions. simpl. lia.
Qed.

(** Claim C5.  For every applicant input, the fraud score is the sum of the
    contributions (+30, +10, +20, +15) of exactly the rules whose condition
    holds, whatever the order the rules are taken in, each rule counted
    once (one risk factor per rule that fired); the risk level is HIGH iff
    the score exceeds 50, MEDIUM iff it is in (25,50], LOW otherwise; the
    recommendation is MANUAL_REVIEW iff the score exceeds 50 and
    AUTOMATED_PROCESSING otherwise. *)
Theorem evaluateFraudRisk_additive (d : ApplicantData) :
  let r := evaluateFraudRisk d in
  fraudScore r = contributions d fraudRules
  /\ (forall rules, Permutation fraudRules rules ->
                    fraudScore r = contributions d rules)
  /\ length (riskFactors r)
     = length (filter (fun rule => holds rule d = true) fraudRules)
  /\ (fraudRiskLevel r = FraudHigh <-> (50 < fraudScore r)%Z)
  /\ (fraudRiskLevel r = FraudMedium <-> (25 < fraudScore r <= 50)%Z)
  /\ (fraudRiskLevel r = FraudLow <-> (fraudScore r <= 25)%Z)
  /\ (recommendation r = MANUAL_REVIEW <-> (50 < fraudScore r)%Z)
  /\ (recommendation r = AUTOMATED_PROCESSING <-> (fraudScore r <= 50)%Z).
Proof.
  intros r. split; [apply evaluateFraudRisk_score|].
  split.
  { intros rules Hp. unfold r. rewrite evaluateFraudRisk_score.
    apply contributions_permutation, Hp. }
  split.
  { unfold r, evaluateFraudRisk, fraudRules. cbn [riskFactors].
    rewrite !flag_factors. rewrite !filter_cons, filter_nil. cbn [holds].
    repeat (match goal with
            | |- context [decide (?b = true)] =>
                let E := fresh in
                destruct (decide (b = true)) as [E|E];
                [rewrite E | apply not_true_is_false in E; rewrite E]
            end); reflexivity. }
  unfold r, evaluateFraudRisk.
  cbn [fraudScore fraudRiskLevel recommendation].
  set (s := snd _).
  destruct (Z.ltb_spec 50 s); destruct (Z.ltb_spec 25 s);
    repeat split; intros; try discriminate; try lia; try reflexivity.
Qed.

End FraudFacts.

(** ** The scoring engines *)

Section EngineFacts.

Import Js Scoring Spec.

Lemma Qle_bool_inject (a b : Z) : Qle_bool (inject_Z a) (inject_Z b) = (a <=? b)%Z.
Proof. unfold Qle_bool. simpl. rewrite !Z.mul_1_r. reflexivity. Qed.

Lemma calculateRiskLevel_band (z : Z) :
  calculateRiskLevel (Fin (inject_Z z)) = band z.
Proof.
  unfold calculateRiskLevel, band, ge.
  change 750%Q with (inject_Z 750). change 650%Q with (inject_Z 650).
  change 550%Q with (inject_Z 550).
  rewrite !Qle_bool_inject. reflexivity.
Qed.

Lemma clamp_unit (s : num) :
  match max 0 (min 1 s) with
  | Fin y => (0 <= y)%Q /\ (y <= 1)%Q
  | NaN => s = NaN
  end.
Proof.
  destruct s as [x|]; [|reflexivity]. simpl.
  destruct (Qle_bool 1 x) eqn:E1.
  - simpl. split; unfold Qle; simpl; lia.
  - destruct (Qle_bool x 0) eqn:E0.
    + split; unfold Qle; simpl; lia.
    + split.
      * destruct (Qlt_le_dec x 0) as [Hlt|Hge]; [|exact Hge].
        apply Qlt_le_weak, Qle_bool_iff in Hlt. congruence.
      * destruct (Qlt_le_dec 1 x) as [Hlt|Hge]; [|exact Hge].
        apply Qlt_le_weak, Qle_bool_iff in Hlt. congruence.
Qed.

Lemma round_scaled (y k : Z) (s : Q) :
  (0 <= k)%Z -> (0 <= s)%Q -> (s <= 1)%Q ->
  (y <= Qfloor (s * inject_Z k + inject_Z y + (1 # 2)) <= y + k)%Z.
Proof.
  intros Hk H0 H1.
  assert (Ha : (inject_Z y + (1 # 2) <= s * inject_Z k + inject_Z y + (1 # 2))%Q).
  { rewrite <- (Qplus_0_l (inject_Z y + (1 # 2))) at 1.
    rewrite <- Qplus_assoc. apply Qplus_le_l.
    apply Qmult_le_0_compat; [exact H0|].
    change 0%Q with (inject_Z 0). rewrite <- Zle_Qle. exact Hk. }
  assert (Hb : (s * inject_Z k + inject_Z y + (1 # 2) <= inject_Z (y + k) + (1 # 2))%Q).
  { apply Qplus_le_l. rewrite inject_Z_plus, (Qplus_comm (inject_Z y)).
    apply Qplus_le_l.
    rewrite <- (Qmult_1_l (inject_Z k)) at 2.
    apply Qmult_le_compat_r; [exact H1|].
    change 0%Q with (inject_Z 0). rewrite <- Zle_Qle. exact Hk. }
  apply Qfloor_resp_le in Ha, Hb.
  assert (Hf : forall z : Z, Qfloor (inject_Z z + (1 # 2)) = z).
  { intros z. unfold Qfloor, Qplus, inject_Z. simpl.
    replace ((z * 2 + 1 * 1))%Z with (1 + z * 2)%Z by lia.
    rewrite Z.div_add by lia. reflexivity. }
  rewrite Hf in Ha, Hb. lia.
Qed.

Lemma weight_finite (i : nat) :
  (i < 12)%nat -> isFin (DemoEngine.weight i) = true.
Proof.
  intros Hi. do 12 (destruct i as [|i]; [reflexivity|]). lia.
Qed.

Lemma weightedSum_finite (features : list num) :
  forall (i : nat) (s : Q),
    Forall (fun f => isFin f = true) features ->
    (i + length features <= 12)%nat ->
    isFin (DemoEngine.weightedSum i features (Fin s)) = true.
Proof.
  induction features as [|f rest IH]; intros i s Hf Hl; simpl in *.
  - reflexivity.
  - inversion Hf as [|? ? Hfin Hrest]; subst.
    pose proof (weight_finite i ltac:(lia)) as Hw.
    destruct f as [x|]; [|discriminate].
    destruct (DemoEngine.weight i) as [w|]; [|discriminate].
    simpl. apply IH; [exact Hrest | lia].
Qed.

Lemma preprocessFeatures_finite (d : ApplicantData) :
  inherited (purposeKey (loanPurpose d)) = false ->
  Forall (fun f => isFin f = true) (preprocessFeatures d).
Proof.
  intros Hkey. unfold preprocessFeatures, push. simpl.
  rewrite (getLoanPurposeScore_table _ Hkey). repeat constructor.
Qed.

Section Demo.

Variable exp : Q -> Q.
Variable random : Q.

Lemma calculateCreditScoreDemo_unit (features : list num) :
  Forall (fun f => isFin f = true) features ->
  (length features <= 12)%nat ->
  exists y, DemoEngine.calculateCreditScoreDemo exp random features = Fin y
            /\ (0 <= y)%Q /\ (y <= 1)%Q.
Proof.
  intros Hf Hl. unfold DemoEngine.calculateCreditScoreDemo.
  pose proof (weightedSum_finite features 0 0 Hf ltac:(simpl; lia)) as Hs.
  destruct (DemoEngine.weightedSum 0 features (Fin 0)) as [s|]; [|discriminate].
  simpl DemoEngine.sigmoid. cbn [add].
  match goal with |- context [min 1 (Fin ?x)] => pose proof (clamp_unit (Fin x)) as Hc end.
  destruct (max 0 (min 1 _)) as [y|]; [|discriminate].
  exists y. split; [reflexivity | exact Hc].
Qed.

(** The demo engine keeps the score in range (on inputs whose loan purpose
    is not a name inherited from [Object.prototype]). *)
Lemma demo_creditScore_in_range (e : DemoEngine.t) (d : ApplicantData)
      (opaque : list string) (now : Z) (p : Prediction) :
  inherited (purposeKey (loanPurpose d)) = false ->
  DemoEngine.predictCreditScore exp random e (Object d opaque) now = inr p ->
  exists z, predCreditScore p = Fin (inject_Z z)
            /\ (300 <= z <= 850)%Z
            /\ predRiskLevel p = band z.
Proof.
  intros Hkey Hp. unfold DemoEngine.predictCreditScore in Hp.
  destruct (negb (DemoEngine.isModelLoaded e)); [discriminate|].
  destruct (converted (Object d opaque)) as [error|d'] eqn:Hd; [discriminate|].
  assert (d' = d) as ->.
  { cbn [converted] in Hd. destruct (existsb _ _) in Hd; congruence. }
  destruct (calculateCreditScoreDemo_unit (preprocessFeatures d)
              (preprocessFeatures_finite d Hkey)
              ltac:(rewrite preprocessFeatures_length; lia)) as [y [Hy [H0 H1]]].
  rewrite Hy in Hp. injection Hp as <-. cbn [predCreditScore predRiskLevel].
  cbn [mul add round].
  exists (Qfloor (y * 550 + 300 + (1 # 2))).
  split; [reflexivity|]. split.
  - pose proof (round_scaled 300 550 y ltac:(lia) H0 H1) as Hr.
    simpl in Hr. exact Hr.
  - apply calculateRiskLevel_band.
Qed.

(** With a loan purpose that names a member of [Object.prototype] the last
    feature is [NaN], and so is the demo engine's credit score. *)
Lemma demo_creditScore_nan_on_inherited_purpose (e : DemoEngine.t) (now : Z)
      (p : Prediction) :
  let d := mkApplicantData None None None None None None None None None None
                           None (Some "constructor") None None in
  DemoEngine.predictCreditScore exp random e (Object d []) now = inr p ->
  predCreditScore p = NaN /\ predRiskLevel p = VERY_HIGH.
Proof.
  intros d Hp. unfold DemoEngine.predictCreditScore in Hp.
  destruct (negb (DemoEngine.isModelLoaded e)); [discriminate|].
  injection Hp as <-. split; reflexivity.
Qed.

(** When the reads and conversions of the [try] block raise, and when they
    go through. *)
Lemma converted_raises (applicantData : Argument) :
  converted applicantData = inl TypeError
  <-> applicantData = Nullish
      \/ exists d opaque member,
           applicantData = Object d opaque
           /\ In member opaque /\ In member computedMembers.
Proof.
  destruct applicantData as [|d opaque]; cbn [converted].
  - split; [auto | reflexivity].
  - destruct (existsb _ computedMembers) eqn:Hex.
    + split; [|reflexivity]. intros _. right.
      apply existsb_exists in Hex as [member [Hin Hop]].
      apply existsb_exists in Hop as [name [Hname Heq]].
      apply String.eqb_eq in Heq. subst name.
      exists d, opaque, member. auto.
    + split; [discriminate|].
      intros [Hn | (d' & opaque' & member & Heq & Hop & Hin)]; [discriminate|].
      injection Heq as <- <-.
      assert (Htrue : existsb (fun m => existsb (String.eqb m) opaque)
                              computedMembers = true).
      { apply existsb_exists. exists member. split; [exact Hin|].
        apply existsb_exists. exists member. split; [exact Hop|].
        apply String.eqb_refl. }
      congruence.
Qed.

Lemma converted_cases (applicantData : Argument) :
  converted applicantData = inl TypeError
  \/ exists d opaque,
       applicantData = Object d opaque
       /\ converted applicantData = inr d
       /\ forall member, In member opaque -> ~ In member computedMembers.
Proof.
  destruct (converted applicantData) as [error|d] eqn:Hc.
  - left. destruct applicantData as [|d opaque]; cbn [converted] in Hc.
    + congruence.
    + destruct (existsb _ _) in Hc; congruence.
  - right. destruct applicantData as [|d' opaque]; [discriminate|].
    exists d', opaque. split; [reflexivity|].
    assert (Hnot : converted (Object d' opaque) <> inl TypeError)
      by (rewrite Hc; discriminate).
    split.
    + cbn [converted] in Hc |- *. destruct (existsb _ _); congruence.
    + intros member Hop Hin. apply Hnot, converted_raises. right.
      exists d', opaque, member. auto.
Qed.

(** Claim C8, as amended.  The demo engine's [predictCreditScore] raises
    the error 'AI model not loaded' if and only if the engine has not been
    initialised ([isModelLoaded] false), whatever its argument.  Once the
    engine is initialised it does not return for every input: it raises a
    [TypeError], and nothing else, when the argument is [undefined] or
    [null] and when one of the twelve members it computes with cannot be
    converted to a primitive; on an object whose members are numbers or
    absent it returns a prediction.  [initializeModel] loads the engine. *)
Theorem predictCreditScore_raises
        (e : DemoEngine.t) (applicantData : Argument) (now : Z) :
  let result := DemoEngine.predictCreditScore exp random e applicantData now in
  (result = inl notLoaded <-> DemoEngine.isModelLoaded e = false)
  /\ (result = inl TypeError
      <-> DemoEngine.isModelLoaded e = true
          /\ (applicantData = Nullish
              \/ exists d opaque member,
                   applicantData = Object d opaque
                   /\ In member opaque /\ In member computedMembers))
  /\ ((exists p, result = inr p)
      <-> DemoEngine.isModelLoaded e = true
          /\ exists d opaque,
               applicantData = Object d opaque
               /\ forall member, In member opaque -> ~ In member computedMembers)
  /\ (forall error, result = inl error -> error = notLoaded \/ error = TypeError)
  /\ DemoEngine.isModelLoaded (DemoEngine.initializeModel e) = true.
Proof.
  cbv zeta. unfold DemoEngine.predictCreditScore.
  destruct (DemoEngine.isModelLoaded e) eqn:Hloaded; cbn [negb].
  - pose proof (converted_raises applicantData) as Hraise.
    destruct (converted_cases applicantData)
      as [Hc | (d & opaque & Ha & Hc & Hnone)]; rewrite Hc in *.
    + split; [split; discriminate|].
      split; [split; [intros _; split; [reflexivity | apply Hraise; reflexivity]
                     | reflexivity]|].
      split.
      * split; [intros [p Hp]; discriminate|].
        intros (_ & d & opaque & Ha & Hnone).
        destruct (proj1 Hraise eq_refl)
          as [Hn | (d' & opaque' & member & Ha' & Hop & Hin)].
        -- congruence.
        -- rewrite Ha in Ha'. injection Ha' as <- <-.
           exfalso. exact (Hnone member Hop Hin).
      * split; [|reflexivity]. intros error [= <-]. right. reflexivity.
    + split; [split; discriminate|].
      split; [split; [discriminate | intros [_ Hbad]; apply Hraise in Hbad;
                                      discriminate]|].
      split.
      * split; [|intros _; eexists; reflexivity].
        intros _. split; [reflexivity|]. exists d, opaque. auto.
      * split; [|reflexivity]. intros error H. discriminate.
  - split; [split; reflexivity|].
    split; [split; [discriminate | intros [H _]; discriminate]|].
    split; [split; [intros [p Hp]; discriminate | intros [H _]; discriminate]|].
    split; [|reflexivity]. intros error [= <-]. left. reflexivity.
Qed.

End Demo.

(** Claim C3, on the TensorFlow engine.  Its [predictCreditScore] scales the
    network's output by 850 instead of 550: for a loaded engine and any
    applicant, an output of 0.9 gives creditScore 1065 and an output of 1
    gives 1150, both above the 850 its own comment ("Scale to 300-850")
    and the demo engine keep to. *)
Theorem tensorflow_creditScore_exceeds_range (d : ApplicantData) (now : Z) :
  let e := Engine.initializeModel Engine.constructor in
  (exists p, Engine.predictCreditScore e d (9 # 10) now = inr p
             /\ predCreditScore p = Fin (inject_Z 1065))
  /\ (exists p, Engine.predictCreditScore e d 1 now = inr p
                /\ predCreditScore p = Fin (inject_Z 1150)).
Proof.
  split; eexists; (split; [reflexivity|]); reflexivity.
Qed.

Lemma tensorflow_creditScore_bounds (e : Engine.t) (d : ApplicantData)
      (score0 : Q) (now : Z) (p : Prediction) :
  (0 <= score0)%Q -> (score0 <= 1)%Q ->
  Engine.predictCreditScore e d score0 now = inr p ->
  exists z, predCreditScore p = Fin (inject_Z z)
            /\ (300 <= z <= 1150)%Z
            /\ predRiskLevel p = band z.
Proof.
  intros H0 H1 Hp. unfold Engine.predictCreditScore in Hp.
  destruct (negb (Engine.isModelLoaded e)); [discriminate|].
  injection Hp as <-. cbn [predCreditScore predRiskLevel round].
  exists (Qfloor (score0 * 850 + 300 + (1 # 2))).
  split; [reflexivity|]. split.
  - pose proof (round_scaled 300 850 score0 ltac:(lia) H0 H1) as Hr.
    simpl in Hr. exact Hr.
  - apply calculateRiskLevel_band.
Qed.

End EngineFacts.

(** ** Grants and registration *)

Section GrantFacts.

Import Js Auth Spec.

Ltac decide_strings :=
  repeat match goal with
         | |- context [String.eqb ?a ?b] =>
             destruct (String.eqb_spec a b); subst;
             cbn [existsb andb orb resource actions In app]
         end.

Lemma grants_admin (res act : string) :
  grants adminSet res act = true <-> allowed "admin" res act.
Proof.
  unfold grants, adminSet, allowed, crud.
  cbn [existsb andb orb resource actions In app].
  decide_strings; intuition congruence.
Qed.

Lemma grants_underwriter (res act : string) :
  grants underwriterSet res act = true <-> allowed "underwriter" res act.
Proof.
  unfold grants, underwriterSet, allowed, crud.
  cbn [existsb andb orb resource actions In app].
  decide_strings; intuition congruence.
Qed.

Lemma grants_analyst (res act : string) :
  grants analystSet res act = true <-> allowed "analyst" res act.
Proof.
  unfold grants, analystSet, allowed, crud.
  cbn [existsb andb orb resource actions In app].
  decide_strings; intuition congruence.
Qed.

Lemma grants_viewer (res act : string) :
  grants viewerSet res act = true <-> allowed "viewer" res act.
Proof.
  unfold grants, viewerSet, allowed, crud.
  cbn [existsb andb orb resource actions In app].
  decide_strings; intuition congruence.
Qed.

(** Claim C7, as amended.  For each of the four roles the default grant set
    is the one of the table: admin has create/read/update/delete/approve on
    applications, create/read/update/delete on users and on reports, and
    read/update on settings; underwriter has read/update/approve on
    applications and read on reports; analyst has create/read/update on
    applications and read on reports; viewer has read on applications and on
    reports; and nothing else is granted. *)
Theorem getDefaultPermissions_table (role : string) (Hrole : In role roles) :
  exists set, getDefaultPermissions role = Own set
              /\ forall res act, grants set res act = true <-> allowed role res act.
Proof.
  unfold roles in Hrole. simpl in Hrole.
  destruct Hrole as [<-|[<-|[<-|[<-|[]]]]].
  - exists adminSet. split; [reflexivity | apply grants_admin].
  - exists underwriterSet. split; [reflexivity | apply grants_underwriter].
  - exists analystSet. split; [reflexivity | apply grants_analyst].
  - exists viewerSet. split; [reflexivity | apply grants_viewer].
Qed.

(** The underwriter may approve applications but not update reports. *)
Lemma getDefaultPermissions_table_witness :
  exists set, getDefaultPermissions "underwriter" = Own set
              /\ grants set "applications" "approve" = true
              /\ grants set "reports" "update" = false.
Proof.
  destruct (getDefaultPermissions_table "underwriter") as [set [Hset Hall]].
  - simpl. auto.
  - exists set. split; [exact Hset|]. split.
    + apply Hall. simpl. left. split; [reflexivity|]. simpl. auto.
    + destruct (grants set "reports" "update") eqn:E; [|reflexivity].
      apply Hall in E. simpl in E.
      destruct E as [[E _]|[_ E]]; discriminate.
Defined.

(** The admin set does not grant delete on settings. *)
Lemma admin_lacks_full_access :
  getDefaultPermissions "admin" = Own adminSet /\ ~ fullAccess adminSet.
Proof.
  split; [reflexivity|]. intros H.
  specialize (H "settings" "delete"). simpl in H.
  assert (E : grants adminSet "settings" "delete" = true) by (apply H; auto 10).
  discriminate.
Qed.

Lemma getDefaultPermissions_fallback (role : string) :
  ~ In role roles -> inherited role = false ->
  getDefaultPermissions role = Own viewerSet.
Proof.
  intros Hnot Hown. unfold getDefaultPermissions, get, permissionSets.
  cbn [assoc]. unfold roles in Hnot. simpl in Hnot.
  repeat match goal with
         | |- context [String.eqb ?k role] =>
             destruct (String.eqb_spec k role); [exfalso; apply Hnot; auto 10|]
         end.
  rewrite Hown. reflexivity.
Qed.

Lemma register_default_role (body : RegisterBody) :
  truthy (rRole body) = false ->
  forall u, snd (register false body) = Some u ->
            nRole u = "analyst" /\ nPermissions u = Own analystSet.
Proof.
  intros Hrole u Hu. unfold register in Hu.
  destruct (_ || _) in Hu; [discriminate|].
  injection Hu as <-. simpl.
  destruct (rRole body) as [[|c r]|]; try discriminate; split; reflexivity.
Qed.

(** Claim C10, at the role "constructor".  The route hands [User.create]
    the role "constructor", and the grant-set lookup does not fall back to
    the viewer set: the index [permissionSets[role]] finds the member
    inherited from [Object.prototype], which is truthy, so
    [|| permissionSets.viewer] is not taken. *)
Theorem register_inherited_role_skips_fallback :
  exists u, register false (Scenario.registration (Some "constructor"))
            = (Http.mkResponse 201 "User registered successfully", Some u)
            /\ nRole u = "constructor"
            /\ nPermissions u = Inherited "constructor"
            /\ nPermissions u <> Own viewerSet.
Proof.
  eexists. split; [reflexivity|]. simpl. repeat split. discriminate.
Qed.

End GrantFacts.

(** ** The application lifecycle *)

Section LifecycleFacts.

Import Js Http Auth Lifecycle Spec.

Variable isModelLoaded : bool.
Variable predictCreditScore :
  Scoring.ApplicantData -> Z -> Scoring.Thrown + Scoring.Prediction.

Local Abbreviation perform := (Lifecycle.perform isModelLoaded predictCreditScore).

Lemma status_eqb_eq (a b : Status) : status_eqb a b = true <-> a = b.
Proof. destruct a, b; simpl; split; congruence. Qed.

(** *** Middleware *)

Lemma tokenUser_bearer {B} (req : Request B) (u : User) :
  tokenUser req = Some u -> bearer req = Resolves u.
Proof.
  unfold tokenUser. destruct (bearer req); congruence.
Qed.

Lemma protect_passes {B} (req req' : Request B) :
  protect req = inr req' ->
  exists u, tokenUser req = Some u /\ authenticated u /\ req' = setUser req u.
Proof.
  unfold protect, authenticated, tokenUser. intros H.
  destruct (bearer req) as [| | |u]; try discriminate.
  destruct (isActive u) eqn:Ha; [|discriminate].
  destruct (isLocked u) eqn:Hl; [discriminate|].
  simpl in H. injection H as <-. eauto.
Qed.

Lemma protect_rejects {B} (req : Request B) (resp : Response) :
  protect req = inl resp -> code resp = 401%nat.
Proof.
  unfold protect. intros H.
  destruct (bearer req) as [| | |u]; try (injection H as <-; reflexivity).
  destruct (isActive u); simpl in H; [|injection H as <-; reflexivity].
  destruct (isLocked u); [injection H as <-; reflexivity|discriminate].
Qed.

Lemma checkPermission_guard {B} (res act : string) :
  guard_of (B := B) (fun u => hasPermission u res act) (checkPermission res act).
Proof.
  intros req u Hu. unfold checkPermission. rewrite Hu.
  destruct (hasPermission u res act); simpl; eauto.
Qed.

Lemma authorize_guard {B} (rs : list string) :
  guard_of (B := B) (fun u => existsb (String.eqb (role u)) rs) (authorize rs).
Proof.
  intros req u Hu. unfold authorize. rewrite Hu.
  destruct (existsb _ rs); simpl; eauto.
Qed.

(** The three outcomes of a guarded route. *)
Lemma route_cases {B} (check : User -> bool) (m : Middleware B)
      (handler : User -> Request B -> gmap string Application -> Response * gmap string Application)
      (req : Request B) (σ : gmap string Application) :
  guard_of check m ->
  (exists resp, route [protect; m] handler req σ = (resp, σ)
                /\ code resp = 401%nat
                /\ forall u, tokenUser req = Some u -> ~ authenticated u)
  \/ (exists u resp, tokenUser req = Some u /\ authenticated u /\ check u = false
                     /\ route [protect; m] handler req σ = (resp, σ)
                     /\ code resp = 403%nat)
  \/ (exists u, tokenUser req = Some u /\ authenticated u /\ check u = true
                /\ route [protect; m] handler req σ = handler u (setUser req u) σ).
Proof.
  intros Hguard. unfold route. cbn [through].
  destruct (protect req) as [resp|req'] eqn:Hp.
  - left. exists resp. split; [reflexivity|]. split; [eapply protect_rejects, Hp|].
    intros u Hu [Ha Hl]. unfold protect in Hp. unfold tokenUser in Hu.
    destruct (bearer req) as [| | |v]; try discriminate.
    injection Hu as ->. rewrite Ha, Hl in Hp. discriminate.
  - destruct (protect_passes _ _ Hp) as [u [Hu [Hauth ->]]].
    specialize (Hguard (setUser req u) u eq_refl).
    destruct (check u) eqn:Hc.
    + right. right. exists u. rewrite Hguard. auto.
    + right. left. destruct Hguard as [resp [-> Hcode]].
      exists u, resp. auto.
Qed.

Lemma perform_cases (op : Operation) (σ : gmap string Application) :
  (exists resp, perform op σ = (resp, σ)
                /\ code resp = 401%nat
                /\ forall u, actor op = Some u -> ~ authenticated u)
  \/ (exists u resp, actor op = Some u /\ authenticated u /\ permitted op u = false
                     /\ perform op σ = (resp, σ)
                     /\ code resp = 403%nat)
  \/ (exists u, actor op = Some u /\ authenticated u /\ permitted op u = true
                /\ perform op σ
                   = handle isModelLoaded predictCreditScore op u σ).
Proof.
  destruct op as [req|req|req|req|req|req]; cbn [perform actor permitted handle];
    first [ apply (route_cases _ _ _ req σ (checkPermission_guard _ _))
          | apply (route_cases _ _ _ req σ (authorize_guard _)) ].
Qed.

(** *** Handlers *)

Lemma objectAssign_status (fields : list UpdateField) :
  forall a : Application,
    status (objectAssign a fields) = status a
    \/ In (UStatus (status (objectAssign a fields))) fields.
Proof.
  unfold objectAssign.
  induction fields as [|f rest IH]; intros a; simpl; [left; reflexivity|].
  destruct (IH (assignField a f)) as [H|H]; [|right; right; exact H].
  rewrite H. destruct f; simpl; auto.
Qed.

Lemma handle_outcome (op : Operation) (u : User) (σ : gmap string Application) :
  outcome σ (target op) (changes op)
          (handle isModelLoaded predictCreditScore op u σ).
Proof.
  destruct op as [req|req|req|req|req|req]; cbn [handle target changes paramsId setUser].
  - unfold updateHandler. cbn [paramsId setUser body].
    destruct (σ !! paramsId req) as [a|] eqn:Ha; [|apply Rejected; reflexivity].
    destruct (status_eqb (status a) approved) eqn:E1; [apply Rejected; reflexivity|].
    destruct (status_eqb (status a) denied) eqn:E2; [apply Rejected; reflexivity|].
    cbn [orb]. eapply Accepted; [reflexivity | exact Ha |].
    split; [intros E; apply status_eqb_eq in E; congruence|].
    split; [intros E; apply status_eqb_eq in E; congruence|].
    apply objectAssign_status.
  - unfold submitHandler. cbn [paramsId setUser].
    destruct (σ !! paramsId req) as [a|] eqn:Ha; [|apply Rejected; reflexivity].
    destruct (status_eqb (status a) draft) eqn:E1; [|apply Rejected; reflexivity].
    cbn [negb]. eapply Accepted; [reflexivity | exact Ha |].
    apply status_eqb_eq in E1. split; [exact E1 | reflexivity].
  - unfold documentsHandler. cbn [paramsId setUser body].
    destruct (σ !! paramsId req) as [a|] eqn:Ha; [|apply Rejected; reflexivity].
    destruct (files (body req)) eqn:Hf; [apply Rejected; reflexivity|].
    eapply Accepted; [reflexivity | exact Ha | reflexivity].
  - unfold assignHandler. cbn [paramsId setUser].
    destruct (σ !! paramsId req) as [a|] eqn:Ha; [|apply Rejected; reflexivity].
    eapply Accepted; [reflexivity | exact Ha | reflexivity].
  - unfold notesHandler. cbn [paramsId setUser body].
    destruct (truthy (bodyNote (body req))); [|apply Rejected; reflexivity].
    cbn [negb].
    destruct (σ !! paramsId req) as [a|] eqn:Ha; [|apply Rejected; reflexivity].
    eapply Accepted; [reflexivity | exact Ha | reflexivity].
  - unfold analyzeHandler, runAnalysis. cbn [paramsId setUser body now].
    destruct (truthy (bodyApplicationId (body req))).
    + destruct (σ !! strOr (bodyApplicationId (body req)) "") as [a|] eqn:Ha;
        [|apply Rejected; reflexivity].
      destruct isModelLoaded; [|apply Rejected; reflexivity]. cbn [negb].
      destruct (predictCreditScore _ _); [apply Rejected; reflexivity|].
      eapply Accepted; [reflexivity | exact Ha | reflexivity].
    + destruct (applicantData (body req)); [|apply Rejected; reflexivity].
      destruct isModelLoaded; [|apply Rejected; reflexivity]. cbn [negb].
      destruct (predictCreditScore _ _); [apply Rejected; reflexivity|].
      apply Untouched. reflexivity.
Qed.

Lemma perform_outcome (op : Operation) (σ : gmap string Application) :
  outcome σ (target op) (changes op) (perform op σ).
Proof.
  destruct (perform_cases op σ)
    as [[resp [-> [Hc _]]] | [[u [resp [_ [_ [_ [-> Hc]]]]]] | [u [_ [_ [_ ->]]]]]].
  - apply Rejected. unfold ok. rewrite Hc. reflexivity.
  - apply Rejected. unfold ok. rewrite Hc. reflexivity.
  - apply handle_outcome.
Qed.

(** The status an operation leaves behind, against the status it found. *)
Lemma status_transition (op : Operation) (σ σ' : gmap string Application)
      (resp : Response) (a a' : Application) :
  perform op σ = (resp, σ') ->
  σ !! target op = Some a ->
  σ' !! target op = Some a' ->
  status a' = status a
  \/ (exists req, op = Submit req /\ status a = draft /\ status a' = submitted)
  \/ (exists req, op = Assign req /\ status a' = under_review)
  \/ (exists req, op = Update req
                  /\ status a <> approved /\ status a <> denied
                  /\ In (UStatus (status a')) (body req)).
Proof.
  intros Hrun Ha Ha'. pose proof (perform_outcome op σ) as Ho.
  rewrite Hrun in Ho.
  inversion Ho as [r Hr|r b b' Hr Hb Hch|r Hr]; subst.
  - left. congruence.
  - rewrite lookup_insert_eq in Ha'. injection Ha' as ->.
    rewrite Ha in Hb. injection Hb as <-.
    destruct op as [req|req|req|req|req|req]; cbn [changes] in Hch.
    + destruct Hch as [H1 [H2 [H3|H3]]]; [left; exact H3|].
      right. right. right. eauto.
    + right. left. exists req. destruct Hch. auto.
    + left. exact Hch.
    + right. right. left. eauto.
    + left. exact Hch.
    + left. exact Hch.
  - left. congruence.
Qed.

(** Claim C2.  Whenever an operation answers with an error the store is
    exactly as it was (no field of any application changed, no audit entry
    appended).  An authenticated actor lacking the permission or role the
    operation requires is answered 403, and an update of an approved or
    denied application, or a submit of a non-draft one, is answered 400, in
    both cases with the store unchanged. *)
Theorem rejected_attempt_changes_nothing
        (op : Operation) (σ σ' : gmap string Application) (resp : Response)
        (Hrun : perform op σ = (resp, σ')) :
  (ok resp = false -> σ' = σ)
  /\ (forall u, actor op = Some u -> authenticated u -> permitted op u = false ->
                code resp = 403%nat /\ σ' = σ)
  /\ (forall u a, actor op = Some u -> authenticated u -> permitted op u = true ->
                  σ !! target op = Some a -> illegal op (status a) = true ->
                  code resp = 400%nat /\ σ' = σ).
Proof.
  split; [|split].
  - intros Hrej. pose proof (perform_outcome op σ) as Ho. rewrite Hrun in Ho.
    inversion Ho; subst; congruence.
  - intros u Hu Hauth Hperm.
    destruct (perform_cases op σ)
      as [[r [_ [_ Hno]]] | [[v [r [Hv [_ [_ [Hr Hc]]]]]] | [v [Hv [_ [Hp _]]]]]].
    + exfalso. exact (Hno u Hu Hauth).
    + rewrite Hrun in Hr. injection Hr as -> ->. auto.
    + congruence.
  - intros u a Hu Hauth Hperm Ha Hill.
    destruct (perform_cases op σ)
      as [[r [_ [_ Hno]]] | [[v [r [Hv [_ [Hp _]]]]] | [v [Hv [_ [_ Hr]]]]]].
    + exfalso. exact (Hno u Hu Hauth).
    + congruence.
    + rewrite Hrun in Hr.
      destruct op as [req|req|req|req|req|req]; cbn [illegal] in Hill;
        try discriminate; cbn [handle target] in *.
      * unfold updateHandler in Hr. cbn [paramsId setUser] in Hr.
        rewrite Ha, Hill in Hr. injection Hr as -> ->. auto.
      * unfold submitHandler in Hr. cbn [paramsId setUser] in Hr.
        rewrite Ha, Hill in Hr. injection Hr as -> ->. auto.
Qed.

(** Claim C1, as amended.  The status an operation leaves on the
    application it addresses is the status it found, except that submit
    takes draft to submitted, assign sets under_review (from any status), and
    an update accepted on an application that is neither approved nor denied
    sets the status its body carries.  Hence on an approved, denied or
    withdrawn application every operation other than assign, and other than
    update on a withdrawn one, leaves the status as it is. *)
Theorem status_changes_of_operations
        (op : Operation) (σ σ' : gmap string Application) (resp : Response)
        (a a' : Application)
        (Hrun : perform op σ = (resp, σ'))
        (Ha : σ !! target op = Some a)
        (Ha' : σ' !! target op = Some a') :
  (status a' = status a
   \/ (exists req, op = Submit req /\ status a = draft /\ status a' = submitted)
   \/ (exists req, op = Assign req /\ status a' = under_review)
   \/ (exists req, op = Update req
                   /\ status a <> approved /\ status a <> denied
                   /\ In (UStatus (status a')) (body req)))
  /\ (terminal (status a) ->
      (forall req, op <> Assign req) ->
      (forall req, op = Update req -> status a <> withdrawn) ->
      status a' = status a).
Proof.
  pose proof (status_transition op σ σ' resp a a' Hrun Ha Ha') as Ht.
  split; [exact Ht|].
  intros Hterm Hassign Hupdate.
  destruct Ht as [H|[[req [-> [Hd _]]]|[[req [-> _]]|[req [-> [H1 [H2 _]]]]]]].
  - exact H.
  - destruct Hterm as [E|[E|E]]; congruence.
  - exfalso. exact (Hassign req eq_refl).
  - destruct Hterm as [E|[E|E]]; try congruence.
    exfalso. exact (Hupdate req eq_refl E).
Qed.

(** Claim C6, as amended.  For a draft application and an authenticated
    actor holding applications:update, submit succeeds: the status becomes
    submitted, submittedAt is set to the time of the request, exactly one
    audit entry, with action application_submitted, is appended, and nothing
    else changes.  Any operation that leaves the application submitted is
    a submit or an update whose body carries status submitted. *)
Theorem submit_of_draft_application
        (req : Request unit) (σ : gmap string Application)
        (a : Application) (u : User)
        (Hu : tokenUser req = Some u) (Hauth : authenticated u)
        (Hperm : hasPermission u "applications" "update" = true)
        (Ha : σ !! paramsId req = Some a) (Hdraft : status a = draft) :
  (exists a',
      perform (Submit req) σ
      = (mkResponse 200 "Application submitted successfully",
         <[paramsId req := a']> σ)
      /\ status a' = submitted
      /\ submittedAt a' = Some (now req)
      /\ auditTrail a'
         = (auditTrail a
              ++ [mkAuditEntry "application_submitted" (userId u) (now req)
                               (DSubmitted (now req)) (ip req)])%list
      /\ applicationId a' = applicationId a
      /\ applicant a' = applicant a /\ loan a' = loan a
      /\ financial a' = financial a /\ aiAssessment a' = aiAssessment a
      /\ manualReview a' = manualReview a /\ documents a' = documents a
      /\ completedAt a' = completedAt a)
  /\ (forall op resp σ' b,
        perform op σ = (resp, σ') ->
        target op = paramsId req ->
        σ' !! paramsId req = Some b ->
        status b = submitted ->
        (exists r, op = Submit r)
        \/ (exists r, op = Update r /\ In (UStatus submitted) (body r))).
Proof.
  split.
  - eexists. split.
    + cbn [perform]. unfold submitRoute, route. cbn [through].
      unfold protect. destruct Hauth as [Hact Hlock].
      rewrite (tokenUser_bearer req u Hu), Hact, Hlock. cbn [negb].
      unfold checkPermission. cbn [user setUser]. rewrite Hperm. cbn [negb].
      unfold submitHandler. cbn [paramsId setUser]. rewrite Ha, Hdraft.
      cbn [status_eqb negb]. reflexivity.
    + cbn. repeat split; reflexivity.
  - intros op resp σ' b Hrun Ht Hb Hs. rewrite <- Ht in Ha, Hb.
    destruct (status_transition op σ σ' resp a b Hrun Ha Hb)
      as [H|[[r [-> _]]|[[r [-> H]]|[r [-> [_ [_ H]]]]]]].
    + congruence.
    + left. eauto.
    + congruence.
    + right. exists r. rewrite Hs in H. auto.
Qed.

End LifecycleFacts.

(** ** The scenarios of the specification, run on the code *)

Section Scenarios.

Import Js Http Auth Lifecycle Spec.

Local Abbreviation run := (perform true Scenario.predict).

(** An admin assigns an approved application: it is back under review. *)
Lemma assign_reopens_approved_application :
  status <$> (Scenario.store approved !! "APP-1") = Some approved
  /\ status <$> (snd (run (Assign (Scenario.request Scenario.admin (Some "u-analyst")))
                         (Scenario.store approved)) !! "APP-1")
     = Some under_review.
Proof. split; vm_compute; reflexivity. Qed.

(** An update whose body carries [status: 'submitted'] takes a draft
    application to submitted; it is audited as an update and leaves
    [submittedAt] unset. *)
Lemma update_moves_draft_to_submitted :
  let op := Update (Scenario.request Scenario.analyst [UStatus submitted]) in
  let after := snd (run op (Scenario.store draft)) !! "APP-1" in
  permitted op Scenario.analyst = true
  /\ (forall r, op <> Submit r)
  /\ status <$> (Scenario.store draft !! "APP-1") = Some draft
  /\ status <$> after = Some submitted
  /\ submittedAt <$> after = Some None
  /\ map action <$> (auditTrail <$> after) = Some ["application_updated"].
Proof.
  cbv zeta. split; [reflexivity|]. split; [discriminate|].
  repeat split; vm_compute; reflexivity.
Qed.

(** An initialised demo engine raises on [undefined], and on an object
    whose credit score cannot be converted to a number. *)
Lemma loaded_engine_raises_on_undefined :
  let e := Scoring.DemoEngine.initializeModel Scoring.DemoEngine.constructor in
  Scoring.DemoEngine.isModelLoaded e = true
  /\ Scoring.DemoEngine.predictCreditScore (fun _ => 1%Q) (1 # 2) e
       Scoring.Nullish 0
     = inl Scoring.TypeError
  /\ Scoring.DemoEngine.predictCreditScore (fun _ => 1%Q) (1 # 2) e
       (Scoring.Object Scenario.scenarioD ["creditScore"]) 0
     = inl Scoring.TypeError.
Proof. cbv zeta. repeat split. Qed.

(** An engine that was never initialised raises 'AI model not loaded'
    before it looks at its argument. *)
Lemma predictCreditScore_raises_witness :
  Scoring.DemoEngine.predictCreditScore (fun _ => 1%Q) (1 # 2)
    Scoring.DemoEngine.constructor Scoring.Nullish 0
  = inl Scoring.notLoaded.
Proof.
  apply (predictCreditScore_raises (fun _ => 1%Q) (1 # 2)
           Scoring.DemoEngine.constructor Scoring.Nullish 0).
  reflexivity.
Defined.

(** Scenario E: an analyst updates an approved application. *)
Lemma rejected_attempt_changes_nothing_witness :
  let op := Update (Scenario.request Scenario.analyst [UStatus draft]) in
  let σ := Scenario.store approved in
  code (fst (run op σ)) = 400%nat /\ snd (run op σ) = σ.
Proof.
  intros op σ.
  assert (Hrun : run op σ = (fst (run op σ), snd (run op σ)))
    by (destruct (run op σ); reflexivity).
  destruct (rejected_attempt_changes_nothing true Scenario.predict
              op σ _ _ Hrun) as [_ [_ Hillegal]].
  apply (Hillegal Scenario.analyst (Scenario.application approved)).
  - reflexivity.
  - split; reflexivity.
  - reflexivity.
  - vm_compute. reflexivity.
  - reflexivity.
Defined.

(** A review note on an approved application leaves it approved. *)
Lemma status_changes_of_operations_witness :
  let op := Notes (Scenario.request Scenario.analyst
                     (mkNoteBody (Some "income verified") None)) in
  status <$> (snd (run op (Scenario.store approved)) !! "APP-1") = Some approved.
Proof.
  intros op. set (σ := Scenario.store approved).
  assert (Hrun : run op σ = (fst (run op σ), snd (run op σ)))
    by (destruct (run op σ); reflexivity).
  destruct (snd (run op σ) !! "APP-1") as [a'|] eqn:Ha';
    [|vm_compute in Ha'; discriminate].
  assert (Ha : σ !! target op = Some (Scenario.application approved))
    by (vm_compute; reflexivity).
  destruct (status_changes_of_operations true Scenario.predict
              op σ _ _ _ a' Hrun Ha Ha') as [_ Hkeep].
  simpl. f_equal. apply Hkeep.
  - left. reflexivity.
  - discriminate.
  - discriminate.
Defined.

(** Scenario B: an analyst submits a draft application. *)
Lemma submit_of_draft_application_witness :
  let req := Scenario.request Scenario.analyst tt in
  exists a',
    run (Submit req) (Scenario.store draft)
    = (mkResponse 200 "Application submitted successfully",
       <["APP-1" := a']> (Scenario.store draft))
    /\ status a' = submitted
    /\ submittedAt a' = Some 1700000000000%Z
    /\ map action (auditTrail a') = ["application_submitted"].
Proof.
  intros req.
  destruct (submit_of_draft_application true Scenario.predict req
              (Scenario.store draft) (Scenario.application draft)
              Scenario.analyst)
    as [[a' [Hrun [Hs [Ht [Haudit _]]]]] _].
  - reflexivity.
  - split; reflexivity.
  - reflexivity.
  - vm_compute. reflexivity.
  - reflexivity.
  - exists a'. split; [exact Hrun|]. split; [exact Hs|]. split; [exact Ht|].
    rewrite Haudit. reflexivity.
Defined.

(** Scenario D: high income, short employment and six recent inquiries. *)
Lemma evaluateFraudRisk_additive_witness :
  let r := Scoring.evaluateFraudRisk Scenario.scenarioD in
  Scoring.fraudScore r = 45%Z
  /\ contributions Scenario.scenarioD (rev fraudRules) = 45%Z
  /\ Scoring.fraudRiskLevel r = Scoring.FraudMedium
  /\ Scoring.recommendation r = Scoring.AUTOMATED_PROCESSING.
Proof.
  intros r.
  destruct (evaluateFraudRisk_additive Scenario.scenarioD)
    as [Hsum [Hperm [_ [_ [Hmed [_ [_ Hauto]]]]]]].
  fold r in Hsum, Hperm, Hmed, Hauto.
  assert (H45 : Scoring.fraudScore r = 45%Z) by (rewrite Hsum; reflexivity).
  split; [exact H45|]. split.
  - rewrite <- (Hperm (rev fraudRules) (Permutation_rev _)). exact H45.
  - split; [apply Hmed | apply Hauto]; rewrite H45; lia.
Defined.

End Scenarios.

(** * Further properties of the code *)

(** ** The limiter of sensitive operations *)

Section RateLimitFacts.

Import Http Auth RateLimit.

Context {B : Type}.
Variable maxAttempts windowMs : Z.

Local Abbreviation limiter := (sensitiveRateLimit (B := B) maxAttempts windowMs).
Local Abbreviation Attempts := (gmap string (list Z)).

Lemma prune_app (w : Z) (l1 l2 : list Z) :
  prune w (l1 ++ l2) = (prune w l1 ++ prune w l2)%list.
Proof. unfold prune. apply filter_app. Qed.

Lemma prune_prune (w1 w2 : Z) (l : list Z) :
  (w1 <= w2)%Z -> prune w2 (prune w1 l) = prune w2 l.
Proof.
  intros Hw. unfold prune. induction l as [|t l IH]; [reflexivity|].
  rewrite !filter_cons.
  destruct (decide (w1 < t)%Z) as [H1|H1].
  - rewrite filter_cons. destruct (decide (w2 < t)%Z); rewrite IH; reflexivity.
  - destruct (decide (w2 < t)%Z); [lia|]. exact IH.
Qed.

Lemma prune_length (w : Z) (l : list Z) : (length (prune w l) <= length l)%nat.
Proof. unfold prune. apply length_filter. Qed.

Local Abbreviation pruned := (RateLimit.pruned (B := B) windowMs).

Lemma pruned_current (req : Request B) (attempts : Attempts) :
  default [] (pruned req attempts !! keyOf req)
  = prune (now req - windowMs) (default [] (attempts !! keyOf req)).
Proof.
  unfold RateLimit.pruned. destruct (attempts !! keyOf req) as [times|] eqn:E.
  - rewrite lookup_insert_eq. reflexivity.
  - rewrite E. reflexivity.
Qed.

Lemma pruned_other (req : Request B) (attempts : Attempts) (k : string) :
  k <> keyOf req -> pruned req attempts !! k = attempts !! k.
Proof.
  intros Hk. unfold RateLimit.pruned. destruct (attempts !! keyOf req); [|reflexivity].
  rewrite lookup_insert_ne by congruence. reflexivity.
Qed.

Lemma pruned_same (req : Request B) (attempts : Attempts) :
  pruned req attempts !! keyOf req
  = prune (now req - windowMs) <$> (attempts !! keyOf req).
Proof.
  unfold RateLimit.pruned. destruct (attempts !! keyOf req) as [times|] eqn:E.
  - rewrite lookup_insert_eq. reflexivity.
  - rewrite E. reflexivity.
Qed.

(** The two outcomes of one request. *)
Lemma limiter_cases (req : Request B) (attempts : Attempts) :
  let current := prune (now req - windowMs) (default [] (attempts !! keyOf req)) in
  ((maxAttempts <= Z.of_nat (length current))%Z
   /\ exists lim, limiter req attempts = (inl lim, pruned req attempts)
                  /\ code (response lim) = 429%nat
                  /\ retryAfter lim
                     = match current with
                       | first :: _ =>
                           Some (Qceiling
                                   (inject_Z (first + windowMs - now req) / 1000))
                       | [] => None
                       end)
  \/ ((Z.of_nat (length current) < maxAttempts)%Z
      /\ limiter req attempts
         = (inr req, <[keyOf req := (current ++ [now req])%list]> (pruned req attempts))).
Proof.
  intros current. unfold sensitiveRateLimit.
  fold (RateLimit.pruned windowMs req attempts). rewrite pruned_current. fold current.
  destruct (Z.leb_spec maxAttempts (Z.of_nat (length current))).
  - left. split; [assumption|]. eexists. split; [reflexivity|]. split; reflexivity.
  - right. split; [assumption|reflexivity].
Qed.

Local Abbreviation serve := (RateLimit.serve (B := B) maxAttempts windowMs).

Lemma serve_snoc (reqs : list (Request B)) (req : Request B) (attempts : Attempts) :
  serve (reqs ++ [req]) attempts
  = match limiter req (snd (serve reqs attempts)) with
    | (inl _, attempts') => (fst (serve reqs attempts), attempts')
    | (inr req', attempts') =>
        ((fst (serve reqs attempts) ++ [req'])%list, attempts')
    end.
Proof. unfold RateLimit.serve. rewrite fold_left_app. reflexivity. Qed.

Lemma serve_bounded (reqs : list (Request B)) (attempts : Attempts) :
  (forall k l, attempts !! k = Some l -> (Z.of_nat (length l) <= maxAttempts)%Z) ->
  forall k l, snd (serve reqs attempts) !! k = Some l ->
              (Z.of_nat (length l) <= maxAttempts)%Z.
Proof.
  intros Hinit. induction reqs as [|req reqs IH] using rev_ind; [exact Hinit|].
  intros k l. rewrite serve_snoc.
  set (σ := snd (serve reqs attempts)) in *.
  destruct (limiter_cases req σ) as [[_ [lim [-> _]]]|[Hlt ->]]; cbn [snd].
  - destruct (decide (k = keyOf req)) as [->|Hk].
    + rewrite pruned_same. destruct (σ !! keyOf req) as [old|] eqn:E; [|discriminate].
      intros [= <-]. pose proof (prune_length (now req - windowMs) old).
      specialize (IH _ _ E). lia.
    + rewrite pruned_other by exact Hk. apply IH.
  - destruct (decide (k = keyOf req)) as [->|Hk].
    + rewrite lookup_insert_eq. intros [= <-]. rewrite length_app. simpl. lia.
    + rewrite lookup_insert_ne by congruence.
      rewrite pruned_other by exact Hk. apply IH.
Qed.

(** Property X1. At most [maxAttempts] attempts are ever on record for a key.
    *)
Theorem limiter_records_at_most_max (reqs : list (Request B))
        (k : string) (l : list Z)
        (Hk : snd (serve reqs ∅) !! k = Some l) :
  (Z.of_nat (length l) <= maxAttempts)%Z.
Proof.
  apply (serve_bounded reqs ∅) with (k := k); [|exact Hk].
  intros k' l' H. rewrite lookup_empty in H. discriminate.
Qed.

Lemma passedAt_snoc (k : string) (passed : list (Request B)) (req : Request B) :
  passedAt k (passed ++ [req])
  = (passedAt k passed ++ if decide (keyOf req = k) then [now req] else [])%list.
Proof.
  unfold passedAt. rewrite filter_app, map_app. f_equal.
  rewrite filter_cons, filter_nil. destruct (decide (keyOf req = k)); reflexivity.
Qed.

(** Pruning the map's list at a time no earlier than the requests served
    gives what pruning the whole history of admitted requests gives. *)
Lemma serve_history (reqs : list (Request B)) :
  forall (k : string) (b : Z),
    Forall (fun r => (now r <= b)%Z) reqs ->
    prune (b - windowMs) (default [] (snd (serve reqs ∅) !! k))
    = prune (b - windowMs) (passedAt k (fst (serve reqs ∅))).
Proof.
  induction reqs as [|req reqs IH] using rev_ind; intros k b Hb.
  - reflexivity.
  - apply Forall_app in Hb. destruct Hb as [Hreqs Hreq].
    apply Forall_inv in Hreq.
    rewrite serve_snoc.
    set (σ := snd (serve reqs ∅)) in *. set (passed := fst (serve reqs ∅)) in *.
    assert (Hcur : forall k',
               prune (b - windowMs)
                     (prune (now req - windowMs) (default [] (σ !! k')))
               = prune (b - windowMs) (passedAt k' passed)).
    { intros k'. rewrite prune_prune by lia. apply IH, Hreqs. }
    destruct (limiter_cases req σ) as [[_ [lim [-> _]]]|[Hlt ->]]; cbn [fst snd].
    + destruct (decide (k = keyOf req)) as [->|Hk].
      * rewrite pruned_current. apply Hcur.
      * rewrite pruned_other by exact Hk. apply IH, Hreqs.
    + rewrite passedAt_snoc.
      destruct (decide (k = keyOf req)) as [->|Hk].
      * rewrite lookup_insert_eq. cbn [default from_option id].
        rewrite decide_True by reflexivity.
        rewrite !prune_app. f_equal. apply Hcur.
      * rewrite lookup_insert_ne by congruence.
        rewrite pruned_other by exact Hk.
        rewrite decide_False by congruence. rewrite app_nil_r.
        apply IH, Hreqs.
Qed.

(** Property X2. With a clock that does not run backwards, a request is let
    through exactly when fewer than [maxAttempts] requests of the same key
    were let through during the window that ends at the request. *)
Theorem limiter_admits_iff (reqs : list (Request B)) (req : Request B)
        (Hclock : StronglySorted (fun r1 r2 => (now r1 <= now r2)%Z)
                                 (reqs ++ [req])) :
  (exists req', fst (limiter req (snd (serve reqs ∅))) = inr req')
  <-> (Z.of_nat (length (prune (now req - windowMs)
                               (passedAt (keyOf req) (fst (serve reqs ∅)))))
       < maxAttempts)%Z.
Proof.
  apply StronglySorted_app in Hclock. destruct Hclock as [Hle _].
  assert (Hb : Forall (fun r => (now r <= now req)%Z) reqs).
  { apply Forall_forall. intros r Hr. apply Hle; [exact Hr|]. constructor. }
  pose proof (serve_history reqs (keyOf req) (now req) Hb) as Hh.
  destruct (limiter_cases req (snd (serve reqs ∅)))
    as [[Hge [lim [-> _]]]|[Hlt ->]]; cbn [fst].
  - rewrite Hh in Hge. split; [intros [? ?]; discriminate | lia].
  - rewrite Hh in Hlt. split; [intros _; exact Hlt | eauto].
Qed.

Lemma Qceiling_positive (x : Z) :
  (0 < x)%Z -> (1 <= Qceiling (inject_Z x / 1000))%Z.
Proof.
  intros Hx.
  assert (Hq : (0 < inject_Z x / 1000)%Q).
  { apply Qlt_shift_div_l; [reflexivity|]. rewrite Qmult_0_l.
    change 0%Q with (inject_Z 0). rewrite <- Zlt_Qlt. exact Hx. }
  pose proof (Qle_ceiling (inject_Z x / 1000)) as Hc.
  assert (Hpos : (inject_Z 0 < inject_Z (Qceiling (inject_Z x / 1000)))%Q).
  { eapply Qlt_le_trans; [exact Hq | exact Hc]. }
  rewrite <- Zlt_Qlt in Hpos. lia.
Qed.

(** Property X3. A request that is turned away gets 429, records nothing (the
    key's list is the pruned old one, the other keys are untouched) and, for a
    positive [maxAttempts], is told to retry after at least one second; with
    no recorded time in the future, after no more than the window. *)
Theorem limiter_rejection (req : Request B) (attempts attempts' : Attempts)
        (lim : Limited)
        (Hrun : limiter req attempts = (inl lim, attempts')) :
  code (response lim) = 429%nat
  /\ attempts' !! keyOf req
     = prune (now req - windowMs) <$> (attempts !! keyOf req)
  /\ (forall k, k <> keyOf req -> attempts' !! k = attempts !! k)
  /\ ((0 < maxAttempts)%Z ->
      exists seconds,
        retryAfter lim = Some seconds
        /\ (1 <= seconds)%Z
        /\ (Forall (fun t => (t <= now req)%Z) (default [] (attempts !! keyOf req)) ->
            (seconds <= Qceiling (inject_Z windowMs / 1000))%Z)).
Proof.
  destruct (limiter_cases req attempts) as [[Hge [lim0 [Hr [Hc Hretry]]]]|[_ Hr]];
    rewrite Hr in Hrun; [|discriminate].
  injection Hrun as <- <-.
  split; [exact Hc|]. split; [apply pruned_same|].
  split; [intros k Hk; apply pruned_other, Hk|].
  intros Hmax. rewrite Hretry.
  destruct (prune (now req - windowMs) (default [] (attempts !! keyOf req)))
    as [|first rest] eqn:Hcur; [simpl in Hge; lia|].
  assert (Hin : first ∈ prune (now req - windowMs)
                              (default [] (attempts !! keyOf req)))
    by (rewrite Hcur; constructor).
  unfold prune in Hin. apply list_elem_of_filter in Hin. destruct Hin as [Hlate Hin].
  eexists. split; [reflexivity|]. split.
  - apply Qceiling_positive. lia.
  - intros Hpast. rewrite Forall_forall in Hpast. specialize (Hpast _ Hin).
    apply Qceiling_resp_le. apply Qmult_le_compat_r; [|discriminate].
    rewrite <- Zle_Qle. lia.
Qed.

End RateLimitFacts.

(** ** The pages of the application list *)

Section ListingFacts.

Import Listing.

Context {A : Type}.

(** The ceiling of a quotient of integers, characterised. *)
Lemma ceiling_quotient (n k : Z) :
  (0 < k)%Z ->
  let pages := Qceiling (inject_Z n / inject_Z k) in
  (n <= pages * k)%Z /\ ((pages - 1) * k < n)%Z.
Proof.
  intros Hk pages.
  assert (HkQ : (0 < inject_Z k)%Q)
    by (change 0%Q with (inject_Z 0); rewrite <- Zlt_Qlt; exact Hk).
  split.
  - pose proof (Qle_ceiling (inject_Z n / inject_Z k)) as Hc. fold pages in Hc.
    destruct (Z_lt_le_dec (pages * k) n) as [Hlt|Hle]; [|exact Hle].
    exfalso. apply (Qle_not_lt _ _ Hc).
    apply Qlt_shift_div_l; [exact HkQ|].
    rewrite <- inject_Z_mult, <- Zlt_Qlt. exact Hlt.
  - pose proof (Qceiling_lt (inject_Z n / inject_Z k)) as Hc. fold pages in Hc.
    destruct (Z_lt_le_dec ((pages - 1) * k) n) as [Hlt|Hle]; [exact Hlt|].
    exfalso. apply (Qlt_not_le _ _ Hc).
    apply Qle_shift_div_r; [exact HkQ|].
    rewrite <- inject_Z_mult, <- Zle_Qle. exact Hle.
Qed.

Lemma pageItems_eq (limit p : Z) (docs : list A) :
  (1 <= limit)%Z -> (1 <= p)%Z ->
  pageItems limit p docs
  = take (Z.to_nat limit) (drop (Z.to_nat (p - 1) * Z.to_nat limit) docs).
Proof.
  intros Hl Hp. unfold pageItems, listApplications, window, orElse. cbn [qPage qLimit fst].
  destruct p as [|p|p]; try lia. destruct limit as [|limit|limit]; try lia.
  destruct (Z.leb_spec 0 ((Z.pos p - 1) * Z.pos limit)); [|nia].
  cbn [andb Z.ltb Z.compare default from_option id].
  rewrite Z2Nat.inj_mul by lia. reflexivity.
Qed.

Lemma chunks_take (k : nat) (docs : list A) :
  forall n : nat,
    concat (map (fun i => take k (drop (i * k) docs)) (seq 0 n)) = take (n * k) docs.
Proof.
  induction n as [|n IH]; [reflexivity|].
  rewrite seq_S, map_app, concat_app, IH. cbn [map concat Nat.add].
  rewrite app_nil_r, take_take_drop. f_equal. lia.
Qed.

(** Property X4. The pages 1 to [totalPages] hold every matching document
    exactly once, in order. *)
Theorem pages_cover_the_listing (limit : Z) (docs : list A)
        (Hlimit : (1 <= limit)%Z) :
  let last := totalPages (snd (listApplications (mkQuery None (Some limit)) docs)) in
  concat (map (fun p => pageItems limit p docs) (seqZ 1 last)) = docs.
Proof.
  intros last.
  assert (Hlast : last = Qceiling (inject_Z (Z.of_nat (length docs)) / inject_Z limit)).
  { unfold last, listApplications, orElse. cbn [qLimit snd totalPages].
    destruct limit; try lia; reflexivity. }
  destruct (ceiling_quotient (Z.of_nat (length docs)) limit ltac:(lia)) as [Hup Hlow].
  rewrite <- Hlast in Hup, Hlow.
  assert (H0 : (0 <= last)%Z) by nia.
  unfold seqZ. rewrite <- list_fmap_compose.
  change (@fmap list _ _ _ ?f ?l) with (map f l).
  transitivity (take (Z.to_nat last * Z.to_nat limit) docs);
    [|apply take_ge; nia].
  rewrite <- (chunks_take (Z.to_nat limit) docs (Z.to_nat last)).
  f_equal. apply map_ext_in. intros i _. unfold compose.
  rewrite pageItems_eq by lia.
  replace (Z.to_nat (Z.of_nat i + 1 - 1)) with i by lia. reflexivity.
Qed.

(** Property X5. For a page and a limit of at least 1: the page holds the
    documents after the skipped ones, up to [limit] of them; [hasNext] says
    that documents remain after this page, which is to say that the next page
    is not empty; [hasPrev] that the page is not the first; a page past the
    last one is empty. *)
Theorem page_of_the_listing (q : Query) (docs : list A)
        (Hpage : (1 <= orElse (qPage q) 1)%Z)
        (Hlimit : (1 <= orElse (qLimit q) 20)%Z) :
  let page := orElse (qPage q) 1 in
  let limit := orElse (qLimit q) 20 in
  let result := listApplications q docs in
  fst result = Some (pageItems limit page docs)
  /\ length (pageItems limit page docs)
     = Nat.min (Z.to_nat limit) (length docs - Z.to_nat ((page - 1) * limit))
  /\ (hasNext (snd result) = true <-> (page * limit < Z.of_nat (length docs))%Z)
  /\ (hasNext (snd result) = true <-> pageItems limit (page + 1) docs <> [])
  /\ (hasPrev (snd result) = true <-> (1 < page)%Z)
  /\ ((totalPages (snd result) < page)%Z -> pageItems limit page docs = []).
Proof.
  intros page limit result. fold page in Hpage. fold limit in Hlimit.
  destruct (ceiling_quotient (Z.of_nat (length docs)) limit ltac:(lia)) as [Hup Hlow].
  assert (Hnext : (page <? Qceiling (inject_Z (Z.of_nat (length docs)) / inject_Z limit))%Z
                  = true
                  <-> (page * limit < Z.of_nat (length docs))%Z).
  { rewrite Z.ltb_lt. split; intros H; nia. }
  assert (Hitems : fst result = Some (pageItems limit page docs)).
  { unfold result, pageItems, listApplications. cbn [fst qPage qLimit].
    fold page. fold limit.
    replace (orElse (Some page) 1) with page
      by (unfold orElse; destruct page; try lia; reflexivity).
    replace (orElse (Some limit) 20) with limit
      by (unfold orElse; destruct limit; try lia; reflexivity).
    unfold window.
    destruct (Z.leb_spec 0 ((page - 1) * limit)); [|nia].
    destruct (Z.ltb_spec 0 limit); [|lia]. reflexivity. }
  split; [exact Hitems|]. split.
  { rewrite pageItems_eq by lia. rewrite length_take, length_drop.
    rewrite Z2Nat.inj_mul by lia. reflexivity. }
  split; [exact Hnext|]. split.
  { unfold result, listApplications. cbn [snd hasNext]. fold page. fold limit.
    rewrite Hnext. rewrite pageItems_eq by lia.
    replace (page + 1 - 1)%Z with page by lia.
    split.
    - intros Hlt Hnil. apply take_nil_inv in Hnil. destruct Hnil as [Hz|Hd]; [lia|].
      apply drop_nil_inv in Hd. nia.
    - intros Hne. destruct (Z_lt_le_dec (page * limit) (Z.of_nat (length docs)))
        as [Hlt|Hge]; [exact Hlt|].
      exfalso. apply Hne. rewrite drop_ge by nia. apply take_nil. }
  split.
  { unfold result, listApplications. cbn [snd hasPrev]. fold page. apply Z.ltb_lt. }
  { unfold result, listApplications. cbn [snd totalPages]. fold limit.
    intros Hpast. rewrite pageItems_eq by lia.
    rewrite drop_ge by nia. apply take_nil. }
Qed.

End ListingFacts.

(** ** Factors, recommendations and fraud verdicts *)

Section AssessmentFacts.

Import Js Scoring Effects.

Lemma produced_shape (d : ApplicantData) (p : Prediction) :
  produced d p ->
  predRiskLevel p = calculateRiskLevel (predCreditScore p)
  /\ recommendations p = generateRecommendations d (predCreditScore p)
  /\ factors p = analyzeFactors (preprocessFeatures d).
Proof.
  intros [[e [s0 [now H]]]|[exp [random [e [now H]]]]].
  - unfold Engine.predictCreditScore in H.
    destruct (negb (Engine.isModelLoaded e)); [discriminate|].
    injection H as <-. repeat split.
  - unfold DemoEngine.predictCreditScore in H.
    destruct (negb (DemoEngine.isModelLoaded e)); [discriminate|].
    injection H as <-. repeat split.
Qed.




Lemma gt_true (x c : Q) : gt (Fin x) c = true <-> (c < x)%Q.
Proof.
  unfold gt. rewrite negb_true_iff. split.
  - intros H. apply Qnot_le_lt. intros Hle. apply Qle_bool_iff in Hle. congruence.
  - intros H. destruct (Qle_bool x c) eqn:E; [|reflexivity].
    apply Qle_bool_iff in E. exfalso. exact (Qlt_not_le _ _ H E).
Qed.

Lemma propGt_orDefault (x : prop) (dflt c : Q) :
  (0 <= c)%Q -> (dflt <= c)%Q ->
  propGt x c = true <-> (c < orDefault x dflt)%Q.
Proof.
  intros H0 Hd. destruct x as [q|]; simpl.
  - destruct (Qeq_bool q 0) eqn:Ez.
    + apply Qeq_bool_iff in Ez. split.
      * rewrite negb_true_iff. intros H. exfalso.
        assert (Hle : (q <= c)%Q) by (rewrite Ez; exact H0).
        apply Qle_bool_iff in Hle. congruence.
      * intros H. exfalso. exact (Qlt_not_le _ _ H Hd).
    + apply (gt_true q c).
  - split; [discriminate|]. intros H. exfalso. exact (Qlt_not_le _ _ H Hd).
Qed.

(** The names of the factors, as a concatenation of the five tests. *)
Lemma analyzeFactors_names (features : list num) :
  map factor (analyzeFactors features)
  = ((if lt (feature features 0) (6 # 10) then ["Credit Score"] else [])
     ++ (if gt (feature features 1) (8 # 10) then ["Income"] else [])
     ++ (if gt (feature features 2) (4 # 10) then ["Debt-to-Income"] else [])
     ++ (if gt (feature features 6) (9 # 10) then ["Payment History"] else [])
     ++ (if gt (feature features 7) (7 # 10) then ["Credit Utilization"] else []))%list.
Proof.
  unfold analyzeFactors.
  destruct (lt (feature features 0) (6 # 10)), (gt (feature features 1) (8 # 10)),
    (gt (feature features 2) (4 # 10)), (gt (feature features 6) (9 # 10)),
    (gt (feature features 7) (7 # 10)); reflexivity.
Qed.

Lemma in_tests (b1 b2 b3 b4 b5 : bool) (n1 n2 n3 n4 n5 : string) :
  NoDup [n1; n2; n3; n4; n5] ->
  (In n1 ((if b1 then [n1] else []) ++ (if b2 then [n2] else [])
          ++ (if b3 then [n3] else []) ++ (if b4 then [n4] else [])
          ++ (if b5 then [n5] else []))%list <-> b1 = true)
  /\ (In n2 ((if b1 then [n1] else []) ++ (if b2 then [n2] else [])
          ++ (if b3 then [n3] else []) ++ (if b4 then [n4] else [])
          ++ (if b5 then [n5] else []))%list <-> b2 = true)
  /\ (In n3 ((if b1 then [n1] else []) ++ (if b2 then [n2] else [])
          ++ (if b3 then [n3] else []) ++ (if b4 then [n4] else [])
          ++ (if b5 then [n5] else []))%list <-> b3 = true)
  /\ (In n4 ((if b1 then [n1] else []) ++ (if b2 then [n2] else [])
          ++ (if b3 then [n3] else []) ++ (if b4 then [n4] else [])
          ++ (if b5 then [n5] else []))%list <-> b4 = true)
  /\ (In n5 ((if b1 then [n1] else []) ++ (if b2 then [n2] else [])
          ++ (if b3 then [n3] else []) ++ (if b4 then [n4] else [])
          ++ (if b5 then [n5] else []))%list <-> b5 = true).
Proof.
  intros Hnd.
  assert (Hne : n1 <> n2 /\ n1 <> n3 /\ n1 <> n4 /\ n1 <> n5 /\ n2 <> n3
                /\ n2 <> n4 /\ n2 <> n5 /\ n3 <> n4 /\ n3 <> n5 /\ n4 <> n5).
  { repeat match goal with
           | H : NoDup (_ :: _) |- _ => apply NoDup_cons in H; destruct H
           end.
    set_solver. }
  destruct b1, b2, b3, b4, b5; simpl; intuition congruence.
Qed.

Lemma factor_names_distinct :
  NoDup ["Credit Score"; "Income"; "Debt-to-Income"; "Payment History";
         "Credit Utilization"].
Proof.
  repeat (apply NoDup_cons; split; [|]); try apply NoDup_nil_2;
    rewrite list_elem_of_In; simpl; intuition discriminate.
Qed.

(** The five tests of [analyzeFactors] on the features of [d]. *)
Lemma flagged_iff (d : ApplicantData) (p : Prediction) :
  produced d p ->
  (In "Credit Score" (flagged p)
   <-> lt (Fin (orDefault (creditScore d) 600 / 800)) (6 # 10) = true)
  /\ (In "Income" (flagged p)
      <-> gt (Fin (orDefault (annualIncome d) 50000 / 200000)) (8 # 10) = true)
  /\ (In "Debt-to-Income" (flagged p)
      <-> gt (Fin (orDefault (debtToIncomeRatio d) (3 # 10))) (4 # 10) = true)
  /\ (In "Payment History" (flagged p)
      <-> gt (Fin (orDefault (paymentHistoryScore d) 80 / 100)) (9 # 10) = true)
  /\ (In "Credit Utilization" (flagged p)
      <-> gt (Fin (orDefault (creditUtilization d) (3 # 10))) (7 # 10) = true).
Proof.
  intros Hp. destruct (produced_shape d p Hp) as [_ [_ Hf]].
  unfold flagged. rewrite Hf, analyzeFactors_names.
  set (b1 := lt (feature (preprocessFeatures d) 0) (6 # 10)).
  set (b2 := gt (feature (preprocessFeatures d) 1) (8 # 10)).
  set (b3 := gt (feature (preprocessFeatures d) 2) (4 # 10)).
  set (b4 := gt (feature (preprocessFeatures d) 6) (9 # 10)).
  set (b5 := gt (feature (preprocessFeatures d) 7) (7 # 10)).
  exact (in_tests b1 b2 b3 b4 b5 _ _ _ _ _ factor_names_distinct).
Qed.


(** The actions of the recommendations, as the three tests. *)
Lemma recommended_iff (d : ApplicantData) (p : Prediction) :
  produced d p ->
  (In "REQUEST_COSIGNER" (recommended p) <-> lt (predCreditScore p) 650 = true)
  /\ (In "REDUCE_LOAN_AMOUNT" (recommended p)
      <-> propGt (debtToIncomeRatio d) (4 # 10) = true)
  /\ (In "APPROVE_STANDARD" (recommended p) <-> ge (predCreditScore p) 750 = true).
Proof.
  intros Hp. destruct (produced_shape d p Hp) as [_ [Hr _]].
  unfold recommended. rewrite Hr. unfold generateRecommendations, push.
  destruct (lt (predCreditScore p) 650), (propGt (debtToIncomeRatio d) (4 # 10)),
    (ge (predCreditScore p) 750); simpl; intuition discriminate.
Qed.

(** Property X7. The debt-to-income recommendation and the debt-to-income
    factor go together, although one reads the raw input and the other the
    feature. *)
Theorem reduce_loan_iff_debt_factor (d : ApplicantData) (p : Prediction)
        (Hp : produced d p) :
  In "REDUCE_LOAN_AMOUNT" (recommended p) <-> In "Debt-to-Income" (flagged p).
Proof.
  destruct (recommended_iff d p Hp) as [_ [Hr _]].
  destruct (flagged_iff d p Hp) as [_ [_ [Hf _]]].
  rewrite Hr, Hf, gt_true.
  apply propGt_orDefault; unfold Qle; simpl; lia.
Qed.

Lemma ge_monotone (s : num) (c1 c2 : Q) :
  (c1 <= c2)%Q -> ge s c2 = true -> ge s c1 = true.
Proof.
  destruct s as [x|]; simpl; [|discriminate].
  intros Hc H. apply Qle_bool_iff in H. apply Qle_bool_iff.
  eapply Qle_trans; eassumption.
Qed.

Lemma lt_ge (x c : Q) : lt (Fin x) c = negb (ge (Fin x) c).
Proof. reflexivity. Qed.

(** Property X8. Risk level and recommendations agree: standard approval is
    recommended exactly at LOW risk, a co-signer only at HIGH or VERY_HIGH
    risk (and always there when the score is a number), never both. *)
Theorem risk_level_and_recommendations (d : ApplicantData) (p : Prediction)
        (Hp : produced d p) :
  (predRiskLevel p = LOW <-> In "APPROVE_STANDARD" (recommended p))
  /\ (In "REQUEST_COSIGNER" (recommended p) ->
      predRiskLevel p = HIGH \/ predRiskLevel p = VERY_HIGH)
  /\ (isFin (predCreditScore p) = true ->
      predRiskLevel p = HIGH \/ predRiskLevel p = VERY_HIGH ->
      In "REQUEST_COSIGNER" (recommended p))
  /\ ~ (In "APPROVE_STANDARD" (recommended p)
        /\ In "REQUEST_COSIGNER" (recommended p)).
Proof.
  destruct (recommended_iff d p Hp) as [Hc [_ Ha]].
  destruct (produced_shape d p Hp) as [Hl _].
  rewrite Hc, Ha, Hl. clear Hc Ha Hl.
  unfold calculateRiskLevel.
  pose proof (ge_monotone (predCreditScore p) 650 750 ltac:(discriminate)) as H1.
  pose proof (ge_monotone (predCreditScore p) 550 650 ltac:(discriminate)) as H2.
  destruct (predCreditScore p) as [x|].
  - rewrite lt_ge.
    destruct (ge (Fin x) 750), (ge (Fin x) 650), (ge (Fin x) 550); simpl;
      try (specialize (H1 eq_refl)); try (specialize (H2 eq_refl));
      repeat split; intros; try discriminate; try tauto; intuition discriminate.
  - simpl. repeat split; intros; try discriminate; try tauto; intuition discriminate.
Qed.

(** Property X9. The fraud verdict in terms of the rules: the score lies
    between 0 and 75; the level is HIGH, and the recommendation MANUAL_REVIEW,
    exactly when the income rule fired together with at least two of the other
    three; the income reason then heads the risk factors. *)
Theorem fraud_high_needs_income_rule (d : ApplicantData) :
  let r := evaluateFraudRisk d in
  let income := propGt (annualIncome d) 200000 && propLt (employmentLength d) 1 in
  let address := propLt (timeAtAddress d) 6 in
  let young := propLt (age d) 21 && propGt (creditScore d) 750 in
  let inquiries := propGt (recentInquiries d) 5 in
  (0 <= fraudScore r <= 75)%Z
  /\ (fraudRiskLevel r = FraudHigh
      <-> income && ((address && young) || (address && inquiries)
                     || (young && inquiries)) = true)
  /\ (recommendation r = MANUAL_REVIEW <-> fraudRiskLevel r = FraudHigh)
  /\ (fraudRiskLevel r = FraudHigh ->
      head (riskFactors r) = Some "High income with short employment history").
Proof.
  intros r income address young inquiries.
  unfold r, evaluateFraudRisk. fold income address young inquiries.
  destruct income, address, young, inquiries; vm_compute;
    repeat split; intros; try discriminate; try reflexivity; try tauto;
    try congruence.
Qed.

End AssessmentFacts.

(** ** Assessments in the analysis routes *)

Section RouteAssessmentFacts.

Import Js Scoring Effects Lifecycle AiRoutes.

(** Property X10. The next steps of an assessment made of an engine's
    prediction for [d] and the fraud verdict on [d]: one step for the risk
    level, first, and the fraud investigation after it exactly when manual
    review is recommended; automatic approval is proposed exactly when
    standard approval is recommended, whether or not fraud is suspected. *)
Theorem next_steps_follow_assessment (d : ApplicantData) (x : FullAssessment)
        (Hp : produced d (prediction x))
        (Hf : fraudAssessment x = evaluateFraudRisk d) :
  (proposed x = [hd "" (proposed x)]
   \/ proposed x = [hd "" (proposed x); "fraud_investigation"])
  /\ In (hd "" (proposed x))
        ["auto_approve"; "manual_review"; "enhanced_review"; "decline"]
  /\ (In "auto_approve" (proposed x)
      <-> In "APPROVE_STANDARD" (recommended (prediction x)))
  /\ (In "decline" (proposed x) <-> predRiskLevel (prediction x) = VERY_HIGH)
  /\ (In "fraud_investigation" (proposed x)
      <-> recommendation (evaluateFraudRisk d) = MANUAL_REVIEW).
Proof.
  destruct (recommended_iff d _ Hp) as [_ [_ Ha]].
  destruct (produced_shape d _ Hp) as [Hl _].
  rewrite Ha. clear Ha.
  assert (Hlow : predRiskLevel (prediction x) = LOW
                 <-> ge (predCreditScore (prediction x)) 750 = true).
  { rewrite Hl. unfold calculateRiskLevel.
    pose proof (ge_monotone (predCreditScore (prediction x)) 650 750
                  ltac:(discriminate)) as H1.
    destruct (ge (predCreditScore (prediction x)) 750);
      [tauto|].
    destruct (ge (predCreditScore (prediction x)) 650),
      (ge (predCreditScore (prediction x)) 550); split; discriminate. }
  rewrite <- Hlow. clear Hlow Hl.
  assert (Hfraud : fraudRiskLevel (fraudAssessment x) = FraudHigh
                   <-> recommendation (evaluateFraudRisk d) = MANUAL_REVIEW).
  { rewrite Hf. unfold evaluateFraudRisk. cbn [fraudRiskLevel recommendation].
    destruct (50 <? _)%Z; [tauto|].
    destruct (25 <? _)%Z; split; discriminate. }
  rewrite <- Hfraud. clear Hfraud Hf.
  unfold proposed, generateNextSteps, push.
  destruct (predRiskLevel (prediction x)),
    (fraudRiskLevel (fraudAssessment x)); simpl;
    repeat split; intros; try discriminate; try tauto; intuition discriminate.
Qed.

(** Property X11. In the batch route the fraud evaluator never sees an address
    time or an age, so at most the income and the inquiries rule fire: the
    score is at most 45, the level is never HIGH and manual review is never
    recommended. *)
Theorem batch_never_flags_fraud (application : Application) :
  let r := evaluateFraudRisk (batchDataToAnalyze application) in
  (fraudScore r <= 45)%Z
  /\ fraudRiskLevel r <> FraudHigh
  /\ recommendation r = AUTOMATED_PROCESSING
  /\ (forall reason, In reason (riskFactors r) ->
                     reason = "High income with short employment history"
                     \/ reason = "Multiple recent credit inquiries").
Proof.
  intros r. unfold r, evaluateFraudRisk, batchDataToAnalyze.
  cbn [annualIncome employmentLength timeAtAddress age creditScore recentInquiries].
  destruct (propGt (employmentAnnualIncome (applicant application)) 200000
            && propLt (Some (orDefault (employmentEmploymentLength
                                          (applicant application)) 0)) 1),
    (propGt (Some (orDefault (finRecentInquiries (financial application)) 1)) 5);
    vm_compute;
    (split; [discriminate|]); (split; [discriminate|]);
    (split; [reflexivity|]); intros reason Hin;
    repeat (destruct Hin as [<-|Hin]; [auto|]); destruct Hin.
Qed.

(** Property X12. For a stored application without an employment length,
    [/analyze] hands the engine 0 years: the fraud rule on short employment
    then depends on the income alone, while the feature extractor replaces the
    0 by its own default of 2 years. *)
Theorem missing_employment_length_reads_two_ways
        (application : Application) (now : Z)
        (Hmissing : falsy (employmentEmploymentLength (applicant application))
                    = true) :
  let d := dataToAnalyze application now in
  feature (preprocessFeatures d) 3 = Fin (2 / 20)
  /\ (In "High income with short employment history"
         (riskFactors (evaluateFraudRisk d))
      <-> propGt (employmentAnnualIncome (applicant application)) 200000 = true).
Proof.
  intros d.
  assert (Hd : employmentLength d = Some 0%Q).
  { unfold d, dataToAnalyze. cbn [employmentLength]. f_equal.
    destruct (employmentEmploymentLength (applicant application)) as [q|];
      simpl in *; [rewrite Hmissing|]; reflexivity. }
  split.
  - change (feature (preprocessFeatures d) 3)
      with (Fin (orDefault (employmentLength d) 2 / 20)).
    rewrite Hd. reflexivity.
  - unfold evaluateFraudRisk. rewrite Hd.
    change (annualIncome d) with (employmentAnnualIncome (applicant application)).
    cbn [propLt Qle_bool Qnum Qden Z.mul Z.leb Z.compare negb].
    rewrite andb_true_r.
    destruct (propGt (employmentAnnualIncome (applicant application)) 200000),
      (propLt (timeAtAddress d) 6), (propLt (age d) 21 && propGt (creditScore d) 750),
      (propGt (recentInquiries d) 5); vm_compute;
      split; intros; try discriminate; try reflexivity; try tauto;
      intuition discriminate.
Qed.

End RouteAssessmentFacts.

(** ** The engine's loaded flag *)

Section EngineStateFacts.

Import EngineState.

Lemma demo_model_stays_null (calls : list Call) (e : t) :
  model e = None -> model (fold_left Demo.call calls e) = None.
Proof.
  revert e. induction calls as [|c calls IH]; intros e He; [exact He|].
  simpl. apply IH. destruct c; simpl; [exact He | exact He |].
  unfold Demo.dispose. rewrite He. exact He.
Qed.

Lemma demo_loaded_iff (calls : list Call) (e : t) :
  model e = None ->
  isModelLoaded (fold_left Demo.call calls e) = true
  <-> isModelLoaded e = true \/ exists o, In (InitializeModel o) calls.
Proof.
  revert e. induction calls as [|c calls IH]; intros e He; simpl.
  - split; [auto|]. intros [H|[o []]]. exact H.
  - rewrite IH.
    + destruct c as [o| |]; simpl.
      * split; [intros _; right; eauto|auto].
      * split; [intros [H|[o H]]; eauto|].
        intros [H|[o [H|H]]]; [auto|discriminate|eauto].
      * unfold Demo.dispose. rewrite He.
        split; [intros [H|[o H]]; eauto|].
        intros [H|[o [H|H]]]; [auto|discriminate|eauto].
    + destruct c; simpl; [exact He | exact He |].
      unfold Demo.dispose. rewrite He. exact He.
Qed.

Section Predict.

Variable exp : Q -> Q.
Variable random : Q.

(** Property X13. In the demo class nothing ever assigns [model], so [dispose]
    changes nothing: whatever methods are called and in whatever order, the
    engine is loaded exactly when [initializeModel] has been called, a further
    [dispose] leaves it as it is, and [predictCreditScore] then answers. *)
Theorem demo_dispose_never_unloads (calls : list Call)
        (d : Scoring.ApplicantData) (now : Z) :
  let e := fold_left Demo.call calls constructor in
  model e = None
  /\ Demo.dispose e = e
  /\ (isModelLoaded e = true <-> exists o, In (InitializeModel o) calls)
  /\ ((exists o, In (InitializeModel o) calls) ->
      exists p, Scoring.DemoEngine.predictCreditScore
                  exp random (Demo.engine (Demo.dispose e))
                  (Scoring.Object d []) now = inr p).
Proof.
  intros e.
  assert (Hm : model e = None) by (apply demo_model_stays_null; reflexivity).
  assert (Hd : Demo.dispose e = e) by (unfold Demo.dispose; rewrite Hm; reflexivity).
  assert (Hl : isModelLoaded e = true <-> exists o, In (InitializeModel o) calls).
  { unfold e. rewrite demo_loaded_iff by reflexivity. simpl.
    split; [intros [H|H]; [discriminate|exact H] | auto]. }
  split; [exact Hm|]. split; [exact Hd|]. split; [exact Hl|].
  intros Hinit. rewrite Hd. apply Hl in Hinit.
  unfold Scoring.DemoEngine.predictCreditScore, Demo.engine.
  cbn [Scoring.DemoEngine.isModelLoaded]. rewrite Hinit. eexists. reflexivity.
Qed.

End Predict.

Lemma tensorflow_loaded_has_model (calls : list Call) (e : t) :
  (isModelLoaded e = true -> model e <> None) ->
  isModelLoaded (fold_left TensorFlow.call calls e) = true ->
  model (fold_left TensorFlow.call calls e) <> None.
Proof.
  revert e. induction calls as [|c calls IH]; intros e He; [exact He|].
  simpl. apply IH.
  destruct c as [[| |]| |]; simpl; try exact He; try discriminate.
  unfold TensorFlow.dispose. destruct (model e) eqn:Hm; simpl; [discriminate|].
  intros H. rewrite Hm. exact (He H).
Qed.

(** Property X14. In the TensorFlow class a loaded engine always holds a
    model, so [dispose] does unload it: after [dispose] the engine is not
    loaded and [predictCreditScore] raises, whatever was called before. *)
Theorem tensorflow_dispose_unloads (calls : list Call)
        (d : Scoring.ApplicantData) (score0 : Q) (now : Z) :
  let e := TensorFlow.dispose (fold_left TensorFlow.call calls constructor) in
  isModelLoaded e = false
  /\ Scoring.Engine.predictCreditScore (Scoring.Engine.mk (isModelLoaded e))
                                       d score0 now
     = inl Scoring.notLoaded.
Proof.
  intros e.
  assert (He : isModelLoaded e = false).
  { unfold e, TensorFlow.dispose.
    pose proof (tensorflow_loaded_has_model calls constructor
                  ltac:(discriminate)) as Hinv.
    destruct (model (fold_left TensorFlow.call calls constructor)) eqn:Hm;
      [reflexivity|].
    destruct (isModelLoaded (fold_left TensorFlow.call calls constructor));
      [|reflexivity].
    exfalso. apply Hinv; reflexivity. }
  split; [exact He|].
  unfold Scoring.Engine.predictCreditScore.
  cbn [Scoring.Engine.isModelLoaded]. rewrite He. reflexivity.
Qed.

End EngineStateFacts.

(** ** Dashboard alerts *)

Section DashboardFacts.

Import Lifecycle Dashboard.

Lemma countDocuments_positive (query : Application -> bool)
      (σ : gmap string Application) :
  (0 < countDocuments query σ)%nat
  <-> exists id a, σ !! id = Some a /\ query a = true.
Proof.
  unfold countDocuments. split.
  - intros Hpos.
    destruct (map_size_ne_0_lookup_1
                (filter (fun entry => query (snd entry) = true) σ) ltac:(lia))
      as [id [a Hl]].
    apply map_lookup_filter_Some in Hl. destruct Hl as [Hl Hq]. eauto.
  - intros [id [a [Hl Hq]]].
    assert (Hf : filter (fun entry => query (snd entry) = true) σ !! id = Some a)
      by (apply map_lookup_filter_Some; auto).
    pose proof (map_size_ne_0_lookup_2 _ _ (ex_intro _ a Hf)). lia.
Qed.

(** Property X15. The alerts route: there are at most four alerts; [hasUrgent]
    holds exactly when some submitted application is rated VERY_HIGH or some
    submitted or reviewed application carries a HIGH fraud verdict; overdue
    reviews never make the alerts urgent, and unassigned applications are
    reported only from the sixth on. *)
Theorem alerts_of_the_store (now : Z) (σ : gmap string Application) :
  let data := alertsHandler now σ in
  totalAlerts data = length (alerts data)
  /\ (totalAlerts data <= 4)%nat
  /\ (hasUrgent data = true
      <-> exists id a, σ !! id = Some a
                       /\ (veryHighRisk a = true \/ fraudFlagged a = true))
  /\ (In "Overdue Applications" (map title (alerts data))
      <-> exists id a, σ !! id = Some a /\ overdue now a = true)
  /\ (In "Unassigned Applications" (map title (alerts data))
      <-> (6 <= countDocuments unassigned σ)%nat).
Proof.
  intros data.
  pose proof (countDocuments_positive veryHighRisk σ) as Hh.
  pose proof (countDocuments_positive fraudFlagged σ) as Hf.
  pose proof (countDocuments_positive (overdue now) σ) as Ho.
  assert (Hu : (exists id a, σ !! id = Some a
                             /\ (veryHighRisk a = true \/ fraudFlagged a = true))
               <-> (0 < countDocuments veryHighRisk σ)%nat
                   \/ (0 < countDocuments fraudFlagged σ)%nat).
  { rewrite Hh, Hf. split.
    - intros [id [a [Hl [H|H]]]]; eauto.
    - intros [[id [a [Hl H]]]|[id [a [Hl H]]]]; eauto. }
  rewrite Hu, <- Ho. clear Hh Hf Ho Hu.
  unfold data, alertsHandler, Scoring.push.
  destruct (Nat.ltb_spec 0 (countDocuments (overdue now) σ)),
    (Nat.ltb_spec 0 (countDocuments veryHighRisk σ)),
    (Nat.ltb_spec 0 (countDocuments fraudFlagged σ)),
    (Nat.ltb_spec 5 (countDocuments unassigned σ));
    cbn [app alerts totalAlerts hasUrgent length map title existsb alertPriority
         String.eqb Ascii.eqb Bool.eqb andb orb In];
    repeat split; intros; try lia; try discriminate; try tauto;
    try (intuition (discriminate || lia)).
Qed.

End DashboardFacts.

(** ** The effect of the operations *)

Section OperationFacts.

Import Js Http Auth Lifecycle Spec Effects.

Variable isModelLoaded : bool.
Variable predictCreditScore :
  Scoring.ApplicantData -> Z -> Scoring.Thrown + Scoring.Prediction.

Local Abbreviation perform := (Lifecycle.perform isModelLoaded predictCreditScore).
Local Abbreviation handle := (Lifecycle.handle isModelLoaded predictCreditScore).

(** An accepted operation went through its middleware to its handler. *)
Lemma accepted_handled (op : Operation) (σ σ' : gmap string Application)
      (resp : Response) :
  perform op σ = (resp, σ') -> ok resp = true ->
  exists u, actor op = Some u /\ authenticated u /\ permitted op u = true
            /\ handle op u σ = (resp, σ').
Proof.
  intros Hrun Hok.
  destruct (perform_cases isModelLoaded predictCreditScore op σ)
    as [[r [Hr [Hc _]]] | [[u [r [_ [_ [_ [Hr Hc]]]]]] | [u [Hu [Ha [Hp Hr]]]]]];
    rewrite Hrun in Hr.
  - injection Hr as -> ->. unfold ok in Hok. rewrite Hc in Hok. discriminate.
  - injection Hr as -> ->. unfold ok in Hok. rewrite Hc in Hok. discriminate.
  - exists u. auto.
Qed.

(** What each handler stores when it accepts. *)
Lemma update_accepted (u : User) (req : Request (list UpdateField))
      (σ σ' : gmap string Application) (resp : Response) :
  updateHandler u req σ = (resp, σ') -> ok resp = true ->
  exists a, σ !! paramsId req = Some a
            /\ status a <> approved /\ status a <> denied
            /\ σ' = <[paramsId req :=
                       addAuditEntry (objectAssign a (body req)) "application_updated" u
                         (DUpdated (map fieldKey (body req))
                                   (status (objectAssign a (body req)))) req]> σ.
Proof.
  unfold updateHandler. intros H Hok.
  destruct (σ !! paramsId req) as [a|]; [|injection H as <- <-; discriminate].
  destruct (status_eqb (status a) approved) eqn:E1;
    [injection H as <- <-; discriminate|].
  destruct (status_eqb (status a) denied) eqn:E2;
    [injection H as <- <-; discriminate|].
  cbn [orb] in H. injection H as <- <-. exists a.
  split; [reflexivity|].
  split; [intros E; apply status_eqb_eq in E; congruence|].
  split; [intros E; apply status_eqb_eq in E; congruence|]. reflexivity.
Qed.

Lemma submit_accepted (u : User) (req : Request unit)
      (σ σ' : gmap string Application) (resp : Response) :
  submitHandler u req σ = (resp, σ') -> ok resp = true ->
  exists a, σ !! paramsId req = Some a /\ status a = draft
            /\ σ' = <[paramsId req :=
                       addAuditEntry
                         (setSubmittedAt (setStatus a submitted) (Some (now req)))
                         "application_submitted" u (DSubmitted (now req)) req]> σ.
Proof.
  unfold submitHandler. intros H Hok.
  destruct (σ !! paramsId req) as [a|]; [|injection H as <- <-; discriminate].
  destruct (status_eqb (status a) draft) eqn:E1;
    [|injection H as <- <-; discriminate].
  cbn [negb] in H. injection H as <- <-. exists a.
  apply status_eqb_eq in E1. auto.
Qed.

Lemma documents_accepted (u : User) (req : Request DocumentsBody)
      (σ σ' : gmap string Application) (resp : Response) :
  documentsHandler u req σ = (resp, σ') -> ok resp = true ->
  exists a, σ !! paramsId req = Some a /\ files (body req) <> []
            /\ σ' = <[paramsId req :=
                       addAuditEntry
                         (setDocuments a
                            (documents a ++ uploaded (body req) (now req))%list)
                         "documents_uploaded" u
                         (DDocuments (length (uploaded (body req) (now req)))
                                     (map docType (uploaded (body req) (now req))))
                         req]> σ.
Proof.
  unfold documentsHandler. intros H Hok.
  destruct (σ !! paramsId req) as [a|]; [|injection H as <- <-; discriminate].
  destruct (files (body req)) eqn:Hf; [injection H as <- <-; discriminate|].
  injection H as <- <-. exists a. split; [reflexivity|]. split; [discriminate|].
  reflexivity.
Qed.

Lemma assign_accepted (u : User) (req : Request (option string))
      (σ σ' : gmap string Application) (resp : Response) :
  assignHandler u req σ = (resp, σ') -> ok resp = true ->
  exists a, σ !! paramsId req = Some a
            /\ σ' = <[paramsId req :=
                       addAuditEntry
                         (setStatus
                            (setManualReview a
                               (mkManualReview (body req) (Some (now req))
                                               (reviewNotes (manualReview a))))
                            under_review)
                         "application_assigned" u
                         (DAssigned (body req) (now req)) req]> σ.
Proof.
  unfold assignHandler. intros H Hok.
  destruct (σ !! paramsId req) as [a|]; [|injection H as <- <-; discriminate].
  injection H as <- <-. exists a. split; reflexivity.
Qed.

Lemma notes_accepted (u : User) (req : Request NoteBody)
      (σ σ' : gmap string Application) (resp : Response) :
  notesHandler u req σ = (resp, σ') -> ok resp = true ->
  exists a text, σ !! paramsId req = Some a
            /\ bodyNote (body req) = Some text /\ text <> ""
            /\ σ' = <[paramsId req :=
                       addAuditEntry
                         (setManualReview a
                            (mkManualReview
                               (assignedTo (manualReview a))
                               (assignedAt (manualReview a))
                               (reviewNotes (manualReview a)
                                ++ [mkReviewNote text
                                      (strOr (bodyCategory (body req)) "general")
                                      (userId u) (now req)])%list))
                         "review_note_added" u
                         (DNote (bodyCategory (body req)) (String.length text))
                         req]> σ.
Proof.
  unfold notesHandler. intros H Hok.
  destruct (bodyNote (body req)) as [text|] eqn:Hn;
    [|injection H as <- <-; discriminate].
  destruct text as [|c text]; [injection H as <- <-; discriminate|].
  cbn [truthy negb strOr] in H.
  destruct (σ !! paramsId req) as [a|]; [|injection H as <- <-; discriminate].
  injection H as <- <-. exists a, (String c text).
  split; [reflexivity|]. split; [reflexivity|]. split; [discriminate|]. reflexivity.
Qed.

Lemma analyze_accepted (u : User) (req : Request AnalyzeBody)
      (σ σ' : gmap string Application) (resp : Response) :
  analyzeHandler isModelLoaded predictCreditScore u req σ = (resp, σ') ->
  ok resp = true ->
  isModelLoaded = true
  /\ (truthy (bodyApplicationId (body req)) = false -> σ' = σ)
  /\ (truthy (bodyApplicationId (body req)) = true ->
      exists a p,
        σ !! strOr (bodyApplicationId (body req)) "" = Some a
        /\ predictCreditScore (dataToAnalyze a (now req)) (now req) = inr p
        /\ σ' = <[strOr (bodyApplicationId (body req)) "" :=
                   addAuditEntry
                     (setAiAssessment a
                        (Some (mkFullAssessment p
                                 (Scoring.evaluateFraudRisk
                                    (dataToAnalyze a (now req)))
                                 (bodyApplicationId (body req)) (userId u)
                                 (now req))))
                     "ai_analysis_completed" u
                     (DAnalysis (Scoring.predCreditScore p)
                                (Scoring.predRiskLevel p)
                                (Scoring.fraudRiskLevel
                                   (Scoring.evaluateFraudRisk
                                      (dataToAnalyze a (now req)))))
                     req]> σ).
Proof.
  unfold analyzeHandler, runAnalysis. intros H Hok.
  destruct (truthy (bodyApplicationId (body req))) eqn:Ht.
  - destruct (σ !! strOr (bodyApplicationId (body req)) "") as [a|];
      [|injection H as <- <-; discriminate].
    destruct isModelLoaded; [|injection H as <- <-; discriminate].
    cbn [negb] in H.
    destruct (predictCreditScore (dataToAnalyze a (now req)) (now req))
      as [msg|p] eqn:Hp; [injection H as <- <-; discriminate|].
    injection H as <- <-. split; [reflexivity|]. split; [discriminate|].
    intros _. exists a, p. auto.
  - destruct (applicantData (body req)) as [data|];
      [|injection H as <- <-; discriminate].
    destruct isModelLoaded; [|injection H as <- <-; discriminate].
    cbn [negb] in H.
    destruct (predictCreditScore data (now req));
      [injection H as <- <-; discriminate|].
    injection H as <- <-. split; [reflexivity|]. split; [reflexivity|].
    discriminate.
Qed.

(** An actor that passes the middleware reaches the handler. *)
Lemma authorised_handled (op : Operation) (u : User) (σ : gmap string Application) :
  actor op = Some u -> authenticated u -> permitted op u = true ->
  perform op σ = handle op u σ.
Proof.
  intros Hu Hauth Hperm.
  destruct (perform_cases isModelLoaded predictCreditScore op σ)
    as [[r [_ [_ Hno]]] | [[v [r [Hv [_ [Hp _]]]]] | [v [Hv [_ [_ Hr]]]]]].
  - exfalso. exact (Hno u Hu Hauth).
  - congruence.
  - congruence.
Qed.

(** One request leaves the identifiers of the store and every application
    it does not address as they were. *)
Lemma perform_frame (op : Operation) (σ : gmap string Application) :
  dom (snd (perform op σ)) = dom σ
  /\ forall id, id <> target op -> snd (perform op σ) !! id = σ !! id.
Proof.
  pose proof (perform_outcome isModelLoaded predictCreditScore op σ) as Ho.
  inversion Ho as [resp Hrej Heq | resp a a' Hacc Ha _ Heq | resp Hacc Heq];
    cbn [snd]; try (split; reflexivity).
  split.
  - apply dom_insert_lookup_L. rewrite Ha. eauto.
  - intros id Hid. apply lookup_insert_ne. congruence.
Qed.

Lemma run_snoc (ops : list Operation) (op : Operation) (σ : gmap string Application) :
  run isModelLoaded predictCreditScore (ops ++ [op])%list σ
  = snd (perform op (run isModelLoaded predictCreditScore ops σ)).
Proof. unfold run. rewrite fold_left_app. reflexivity. Qed.

(** Property X16. No sequence of requests creates or deletes an application,
    and a request leaves the applications it does not address untouched. *)
Theorem operations_keep_the_collection (ops : list Operation)
        (σ : gmap string Application) :
  dom (run isModelLoaded predictCreditScore ops σ) = dom σ
  /\ forall id, Forall (fun op => target op <> id) ops ->
                run isModelLoaded predictCreditScore ops σ !! id = σ !! id.
Proof.
  induction ops as [|op ops IH] using rev_ind.
  - split; reflexivity.
  - rewrite run_snoc. destruct IH as [IHd IHf].
    destruct (perform_frame op (run isModelLoaded predictCreditScore ops σ))
      as [Hd Hf].
    split; [congruence|].
    intros id Hall. apply Forall_app in Hall as [Hops Hop].
    apply Forall_inv in Hop. rewrite Hf by congruence. auto.
Qed.

Lemma extends_refl (a : Application) : extends a a.
Proof. unfold extends. repeat split; reflexivity. Qed.

Lemma extends_trans (a b c : Application) :
  extends a b -> extends b c -> extends a c.
Proof.
  unfold extends.
  intros (H1 & H2 & H3 & H4 & H5 & H6 & H7 & H8)
         (K1 & K2 & K3 & K4 & K5 & K6 & K7 & K8).
  repeat split; try congruence; etrans; eassumption.
Qed.

(** A rejected request leaves the store as it was. *)
Lemma rejected_unchanged (op : Operation) (σ : gmap string Application) :
  ok (fst (perform op σ)) = false -> snd (perform op σ) = σ.
Proof.
  intros Hrej.
  pose proof (perform_outcome isModelLoaded predictCreditScore op σ) as Ho.
  inversion Ho as [resp Hr Heq | resp a a' Hacc Ha _ Heq | resp Hacc Heq];
    rewrite <- Heq in Hrej; cbn [fst snd] in *; congruence.
Qed.

Lemma review_step (op : Operation) (σ : gmap string Application)
      (id : string) (a : Application) :
  review op -> σ !! id = Some a ->
  exists a', snd (perform op σ) !! id = Some a' /\ extends a a'.
Proof.
  intros Hrev Ha.
  destruct (perform op σ) as [resp σ'] eqn:Hrun. cbn [snd].
  destruct (ok resp) eqn:Hok.
  2:{ pose proof (rejected_unchanged op σ) as Hu. rewrite Hrun in Hu.
      cbn [fst snd] in Hu. rewrite (Hu Hok). exists a. split; [exact Ha|].
      apply extends_refl. }
  destruct (accepted_handled op σ σ' resp Hrun Hok) as (u & _ & _ & _ & Hh).
  assert (Hcase : forall (k : string) (b b' : Application),
             σ !! k = Some b -> σ' = <[k := b']> σ -> extends b b' ->
             exists a', σ' !! id = Some a' /\ extends a a').
  { intros k b b' Hb -> Hext. destruct (decide (k = id)) as [->|Hne].
    - rewrite lookup_insert_eq. exists b'. split; [reflexivity|]. congruence.
    - rewrite lookup_insert_ne by exact Hne. exists a. split; [exact Ha|].
      apply extends_refl. }
  destruct op as [req|req|req|req|req|req]; cbn [handle review] in *.
  - destruct Hrev.
  - destruct (submit_accepted _ _ _ _ _ Hh Hok) as (b & Hb & _ & Hs).
    apply (Hcase _ _ _ Hb Hs). unfold extends. cbn.
    repeat split; try reflexivity. apply prefix_app_r. reflexivity.
  - destruct (documents_accepted _ _ _ _ _ Hh Hok) as (b & Hb & _ & Hs).
    apply (Hcase _ _ _ Hb Hs). unfold extends. cbn.
    repeat split; try reflexivity; apply prefix_app_r; reflexivity.
  - destruct (assign_accepted _ _ _ _ _ Hh Hok) as (b & Hb & Hs).
    apply (Hcase _ _ _ Hb Hs). unfold extends. cbn.
    repeat split; try reflexivity. apply prefix_app_r. reflexivity.
  - destruct (notes_accepted _ _ _ _ _ Hh Hok) as (b & text & Hb & _ & _ & Hs).
    apply (Hcase _ _ _ Hb Hs). unfold extends. cbn.
    repeat split; try reflexivity; apply prefix_app_r; reflexivity.
  - destruct (analyze_accepted _ _ _ _ _ Hh Hok) as (_ & Hraw & Hstored).
    destruct (truthy (bodyApplicationId (body (setUser req u)))) eqn:Ht.
    + destruct (Hstored eq_refl) as (b & p & Hb & _ & Hs).
      apply (Hcase _ _ _ Hb Hs). unfold extends. cbn.
      repeat split; try reflexivity. apply prefix_app_r. reflexivity.
    + rewrite (Hraw eq_refl). exists a. split; [exact Ha|]. apply extends_refl.
Qed.

(** Property X17. Through any sequence of submit, documents, assign, notes and
    analyze requests, whoever sends them and whatever they answer, a stored
    application keeps its identifier, applicant, loan, financial data and
    completion time, and its audit trail, documents and review notes only grow
    at the end. *)
Theorem review_operations_preserve_history (ops : list Operation)
        (σ : gmap string Application) (id : string) (a : Application)
        (Hreview : Forall review ops) (Ha : σ !! id = Some a) :
  exists a', run isModelLoaded predictCreditScore ops σ !! id = Some a'
             /\ extends a a'.
Proof.
  induction ops as [|op ops IH] using rev_ind.
  - exists a. split; [exact Ha|]. apply extends_refl.
  - apply Forall_app in Hreview as [Hops Hop]. apply Forall_inv in Hop.
    destruct (IH Hops) as (b & Hb & Hab).
    rewrite run_snoc.
    destruct (review_step op _ id b Hop Hb) as (c & Hc & Hbc).
    exists c. split; [exact Hc|]. exact (extends_trans _ _ _ Hab Hbc).
Qed.

Lemma objectAssign_auditTrail (fields : list UpdateField) (a : Application) :
  auditTrail (objectAssign a fields)
  = match lastAuditTrail fields with Some v => v | None => auditTrail a end.
Proof.
  unfold objectAssign. revert a.
  induction fields as [|f rest IH]; intros a; [reflexivity|].
  cbn [fold_left lastAuditTrail]. rewrite IH.
  destruct (lastAuditTrail rest); [reflexivity|].
  destruct f; reflexivity.
Qed.

Lemma lastAuditTrail_carries (fields : list UpdateField) (v : list AuditEntry) :
  lastAuditTrail fields = Some v -> carries "auditTrail" fields.
Proof.
  unfold carries. revert v. induction fields as [|f rest IH]; [discriminate|].
  intros v. cbn [lastAuditTrail map In]. destruct (lastAuditTrail rest) as [l|].
  - intros _. right. apply (IH l). reflexivity.
  - destruct f; try discriminate. intros _. left. reflexivity.
Qed.

(** Property X18. An accepted request on a stored application appends exactly
    one entry to its audit trail, naming the route's action, the actor, the
    time and the address of the request, provided it is not an update whose
    body has an auditTrail key. *)
Theorem accepted_operation_is_audited
        (op : Operation) (σ σ' : gmap string Application) (resp : Response)
        (Hrun : perform op σ = (resp, σ')) (Hok : ok resp = true)
        (Haddr : addresses op)
        (Hkeeps : forall req, op = Update req -> ~ carries "auditTrail" (body req)) :
  exists u a a' e,
    actor op = Some u /\ σ !! target op = Some a /\ σ' !! target op = Some a'
    /\ auditTrail a' = (auditTrail a ++ [e])%list
    /\ action e = actionName op /\ performedBy e = userId u
    /\ auditTimestamp e = clock op /\ Lifecycle.requestIp e = origin op.
Proof.
  destruct (accepted_handled op σ σ' resp Hrun Hok) as (u & Hu & _ & _ & Hh).
  exists u.
  destruct op as [req|req|req|req|req|req];
    cbn [handle target actionName clock origin addresses actor] in *.
  - destruct (update_accepted _ _ _ _ _ Hh Hok) as (b & Hb & _ & _ & ->).
    cbn [paramsId setUser body] in *.
    eexists b, _, _. split; [exact Hu|]. split; [exact Hb|].
    split; [apply lookup_insert_eq|].
    cbn [addAuditEntry auditTrail setAuditTrail].
    rewrite objectAssign_auditTrail.
    destruct (lastAuditTrail (body req)) as [v|] eqn:Hv.
    + exfalso. apply (Hkeeps req eq_refl).
      exact (lastAuditTrail_carries _ _ Hv).
    + cbn. repeat split; reflexivity.
  - destruct (submit_accepted _ _ _ _ _ Hh Hok) as (b & Hb & _ & ->).
    cbn [paramsId setUser body] in *.
    eexists b, _, _. split; [exact Hu|]. split; [exact Hb|].
    split; [apply lookup_insert_eq|]. cbn. repeat split; reflexivity.
  - destruct (documents_accepted _ _ _ _ _ Hh Hok) as (b & Hb & _ & ->).
    cbn [paramsId setUser body] in *.
    eexists b, _, _. split; [exact Hu|]. split; [exact Hb|].
    split; [apply lookup_insert_eq|]. cbn. repeat split; reflexivity.
  - destruct (assign_accepted _ _ _ _ _ Hh Hok) as (b & Hb & ->).
    cbn [paramsId setUser body] in *.
    eexists b, _, _. split; [exact Hu|]. split; [exact Hb|].
    split; [apply lookup_insert_eq|]. cbn. repeat split; reflexivity.
  - destruct (notes_accepted _ _ _ _ _ Hh Hok) as (b & text & Hb & _ & _ & ->).
    cbn [paramsId setUser body] in *.
    eexists b, _, _. split; [exact Hu|]. split; [exact Hb|].
    split; [apply lookup_insert_eq|]. cbn. repeat split; reflexivity.
  - destruct (analyze_accepted _ _ _ _ _ Hh Hok) as (_ & _ & Hstored).
    destruct (Hstored Haddr) as (b & p & Hb & _ & ->).
    cbn [paramsId setUser body] in *.
    eexists b, _, _. split; [exact Hu|]. split; [exact Hb|].
    split; [apply lookup_insert_eq|]. cbn. repeat split; reflexivity.
Qed.

(** Property X19. An accepted update whose body has an auditTrail key replaces
    the stored trail by the body's (last) value; the only entry after it is
    the one of the update itself, which lists the keys of the body and the
    status the application now has. *)
Theorem update_can_rewrite_audit_trail
        (req : Request (list UpdateField)) (σ σ' : gmap string Application)
        (resp : Response) (v : list AuditEntry)
        (Hrun : perform (Update req) σ = (resp, σ')) (Hok : ok resp = true)
        (Hv : lastAuditTrail (body req) = Some v) :
  exists u a',
    tokenUser req = Some u /\ σ' !! paramsId req = Some a'
    /\ auditTrail a'
       = (v ++ [mkAuditEntry "application_updated" (userId u) (now req)
                  (DUpdated (map fieldKey (body req)) (status a')) (ip req)])%list.
Proof.
  destruct (accepted_handled _ σ σ' resp Hrun Hok) as (u & Hu & _ & _ & Hh).
  cbn [handle actor] in *.
  destruct (update_accepted _ _ _ _ _ Hh Hok) as (b & Hb & _ & _ & ->).
  cbn [paramsId setUser body] in *.
  exists u. eexists. split; [exact Hu|]. split; [apply lookup_insert_eq|].
  cbn [addAuditEntry auditTrail setAuditTrail status now ip setUser].
  rewrite objectAssign_auditTrail, Hv. reflexivity.
Qed.

(** Property X20. Once a submit has been accepted, every later submit of the
    same application is refused and changes nothing, whoever sends it. *)
Theorem submit_only_once
        (req req' : Request unit) (σ σ' : gmap string Application)
        (resp : Response)
        (Hrun : perform (Submit req) σ = (resp, σ')) (Hok : ok resp = true)
        (Hsame : paramsId req' = paramsId req) :
  ok (fst (perform (Submit req') σ')) = false
  /\ snd (perform (Submit req') σ') = σ'.
Proof.
  destruct (accepted_handled _ σ σ' resp Hrun Hok) as (u & Hu & _ & _ & Hh).
  cbn [handle actor] in *.
  destruct (submit_accepted _ _ _ _ _ Hh Hok) as (b & Hb & _ & Hs).
  cbn [paramsId setUser] in *.
  assert (Hrej : ok (fst (perform (Submit req') σ')) = false).
  { destruct (perform_cases isModelLoaded predictCreditScore (Submit req') σ')
      as [[r [-> [Hc _]]] | [[v [r [_ [_ [_ [-> Hc]]]]]] | [v [_ [_ [_ ->]]]]]];
      cbn [fst]; try (unfold ok; rewrite Hc; reflexivity).
    cbn [handle]. unfold submitHandler. cbn [paramsId setUser].
    rewrite Hsame, Hs, lookup_insert_eq. reflexivity. }
  split; [exact Hrej|]. apply rejected_unchanged. exact Hrej.
Qed.

(** The handlers answer neither 401 nor 403. *)
Lemma handle_codes (op : Operation) (u : User) (σ : gmap string Application) :
  code (fst (handle op u σ)) <> 401%nat /\ code (fst (handle op u σ)) <> 403%nat.
Proof.
  destruct op as [req|req|req|req|req|req]; cbn [handle];
    unfold updateHandler, submitHandler, documentsHandler, assignHandler,
           notesHandler, analyzeHandler, runAnalysis;
    repeat case_match; cbn [fst code]; split; discriminate.
Qed.

(** Property X21. A request is answered 401 exactly when its token resolves to
    no active, unlocked user, and 403 exactly when it resolves to one who
    lacks the permission or role of the route. *)
Theorem authentication_and_permission_codes
        (op : Operation) (σ : gmap string Application) :
  (code (fst (perform op σ)) = 401%nat
   <-> ~ exists u, actor op = Some u /\ authenticated u)
  /\ (code (fst (perform op σ)) = 403%nat
      <-> exists u, actor op = Some u /\ authenticated u
                    /\ permitted op u = false).
Proof.
  destruct (perform_cases isModelLoaded predictCreditScore op σ)
    as [[r [-> [Hc Hno]]] | [[u [r [Hu [Hauth [Hp [-> Hc]]]]]] | [u [Hu [Hauth [Hp ->]]]]]];
    cbn [fst].
  - rewrite Hc. split; split.
    + intros _ (u & Hu & Hauth). exact (Hno u Hu Hauth).
    + reflexivity.
    + discriminate.
    + intros (u & Hu & Hauth & _). exfalso. exact (Hno u Hu Hauth).
  - rewrite Hc. split; split.
    + discriminate.
    + intros Hnone. exfalso. apply Hnone. eauto.
    + eauto.
    + reflexivity.
  - destruct (handle_codes op u σ) as [H1 H3]. split; split.
    + intros E. exfalso. exact (H1 E).
    + intros Hnone. exfalso. apply Hnone. eauto.
    + intros E. exfalso. exact (H3 E).
    + intros (v & Hv & _ & Hq). congruence.
Qed.

Lemma permitted_assign (req : Request (option string)) (u : User) :
  permitted (Assign req) u = true <-> role u = "admin" \/ role u = "underwriter".
Proof.
  cbn [permitted existsb].
  destruct (String.eqb_spec (role u) "admin") as [E1|N1];
    destruct (String.eqb_spec (role u) "underwriter") as [E2|N2];
    cbn [orb]; intuition congruence.
Qed.

(** Property X22. For an authenticated actor and an existing application,
    assign is accepted exactly when the actor's role is admin or underwriter,
    whatever grants the actor holds and whatever the status of the
    application; it then stores the assignee of the body, present or not, and
    the time of the request, and sets the status under_review. *)
Theorem assignment_needs_the_role_only
        (req : Request (option string)) (σ : gmap string Application)
        (u : User) (a : Application)
        (Hu : tokenUser req = Some u) (Hauth : authenticated u)
        (Ha : σ !! paramsId req = Some a) :
  (ok (fst (perform (Assign req) σ)) = true
   <-> role u = "admin" \/ role u = "underwriter")
  /\ (role u = "admin" \/ role u = "underwriter" ->
      exists a',
        perform (Assign req) σ
        = (mkResponse 200 "Application assigned successfully",
           <[paramsId req := a']> σ)
        /\ assignedTo (manualReview a') = body req
        /\ assignedAt (manualReview a') = Some (now req)
        /\ reviewNotes (manualReview a') = reviewNotes (manualReview a)
        /\ status a' = under_review
        /\ documents a' = documents a
        /\ aiAssessment a' = aiAssessment a
        /\ submittedAt a' = submittedAt a).
Proof.
  assert (Hacc : role u = "admin" \/ role u = "underwriter" ->
                 perform (Assign req) σ
                 = assignHandler u (setUser req u) σ).
  { intros Hrole. apply permitted_assign with (req := req) in Hrole.
    exact (authorised_handled (Assign req) u σ Hu Hauth Hrole). }
  split; [split|].
  - intros Hok.
    destruct (perform (Assign req) σ) as [resp σ'] eqn:Hrun. cbn [fst] in Hok.
    destruct (accepted_handled _ σ σ' resp Hrun Hok) as (v & Hv & _ & Hp & _).
    cbn [actor] in Hv. assert (v = u) as -> by congruence.
    apply permitted_assign in Hp. exact Hp.
  - intros Hrole. rewrite (Hacc Hrole). unfold assignHandler.
    cbn [paramsId setUser]. rewrite Ha. reflexivity.
  - intros Hrole. rewrite (Hacc Hrole). unfold assignHandler.
    cbn [paramsId setUser body now]. rewrite Ha.
    eexists. split; [reflexivity|]. cbn. repeat split; reflexivity.
Qed.

(** Property X23. An analysis of raw applicant data never writes to the store.
    An analysis is accepted only while the model is loaded; one that names a
    stored application scores the data converted from that application,
    whatever applicantData the body carries, and stores the prediction, the
    fraud assessment, the actor and the time as its aiAssessment, leaving
    status, manual review and submission time as they were. *)
Theorem analysis_is_stored_with_the_application
        (req : Request AnalyzeBody) (σ σ' : gmap string Application)
        (resp : Response)
        (Hrun : perform (Analyze req) σ = (resp, σ')) :
  (truthy (bodyApplicationId (body req)) = false -> σ' = σ)
  /\ (ok resp = true ->
      isModelLoaded = true
      /\ (truthy (bodyApplicationId (body req)) = true ->
          exists u a a' p,
            tokenUser req = Some u
            /\ σ !! target (Analyze req) = Some a
            /\ σ' !! target (Analyze req) = Some a'
            /\ predictCreditScore (dataToAnalyze a (now req)) (now req) = inr p
            /\ aiAssessment a'
               = Some (mkFullAssessment p
                         (Scoring.evaluateFraudRisk (dataToAnalyze a (now req)))
                         (bodyApplicationId (body req)) (userId u) (now req))
            /\ status a' = status a
            /\ manualReview a' = manualReview a
            /\ submittedAt a' = submittedAt a)).
Proof.
  assert (Hacc : ok resp = true ->
                 exists u, tokenUser req = Some u
                           /\ analyzeHandler isModelLoaded predictCreditScore u
                                (setUser req u) σ = (resp, σ')).
  { intros Hok.
    destruct (accepted_handled _ σ σ' resp Hrun Hok) as (u & Hu & _ & _ & Hh).
    exists u. split; [exact Hu | exact Hh]. }
  split.
  - intros Hraw. destruct (ok resp) eqn:Hok.
    + destruct (Hacc eq_refl) as (u & _ & Hh).
      destruct (analyze_accepted _ _ _ _ _ Hh Hok) as (_ & Hsame & _).
      apply Hsame. exact Hraw.
    + pose proof (rejected_unchanged (Analyze req) σ) as Hu.
      rewrite Hrun in Hu. exact (Hu Hok).
  - intros Hok. destruct (Hacc Hok) as (u & Hu & Hh).
    destruct (analyze_accepted _ _ _ _ _ Hh Hok) as (Hloaded & _ & Hstored).
    split; [exact Hloaded|]. intros Hid.
    destruct (Hstored Hid) as (a & p & Ha & Hp & ->).
    cbn [target paramsId setUser body now] in *.
    exists u, a. eexists. exists p.
    split; [exact Hu|]. split; [exact Ha|].
    split; [apply lookup_insert_eq|]. split; [exact Hp|].
    cbn. repeat split; reflexivity.
Qed.



(** Property X25. An accepted note is answered 201 and appends one review note
    with the text of the body, its category or general when the body has none,
    the actor and the time of the request; assignment and status stay as they
    were. *)
Theorem review_note_appended
        (req : Request NoteBody) (σ σ' : gmap string Application)
        (resp : Response)
        (Hrun : perform (Notes req) σ = (resp, σ')) (Hok : ok resp = true) :
  exists u a a' text,
    tokenUser req = Some u
    /\ σ !! paramsId req = Some a /\ σ' !! paramsId req = Some a'
    /\ bodyNote (body req) = Some text /\ text <> ""
    /\ reviewNotes (manualReview a')
       = (reviewNotes (manualReview a)
          ++ [mkReviewNote text (strOr (bodyCategory (body req)) "general")
                (userId u) (now req)])%list
    /\ assignedTo (manualReview a') = assignedTo (manualReview a)
    /\ assignedAt (manualReview a') = assignedAt (manualReview a)
    /\ status a' = status a
    /\ code resp = 201%nat.
Proof.
  destruct (accepted_handled _ σ σ' resp Hrun Hok) as (u & Hu & _ & _ & Hh).
  cbn [handle actor] in *.
  assert (Hcode : code resp = 201%nat).
  { revert Hh Hok. unfold notesHandler. repeat case_match;
      intros [= <- <-]; try discriminate; reflexivity. }
  destruct (notes_accepted _ _ _ _ _ Hh Hok) as (a & text & Ha & Ht & Hne & ->).
  cbn [paramsId setUser body now] in *.
  exists u, a. eexists. exists text.
  split; [exact Hu|]. split; [exact Ha|]. split; [apply lookup_insert_eq|].
  split; [exact Ht|]. split; [exact Hne|]. cbn. repeat split; try reflexivity.
  exact Hcode.
Qed.

(** Property X26. An accepted upload carries at least one file and appends one
    document per file, in order, dated with the time of the request; the i-th
    document takes the i-th entry of documentTypes, no type at all when that
    list is shorter, and the type other when the body has no documentTypes. *)
Theorem documents_appended
        (req : Request DocumentsBody) (σ σ' : gmap string Application)
        (resp : Response)
        (Hrun : perform (Documents req) σ = (resp, σ')) (Hok : ok resp = true) :
  exists a a' new,
    σ !! paramsId req = Some a /\ σ' !! paramsId req = Some a'
    /\ documents a' = (documents a ++ new)%list
    /\ length new = length (files (body req))
    /\ (0 < length new)%nat
    /\ (forall i file, files (body req) !! i = Some file ->
          exists d, new !! i = Some d
                    /\ filename d = fileFilename file
                    /\ Lifecycle.size d = fileSize file
                    /\ uploadDate d = now req
                    /\ docType d = match documentTypes (body req) with
                                   | Some types => types !! i
                                   | None => Some "other"
                                   end)
    /\ status a' = status a.
Proof.
  destruct (accepted_handled _ σ σ' resp Hrun Hok) as (u & Hu & _ & _ & Hh).
  cbn [handle actor] in *.
  destruct (documents_accepted _ _ _ _ _ Hh Hok) as (a & Ha & Hfiles & ->).
  cbn [paramsId setUser body now] in *.
  exists a. eexists. exists (uploaded (body req) (now req)).
  split; [exact Ha|]. split; [apply lookup_insert_eq|].
  split; [reflexivity|].
  assert (Hlen : length (uploaded (body req) (now req))
                 = length (files (body req))).
  { unfold uploaded. apply length_imap. }
  split; [exact Hlen|]. split.
  { rewrite Hlen. destruct (files (body req)); [congruence | cbn; lia]. }
  split; [|reflexivity].
  intros i file Hi. unfold uploaded. rewrite list_lookup_imap, Hi.
  eexists. split; [reflexivity|]. cbn. repeat split; reflexivity.
Qed.

End OperationFacts.

(** ** Registration *)

Section RegistrationFacts.

Import Js Http Auth Spec Effects.

Lemma strOr_truthy (s : option string) (d : string) :
  truthy s = true -> Some (strOr s d) = s.
Proof. destruct s as [[|c r]|]; try discriminate; reflexivity. Qed.

(** The handler of the registration route, once reached. *)
Lemma register_creates (existing : bool) (body : RegisterBody) :
  (is_Some (snd (register existing body))
   <-> existing = false /\ complete body = true)
  /\ (forall u, snd (register existing body) = Some u ->
        code (fst (register existing body)) = 201%nat
        /\ Some (nUsername u) = rUsername body
        /\ Some (nEmail u) = rEmail body
        /\ nRole u = strOr (rRole body) "analyst"
        /\ forall role, In role roles ->
             rRole body = Some role \/ (role = "analyst" /\ truthy (rRole body) = false) ->
             nRole u = role
             /\ exists set, nPermissions u = Own set
                            /\ forall res act, grants set res act = true
                                               <-> allowed role res act).
Proof.
  unfold register, complete.
  destruct existing.
  { split; [split|].
    - intros [u Hu]. discriminate.
    - intros [H _]. discriminate.
    - intros u Hu. discriminate. }
  destruct (truthy (rUsername body)) eqn:H1; cbn [negb orb andb];
    [|split; [split; [intros [u Hu]; discriminate | intros [_ H]; discriminate]
             | intros u Hu; discriminate]].
  destruct (truthy (rEmail body)) eqn:H2; cbn [negb orb andb];
    [|split; [split; [intros [u Hu]; discriminate | intros [_ H]; discriminate]
             | intros u Hu; discriminate]].
  destruct (truthy (rPassword body)) eqn:H3; cbn [negb orb andb];
    [|split; [split; [intros [u Hu]; discriminate | intros [_ H]; discriminate]
             | intros u Hu; discriminate]].
  destruct (truthy (rFirstName body)) eqn:H4; cbn [negb orb andb];
    [|split; [split; [intros [u Hu]; discriminate | intros [_ H]; discriminate]
             | intros u Hu; discriminate]].
  destruct (truthy (rLastName body)) eqn:H5; cbn [negb orb andb];
    [|split; [split; [intros [u Hu]; discriminate | intros [_ H]; discriminate]
             | intros u Hu; discriminate]].
  destruct (truthy (rDepartment body)) eqn:H6; cbn [negb orb andb];
    [|split; [split; [intros [u Hu]; discriminate | intros [_ H]; discriminate]
             | intros u Hu; discriminate]].
  cbn [fst snd code]. split; [split; eauto|].
  intros u [= <-]. cbn [nUsername nEmail nRole nPermissions].
  split; [reflexivity|].
  split; [apply strOr_truthy; exact H1|].
  split; [apply strOr_truthy; exact H2|].
  split; [reflexivity|].
  intros role Hin Hrole.
  assert (Hr : strOr (rRole body) "analyst" = role).
  { destruct Hrole as [-> | [-> Hnone]].
    - unfold roles in Hin. cbn [In] in Hin.
      destruct Hin as [<-|[<-|[<-|[<-|[]]]]]; reflexivity.
    - destruct (rRole body) as [[|c r]|]; try discriminate; reflexivity. }
  rewrite Hr. split; [reflexivity|].
  unfold roles in Hin. cbn [In] in Hin.
  destruct Hin as [<-|[<-|[<-|[<-|[]]]]].
  - exists adminSet. split; [reflexivity | apply grants_admin].
  - exists underwriterSet. split; [reflexivity | apply grants_underwriter].
  - exists analystSet. split; [reflexivity | apply grants_analyst].
  - exists viewerSet. split; [reflexivity | apply grants_viewer].
Qed.

(** Property X27. Registration creates a user exactly when the limiter of the
    route lets the request through, no user with the email or username
    exists and the six required fields are present and not empty. The role
    is the one the body asks for: whoever registers with one of the four
    roles gets that role and its grant set, admin included; without a role
    the user is an analyst. *)
Theorem registration_takes_the_role_of_the_body
        (limited existing : bool) (body : RegisterBody) :
  let result := AuthRoutes.registerRoute limited existing body in
  (is_Some (snd result)
   <-> limited = false /\ existing = false /\ complete body = true)
  /\ (limited = true -> code (fst result) = 429%nat)
  /\ (forall u, snd result = Some u ->
        code (fst result) = 201%nat
        /\ Some (nUsername u) = rUsername body
        /\ Some (nEmail u) = rEmail body
        /\ nRole u = strOr (rRole body) "analyst"
        /\ forall role, In role roles ->
             rRole body = Some role \/ (role = "analyst" /\ truthy (rRole body) = false) ->
             nRole u = role
             /\ exists set, nPermissions u = Own set
                            /\ forall res act, grants set res act = true
                                               <-> allowed role res act).
Proof.
  cbv zeta. unfold AuthRoutes.registerRoute. destruct limited.
  - cbn [fst snd]. split; [split|split].
    + intros [u Hu]. discriminate.
    + intros [H _]. discriminate.
    + reflexivity.
    + intros u Hu. discriminate.
  - destruct (register_creates existing body) as [Hiff Hcreated].
    split; [|split].
    + rewrite Hiff. tauto.
    + discriminate.
    + exact Hcreated.
Qed.

End RegistrationFacts.

(** ** Further scenarios *)

Section MoreScenarios.

Import Js Http Auth Lifecycle Spec Effects.

Local Abbreviation run := (perform true Scenario.predict).

(** Three changes of the profile at 0, 1 and 2 seconds: a fourth request
    finds all three on record. *)
Lemma limiter_records_at_most_max_witness :
  snd (RateLimit.serve 3 900000 (map Example.at_ [0; 1000; 2000; 3000]%Z) ∅)
    !! RateLimit.keyOf (Example.at_ 0)
  = Some [0; 1000; 2000]%Z
  /\ (Z.of_nat (length [0; 1000; 2000]%Z) <= 3)%Z.
Proof.
  assert (Hk : snd (RateLimit.serve 3 900000
                      (map Example.at_ [0; 1000; 2000; 3000]%Z) ∅)
                 !! RateLimit.keyOf (Example.at_ 0)
               = Some [0; 1000; 2000]%Z) by (vm_compute; reflexivity).
  split; [exact Hk|].
  exact (limiter_records_at_most_max 3 900000 _ _ _ Hk).
Defined.

(** Half a second after the window of the first change has passed, a
    fourth change is let through. *)
Lemma limiter_admits_iff_witness :
  exists req',
    fst (RateLimit.sensitiveRateLimit 3 900000 (Example.at_ 900500)
           (snd (RateLimit.serve 3 900000
                   (map Example.at_ [0; 1000; 2000]%Z) ∅)))
    = inr req'.
Proof.
  apply (limiter_admits_iff 3 900000 (map Example.at_ [0; 1000; 2000]%Z)
                            (Example.at_ 900500)).
  - repeat constructor; cbn; lia.
  - vm_compute. reflexivity.
Defined.

(** The fourth change within three seconds is turned away and told to come
    back in 897 seconds. *)
Lemma limiter_rejection_witness :
  let attempts := snd (RateLimit.serve 3 900000
                         (map Example.at_ [0; 1000; 2000]%Z) ∅) in
  let result := RateLimit.sensitiveRateLimit 3 900000 (Example.at_ 3000) attempts in
  (RateLimit.retryAfter <$> (match fst result with inl lim => Some lim | inr _ => None end))
  = Some (Some 897%Z)
  /\ snd result !! RateLimit.keyOf (Example.at_ 3000) = Some [0; 1000; 2000]%Z.
Proof.
  intros attempts result.
  assert (Hrun : RateLimit.sensitiveRateLimit 3 900000 (Example.at_ 3000) attempts
                 = (inl (RateLimit.mkLimited
                           (mkResponse 429 "Too many attempts. Please try again later.")
                           (Some 897%Z)),
                    snd result)) by (vm_compute; reflexivity).
  destruct (limiter_rejection 3 900000 _ _ _ _ Hrun) as (_ & Hkey & _ & _).
  split.
  - unfold result. rewrite Hrun. reflexivity.
  - rewrite Hkey. vm_compute. reflexivity.
Defined.

(** Forty-five documents at twenty a page make three pages. *)
Lemma pages_cover_the_listing_witness :
  concat (map (fun p => Listing.pageItems 20 p Example.documents45) (seqZ 1 3))
  = Example.documents45.
Proof.
  apply (pages_cover_the_listing 20 Example.documents45). lia.
Defined.

(** The second of them has twenty documents, a next and a previous page. *)
Lemma page_of_the_listing_witness :
  let result := Listing.listApplications (Listing.mkQuery (Some 2%Z) None)
                                         Example.documents45 in
  length (Listing.pageItems 20 2 Example.documents45) = 20%nat
  /\ (Listing.hasNext (snd result) = true <-> (2 * 20 < 45)%Z).
Proof.
  intros result.
  destruct (page_of_the_listing (Listing.mkQuery (Some 2%Z) None)
                                Example.documents45)
    as (_ & Hlen & Hnext & _).
  - cbn. lia.
  - cbn. lia.
  - split; [exact Hlen | exact Hnext].
Defined.


(** The strong applicant owes little: neither the recommendation nor the
    factor appears. *)
Lemma reduce_loan_iff_debt_factor_witness :
  exists p, Scenario.predict Example.strong 0 = inr p
            /\ (In "REDUCE_LOAN_AMOUNT" (recommended p)
                <-> In "Debt-to-Income" (flagged p)).
Proof.
  destruct (Scenario.predict Example.strong 0) as [msg|p] eqn:E;
    [vm_compute in E; discriminate|].
  assert (Hp : produced Example.strong p).
  { right. exists (fun _ => 1%Q), (1 # 2), (Scoring.DemoEngine.mk true), 0%Z.
    exact E. }
  exists p. split; [reflexivity|].
  exact (reduce_loan_iff_debt_factor Example.strong p Hp).
Defined.

Lemma risk_level_and_recommendations_witness :
  exists p, Scenario.predict Example.strong 0 = inr p
            /\ (Scoring.predRiskLevel p = Scoring.LOW
                <-> In "APPROVE_STANDARD" (recommended p)).
Proof.
  destruct (Scenario.predict Example.strong 0) as [msg|p] eqn:E;
    [vm_compute in E; discriminate|].
  assert (Hp : produced Example.strong p).
  { right. exists (fun _ => 1%Q), (1 # 2), (Scoring.DemoEngine.mk true), 0%Z.
    exact E. }
  exists p. split; [reflexivity|].
  exact (proj1 (risk_level_and_recommendations Example.strong p Hp)).
Defined.

(** No fraud rule fires for the strong applicant, so no investigation is
    proposed. *)
Lemma next_steps_follow_assessment_witness :
  exists p, Scenario.predict Example.strong 0 = inr p
            /\ ~ In "fraud_investigation"
                    (proposed (mkFullAssessment p
                                 (Scoring.evaluateFraudRisk Example.strong)
                                 None "u-analyst" 0)).
Proof.
  destruct (Scenario.predict Example.strong 0) as [msg|p] eqn:E;
    [vm_compute in E; discriminate|].
  assert (Hp : produced Example.strong p).
  { right. exists (fun _ => 1%Q), (1 # 2), (Scoring.DemoEngine.mk true), 0%Z.
    exact E. }
  exists p. split; [reflexivity|].
  destruct (next_steps_follow_assessment Example.strong
              (mkFullAssessment p (Scoring.evaluateFraudRisk Example.strong)
                                None "u-analyst" 0) Hp eq_refl)
    as (_ & _ & _ & _ & Hfraud).
  intros H. apply Hfraud in H. vm_compute in H. discriminate.
Defined.

(** The new hire's missing employment length counts as less than a year. *)
Lemma missing_employment_length_reads_two_ways_witness :
  In "High income with short employment history"
     (Scoring.riskFactors
        (Scoring.evaluateFraudRisk (dataToAnalyze Example.newHire 0))).
Proof.
  apply (missing_employment_length_reads_two_ways Example.newHire 0);
    reflexivity.
Defined.

(** A draft is submitted, assigned and annotated. *)
Lemma review_operations_preserve_history_witness :
  exists a',
    Effects.run true Scenario.predict
      [Submit (Scenario.request Scenario.analyst tt);
       Assign (Scenario.request Scenario.admin (Some "u-analyst"));
       Notes (Scenario.request Scenario.analyst
                (mkNoteBody (Some "income verified") None))]
      (Scenario.store draft) !! "APP-1" = Some a'
    /\ extends (Scenario.application draft) a'.
Proof.
  apply (review_operations_preserve_history true Scenario.predict).
  - repeat constructor.
  - vm_compute. reflexivity.
Defined.

(** An admin assigns the approved application. *)
Lemma accepted_operation_is_audited_witness :
  let op := Assign (Scenario.request Scenario.admin (Some "u-analyst")) in
  let σ := Scenario.store approved in
  exists u a a' e,
    actor op = Some u /\ σ !! target op = Some a
    /\ snd (run op σ) !! target op = Some a'
    /\ auditTrail a' = (auditTrail a ++ [e])%list
    /\ action e = "application_assigned" /\ performedBy e = userId u
    /\ auditTimestamp e = 1700000000000%Z /\ Lifecycle.requestIp e = "10.0.0.1".
Proof.
  intros op σ.
  assert (Hrun : run op σ = (fst (run op σ), snd (run op σ)))
    by (destruct (run op σ); reflexivity).
  assert (Hok : ok (fst (run op σ)) = true) by (vm_compute; reflexivity).
  apply (accepted_operation_is_audited true Scenario.predict op σ _ _ Hrun Hok).
  - exact I.
  - intros req H. discriminate.
Defined.

(** After the submit of a draft, an update with an empty auditTrail takes
    the submit's entry out of the trail. *)
Lemma update_can_rewrite_audit_trail_witness :
  let σ := snd (run (Submit (Scenario.request Scenario.analyst tt))
                    (Scenario.store draft)) in
  let σ' := snd (run (Update (Scenario.request Scenario.analyst [UAuditTrail []]))
                     σ) in
  map action <$> (auditTrail <$> (σ !! "APP-1")) = Some ["application_submitted"]
  /\ map action <$> (auditTrail <$> (σ' !! "APP-1")) = Some ["application_updated"].
Proof.
  intros σ σ'. split; [vm_compute; reflexivity|].
  set (req := Scenario.request Scenario.analyst [UAuditTrail []]).
  assert (Hrun : run (Update req) σ = (fst (run (Update req) σ), σ'))
    by exact (surjective_pairing _).
  assert (Hok : ok (fst (run (Update req) σ)) = true) by (vm_compute; reflexivity).
  destruct (update_can_rewrite_audit_trail true Scenario.predict req σ σ' _ []
              Hrun Hok eq_refl) as (u & a' & _ & Ha' & Htrail).
  change (paramsId req) with "APP-1" in Ha'.
  rewrite Ha'. cbn [fmap option_fmap option_map]. rewrite Htrail. reflexivity.
Defined.

(** The analyst submits the draft twice. *)
Lemma submit_only_once_witness :
  let req := Scenario.request Scenario.analyst tt in
  let σ' := snd (run (Submit req) (Scenario.store draft)) in
  ok (fst (run (Submit req) σ')) = false /\ snd (run (Submit req) σ') = σ'.
Proof.
  intros req σ'.
  assert (Hrun : run (Submit req) (Scenario.store draft)
                 = (fst (run (Submit req) (Scenario.store draft)), σ'))
    by exact (surjective_pairing _).
  assert (Hok : ok (fst (run (Submit req) (Scenario.store draft))) = true)
    by (vm_compute; reflexivity).
  exact (submit_only_once true Scenario.predict req req _ σ' _ Hrun Hok eq_refl).
Defined.

(** An admin by role who holds no grant may assign. *)
Lemma assignment_needs_the_role_only_witness :
  hasPermission Example.bareAdmin "applications" "update" = false
  /\ ok (fst (run (Assign (Scenario.request Example.bareAdmin (Some "u-analyst")))
                  (Scenario.store approved))) = true.
Proof.
  split; [reflexivity|].
  apply (assignment_needs_the_role_only true Scenario.predict
           (Scenario.request Example.bareAdmin (Some "u-analyst"))
           (Scenario.store approved) Example.bareAdmin
           (Scenario.application approved)).
  - reflexivity.
  - split; reflexivity.
  - vm_compute. reflexivity.
  - left. reflexivity.
Defined.

(** An analysis of the strong applicant's raw data. *)
Lemma analysis_is_stored_with_the_application_witness :
  let op := Analyze (Scenario.request Scenario.analyst
                       (mkAnalyzeBody None (Some Example.strong))) in
  snd (run op (Scenario.store draft)) = Scenario.store draft.
Proof.
  intros op.
  assert (Hrun : run op (Scenario.store draft)
                 = (fst (run op (Scenario.store draft)),
                    snd (run op (Scenario.store draft))))
    by (destruct (run op (Scenario.store draft)); reflexivity).
  apply (analysis_is_stored_with_the_application true Scenario.predict
           _ _ _ _ Hrun).
  reflexivity.
Defined.


(** A note without a category is filed under general. *)
Lemma review_note_appended_witness :
  let op := Notes (Scenario.request Scenario.analyst
                     (mkNoteBody (Some "income verified") None)) in
  exists a',
    snd (run op (Scenario.store approved)) !! "APP-1" = Some a'
    /\ map category (reviewNotes (manualReview a')) = ["general"].
Proof.
  intros op. set (σ := Scenario.store approved).
  assert (Hrun : run op σ = (fst (run op σ), snd (run op σ)))
    by (destruct (run op σ); reflexivity).
  assert (Hok : ok (fst (run op σ)) = true) by (vm_compute; reflexivity).
  destruct (review_note_appended true Scenario.predict _ σ _ _ Hrun Hok)
    as (u & a & a' & text & _ & Ha & Ha' & _ & _ & Hnotes & _).
  exists a'. split; [exact Ha'|].
  assert (Hσ : σ !! "APP-1" = Some (Scenario.application approved))
    by (vm_compute; reflexivity).
  change (paramsId _) with "APP-1" in Ha. rewrite Hσ in Ha.
  injection Ha as <-. rewrite Hnotes, map_app. reflexivity.
Defined.

(** Two files with one document type: the second document has none. *)
Lemma documents_appended_witness :
  let op := Documents (Scenario.request Scenario.analyst
                         (mkDocumentsBody [mkFile "payslip.pdf" 1000;
                                           mkFile "id.png" 2000]
                                          (Some ["income"]))) in
  exists a' new,
    snd (run op (Scenario.store draft)) !! "APP-1" = Some a'
    /\ documents a' = new
    /\ map docType <$> Some new = Some [Some "income"; None].
Proof.
  intros op. set (σ := Scenario.store draft).
  assert (Hrun : run op σ = (fst (run op σ), snd (run op σ)))
    by (destruct (run op σ); reflexivity).
  assert (Hok : ok (fst (run op σ)) = true) by (vm_compute; reflexivity).
  destruct (documents_appended true Scenario.predict _ σ _ _ Hrun Hok)
    as (a & a' & new & Ha & Ha' & Hdocs & Hlen & _ & Hall & _).
  assert (Hσ : σ !! "APP-1" = Some (Scenario.application draft))
    by (vm_compute; reflexivity).
  change (paramsId _) with "APP-1" in Ha, Ha'. rewrite Hσ in Ha.
  injection Ha as <-. cbn [documents Scenario.application app] in Hdocs.
  exists a', new. split; [exact Ha'|]. split; [exact Hdocs|].
  destruct new as [|d1 [|d2 [|d3 rest]]]; try discriminate.
  destruct (Hall 0%nat _ eq_refl) as (e1 & H1 & _ & _ & _ & T1).
  destruct (Hall 1%nat _ eq_refl) as (e2 & H2 & _ & _ & _ & T2).
  injection H1 as <-. injection H2 as <-.
  cbn [fmap option_fmap option_map map]. rewrite T1, T2. reflexivity.
Defined.

(** Scenario D stays below the HIGH band: only one further rule fires
    with the income rule. *)
Lemma fraud_high_needs_income_rule_witness :
  Scoring.fraudRiskLevel (Scoring.evaluateFraudRisk Scenario.scenarioD)
  <> Scoring.FraudHigh.
Proof.
  intros H.
  destruct (fraud_high_needs_income_rule Scenario.scenarioD) as (_ & Hhigh & _).
  apply Hhigh in H. vm_compute in H. discriminate.
Defined.

(** The new hire in a batch. *)
Lemma batch_never_flags_fraud_witness :
  Scoring.recommendation
    (Scoring.evaluateFraudRisk (AiRoutes.batchDataToAnalyze Example.newHire))
  = Scoring.AUTOMATED_PROCESSING.
Proof.
  exact (proj1 (proj2 (proj2 (batch_never_flags_fraud Example.newHire)))).
Defined.

(** The demo engine is still loaded after [dispose]. *)
Lemma demo_dispose_never_unloads_witness :
  EngineState.isModelLoaded
    (fold_left EngineState.Demo.call
       [EngineState.InitializeModel EngineState.Succeeds; EngineState.Dispose]
       EngineState.constructor)
  = true.
Proof.
  apply (demo_dispose_never_unloads (fun _ => 1%Q) (1 # 2)
           [EngineState.InitializeModel EngineState.Succeeds; EngineState.Dispose]
           Example.strong 0).
  exists EngineState.Succeeds. left. reflexivity.
Defined.

(** The TensorFlow engine raises after [dispose]. *)
Lemma tensorflow_dispose_unloads_witness :
  let e := EngineState.TensorFlow.dispose
             (fold_left EngineState.TensorFlow.call
                [EngineState.InitializeModel EngineState.Succeeds]
                EngineState.constructor) in
  Scoring.Engine.predictCreditScore
    (Scoring.Engine.mk (EngineState.isModelLoaded e)) Example.strong (1 # 2) 0
  = inl Scoring.notLoaded.
Proof.
  exact (proj2 (tensorflow_dispose_unloads
                  [EngineState.InitializeModel EngineState.Succeeds]
                  Example.strong (1 # 2) 0)).
Defined.

(** One submitted application without an assessment raises no alert that
    is urgent. *)
Lemma alerts_of_the_store_witness :
  Dashboard.hasUrgent (Dashboard.alertsHandler 0 (Scenario.store submitted))
  <> true.
Proof.
  intros H.
  destruct (alerts_of_the_store 0 (Scenario.store submitted))
    as (_ & _ & Hurgent & _).
  apply Hurgent in H. destruct H as (id & a & Ha & Hflag).
  unfold Scenario.store in Ha. apply lookup_singleton_Some in Ha as [_ <-].
  destruct Hflag as [H|H]; vm_compute in H; discriminate.
Defined.

(** Submit and assign leave the one identifier of the store. *)
Lemma operations_keep_the_collection_witness :
  dom (Effects.run true Scenario.predict
         [Submit (Scenario.request Scenario.analyst tt);
          Assign (Scenario.request Scenario.admin (Some "u-analyst"))]
         (Scenario.store draft))
  = dom (Scenario.store draft).
Proof.
  exact (proj1 (operations_keep_the_collection true Scenario.predict
                  [Submit (Scenario.request Scenario.analyst tt);
                   Assign (Scenario.request Scenario.admin (Some "u-analyst"))]
                  (Scenario.store draft))).
Defined.

(** A locked account is answered 401. *)
Lemma authentication_and_permission_codes_witness :
  code (fst (run (Assign (Scenario.request Example.lockedAnalyst None))
                 (Scenario.store draft)))
  = 401%nat.
Proof.
  apply (authentication_and_permission_codes true Scenario.predict).
  intros (u & Hu & Hauth). injection Hu as <-.
  destruct Hauth as [_ Hlocked]. discriminate.
Defined.

(** Whoever asks for the admin role may delete users. *)
Lemma registration_takes_the_role_of_the_body_witness :
  exists u set,
    snd (AuthRoutes.registerRoute false false
           (Scenario.registration (Some "admin"))) = Some u
    /\ nRole u = "admin"
    /\ nPermissions u = Own set
    /\ grants set "users" "delete" = true.
Proof.
  destruct (registration_takes_the_role_of_the_body
              false false (Scenario.registration (Some "admin")))
    as (_ & _ & Hcreated).
  destruct (Hcreated _ eq_refl) as (_ & _ & _ & _ & Hrole).
  destruct (Hrole "admin") as (Hr & set & Hset & Hgrants).
  - left. reflexivity.
  - left. reflexivity.
  - eexists _, set. split; [reflexivity|]. split; [exact Hr|].
    split; [exact Hset|]. apply Hgrants. right. left.
    split; [reflexivity|]. cbn. auto.
Defined.

End MoreScenarios.
